(** * Research project recognition: catalog reconciliation, priority
      post-filter and template classifier of [module/research/project.py].

    The Python code is embedded shallowly.  Strings are [string], Python
    integers are [Z], insertion-ordered dicts are association lists, raised
    exceptions and logger calls are the two effects of the [Py] monad. *)

From Stdlib Require Import ZArith QArith Lia Bool Ascii.
From Stdlib Require String.
From stdpp Require Import base list strings.

Open Scope Z_scope.

(** ** Python string primitives used by the module *)

Module PyStr.

Fixpoint mem (c : ascii) (chars : string) : bool :=
  match chars with
  | EmptyString => false
  | String d r => Ascii.eqb c d || mem c r
  end.

(** [s.lstrip(chars)]: drop the leading characters that belong to [chars]. *)
Fixpoint lstrip (chars s : string) : string :=
  match s with
  | EmptyString => EmptyString
  | String c r => if mem c chars then lstrip chars r else s
  end.

(** [s.rstrip(chars)]: drop the trailing characters that belong to [chars]. *)
Fixpoint rstrip (chars s : string) : string :=
  match s with
  | EmptyString => EmptyString
  | String c r =>
      match rstrip chars r with
      | EmptyString => if mem c chars then EmptyString else String c EmptyString
      | r' => String c r'
      end
  end.

(** [s.strip(chars)] *)
Definition strip (chars s : string) : string := rstrip chars (lstrip chars s).

(** [s.split(sep)] for a one-character separator: never an empty list. *)
Fixpoint split (sep : ascii) (s : string) : list string :=
  match s with
  | EmptyString => [EmptyString]
  | String c r =>
      if Ascii.eqb c sep then EmptyString :: split sep r
      else match split sep r with
           | h :: t => String c h :: t
           | [] => [String c EmptyString]
           end
  end.

(** [sep.join(parts)] *)
Fixpoint join (sep : string) (parts : list string) : string :=
  match parts with
  | [] => EmptyString
  | [p] => p
  | p :: rest => p +:+ sep +:+ join sep rest
  end.

(** [s.replace(old, new)] for a non-empty [old]: occurrences are replaced
    left to right without overlap; [skip] counts the characters of the
    occurrence just replaced that are still to be passed over. *)
Fixpoint replace_aux (old new : string) (skip : nat) (s : string) : string :=
  match s with
  | EmptyString => EmptyString
  | String c r =>
      match skip with
      | S k => replace_aux old new k r
      | O =>
          if String.prefix old s
          then new +:+ replace_aux old new (Nat.pred (String.length old)) r
          else String c (replace_aux old new O r)
      end
  end.

Definition replace (old new s : string) : string := replace_aux old new O s.

Definition is_upper (c : ascii) : bool :=
  (65 <=? nat_of_ascii c)%nat && (nat_of_ascii c <=? 90)%nat.
Definition is_lower (c : ascii) : bool :=
  (97 <=? nat_of_ascii c)%nat && (nat_of_ascii c <=? 122)%nat.
Definition is_digit (c : ascii) : bool :=
  (48 <=? nat_of_ascii c)%nat && (nat_of_ascii c <=? 57)%nat.

Definition upper_char (c : ascii) : ascii :=
  if is_lower c then ascii_of_nat (nat_of_ascii c - 32) else c.
Definition lower_char (c : ascii) : ascii :=
  if is_upper c then ascii_of_nat (nat_of_ascii c + 32) else c.

Fixpoint map_chars (f : ascii -> ascii) (s : string) : string :=
  match s with
  | EmptyString => EmptyString
  | String c r => String (f c) (map_chars f r)
  end.

(** [s.upper()] and [s.lower()] on ASCII text. *)
Definition upper : string -> string := map_chars upper_char.
Definition lower : string -> string := map_chars lower_char.

(** [s.startswith(p)] *)
Definition startswith (p s : string) : bool := String.prefix p s.

(** [s[1:]] *)
Definition tail (s : string) : string :=
  match s with
  | EmptyString => EmptyString
  | String _ r => r
  end.

(** [s[0]], which raises [IndexError] on the empty string. *)
Definition head (s : string) : option string :=
  match s with
  | EmptyString => None
  | String c _ => Some (String c EmptyString)
  end.

Definition first_char (s : string) : option ascii :=
  match s with
  | EmptyString => None
  | String c _ => Some c
  end.

Fixpoint last_char (s : string) : option ascii :=
  match s with
  | EmptyString => None
  | String c EmptyString => Some c
  | String _ r => last_char r
  end.

Definition digit_char (d : Z) : ascii := ascii_of_nat (48 + Z.to_nat d).

(** Decimal digits of a non-negative integer, most significant first;
    [fuel] bounds the number of digits. *)
Fixpoint digits_aux (fuel : nat) (n : Z) (acc : string) : string :=
  match fuel with
  | O => acc
  | S fuel' =>
      let acc' := String (digit_char (n mod 10)) acc in
      if n <? 10 then acc' else digits_aux fuel' (n / 10) acc'
  end.

(** [str(n)] for an [int]. *)
Definition str_int (n : Z) : string :=
  if n <? 0 then String "-" (digits_aux (S (Z.to_nat (Z.log2 (- n)))) (- n) EmptyString)
  else digits_aux (S (Z.to_nat (Z.log2 n))) n EmptyString.

Definition digit_value (c : ascii) : Z := Z.of_nat (nat_of_ascii c) - 48.

(** The value of a numeral of ASCII digits. *)
Definition int_of_digits (s : string) : Z :=
  (fix go (acc : Z) (s : string) : Z :=
     match s with
     | EmptyString => acc
     | String c r => go (10 * acc + digit_value c) r
     end) 0 s.

End PyStr.


(** ** Effects: raised exceptions and logger calls *)

Inductive PyExc : Type :=
| IndexError
| AttributeError
| KeyError
| OverflowError
| NotADirectoryError
| FileNotFoundError | ValueError
| OSError
| cv2_error.

Inductive LogRecord : Type :=
| LogInfo (message : string)
| LogWarning (message : string)
| LogAttr (name text : string).

Inductive Outcome (A : Type) : Type :=
| Ok (a : A)
| Raise (e : PyExc).
Arguments Ok {A} a.
Arguments Raise {A} e.

(** A computation yields the records it logged, in order, and either a
    value or the exception that ended it. *)
Definition Py (A : Type) : Type := list LogRecord * Outcome A.

Definition ret {A} (a : A) : Py A := ([], Ok a).
Definition raise {A} (e : PyExc) : Py A := ([], Raise e).
Definition bind {A B} (m : Py A) (k : A -> Py B) : Py B :=
  match m with
  | (l, Ok a) => let (l', r) := k a in (l ++ l', r)
  | (l, Raise e) => (l, Raise e)
  end.
Definition logger_info (message : string) : Py unit := ([LogInfo message], Ok tt).
Definition logger_warning (message : string) : Py unit := ([LogWarning message], Ok tt).
Definition logger_attr (name text : string) : Py unit := ([LogAttr name text], Ok tt).

Declare Scope py_scope.
Delimit Scope py_scope with py.
Notation "x <- m ;; k" := (bind m (fun x => k))
  (at level 100, m at next level, right associativity) : py_scope.
Notation "m ;;; k" := (bind m (fun _ => k))
  (at level 100, right associativity) : py_scope.
Open Scope py_scope.

Definition logged {A} (m : Py A) : list LogRecord := fst m.
Definition outcome {A} (m : Py A) : Outcome A := snd m.

(** [for x in xs: acc = body(acc, x)] *)
Fixpoint for_each {A S} (body : S -> A -> Py S) (xs : list A) (acc : S) : Py S :=
  match xs with
  | [] => ret acc
  | x :: rest => acc' <- body acc x ;; for_each body rest acc'
  end.

(** [l[i]] on a list, negative indices counted from the end. *)
Definition getitem {A} (l : list A) (i : Z) : Py A :=
  let n := Z.of_nat (length l) in
  let j := if i <? 0 then i + n else i in
  if (0 <=? j) && (j <? n)
  then match l !! Z.to_nat j with
       | Some x => ret x
       | None => raise IndexError
       end
  else raise IndexError.

(** ** Regular expressions of the module *)

(** [re.search('(w1|w2|...)', s)]: the leftmost position where one of the
    alternatives matches, the alternatives tried in order; the result is
    [group(1)]. *)
Fixpoint re_search_words (words : list string) (s : string) : option string :=
  match List.find (fun w => String.prefix w s) words with
  | Some w => Some w
  | None =>
      match s with
      | EmptyString => None
      | String _ r => re_search_words words r
      end
  end.

Definition REGEX_SHIP : list string :=
  ["neptune"; "monarch"; "ibuki"; "izumo"; "roon"; "saintlouis"; "seattle";
   "georgia"; "kitakaze"; "azuma"; "friedrich"; "gascogne"; "champagne";
   "cheshire"; "drake"; "mainz"; "odin"].
Definition REGEX_INPUT : list string := ["coin"; "cube"; "part"].
Definition DR_SHIP : list string := ["azuma"; "friedrich"; "drake"].

(** ** The catalog and the project record *)

(** One descriptor of an input resource or an output reward: the dict
    [{'name': ...}]. *)
Record Item : Type := { item_name : string }.

(** One row of [LIST_RESEARCH_PROJECT]: the dict with the keys ['series'],
    ['name'], ['time'], ['input'] and ['output']. *)
Record CatalogEntry : Type := {
  data_series : Z;
  data_name : string;
  data_time : Z;
  data_input : list Item;
  data_output : list Item
}.

(** The attributes of a [ResearchProject] (and of a [ResearchProjectJp],
    which has the same ones but for [data]). *)
Record ResearchProject : Type := {
  valid : bool;
  name : string;
  series : string;
  genre : string;
  duration : string;
  ship : string;
  ship_rarity : string;
  need_coin : bool;
  need_cube : bool;
  need_part : bool;
  data : option CatalogEntry
}.

Definition set_valid (self : ResearchProject) (v : bool) : ResearchProject :=
  {| valid := v; name := name self; series := series self; genre := genre self;
     duration := duration self; ship := ship self; ship_rarity := ship_rarity self;
     need_coin := need_coin self; need_cube := need_cube self;
     need_part := need_part self; data := data self |}.
Definition set_name (self : ResearchProject) (v : string) : ResearchProject :=
  {| valid := valid self; name := v; series := series self; genre := genre self;
     duration := duration self; ship := ship self; ship_rarity := ship_rarity self;
     need_coin := need_coin self; need_cube := need_cube self;
     need_part := need_part self; data := data self |}.
Definition set_series (self : ResearchProject) (v : string) : ResearchProject :=
  {| valid := valid self; name := name self; series := v; genre := genre self;
     duration := duration self; ship := ship self; ship_rarity := ship_rarity self;
     need_coin := need_coin self; need_cube := need_cube self;
     need_part := need_part self; data := data self |}.
Definition set_genre (self : ResearchProject) (v : string) : ResearchProject :=
  {| valid := valid self; name := name self; series := series self; genre := v;
     duration := duration self; ship := ship self; ship_rarity := ship_rarity self;
     need_coin := need_coin self; need_cube := need_cube self;
     need_part := need_part self; data := data self |}.
Definition set_duration (self : ResearchProject) (v : string) : ResearchProject :=
  {| valid := valid self; name := name self; series := series self; genre := genre self;
     duration := v; ship := ship self; ship_rarity := ship_rarity self;
     need_coin := need_coin self; need_cube := need_cube self;
     need_part := need_part self; data := data self |}.
Definition set_ship (self : ResearchProject) (v : string) : ResearchProject :=
  {| valid := valid self; name := name self; series := series self; genre := genre self;
     duration := duration self; ship := v; ship_rarity := ship_rarity self;
     need_coin := need_coin self; need_cube := need_cube self;
     need_part := need_part self; data := data self |}.
Definition set_ship_rarity (self : ResearchProject) (v : string) : ResearchProject :=
  {| valid := valid self; name := name self; series := series self; genre := genre self;
     duration := duration self; ship := ship self; ship_rarity := v;
     need_coin := need_coin self; need_cube := need_cube self;
     need_part := need_part self; data := data self |}.
Definition set_data (self : ResearchProject) (v : CatalogEntry) : ResearchProject :=
  {| valid := valid self; name := name self; series := series self; genre := genre self;
     duration := duration self; ship := ship self; ship_rarity := ship_rarity self;
     need_coin := need_coin self; need_cube := need_cube self;
     need_part := need_part self; data := Some v |}.

(** [self.__setattr__(f'need_{group}', True)] for a group of [REGEX_INPUT]. *)
Definition setattr_need (group : string) (self : ResearchProject) : ResearchProject :=
  {| valid := valid self; name := name self; series := series self; genre := genre self;
     duration := duration self; ship := ship self; ship_rarity := ship_rarity self;
     need_coin := need_coin self || String.eqb group "coin";
     need_cube := need_cube self || String.eqb group "cube";
     need_part := need_part self || String.eqb group "part";
     data := data self |}.

(** [ResearchProject.__str__] *)
Definition ResearchProject_str (self : ResearchProject) : string :=
  if valid self then series self +:+ " " +:+ name self
  else series self +:+ " " +:+ name self +:+ " (Invalid)".

(** [ResearchProject.check_name] *)
Definition check_name (name : string) : string :=
  let name := PyStr.strip "-" name in
  let parts := PyStr.split "-" name in
  match parts with
  | [prefix; number; suffix] =>
      let number :=
        PyStr.replace "S" "5" (PyStr.replace "O" "0" (PyStr.replace "D" "0" number)) in
      PyStr.join "-" [prefix; number; suffix]
  | _ => name
  end.

(** ** Catalog reconciliation and record construction *)

Section Recognition.

(** The catalog of [module.research.project_data], a constant of the
    repository that the module only reads. *)
Variable LIST_RESEARCH_PROJECT : list CatalogEntry.

(** [str(x)] of the Python runtime for a [float] [x], given by the exact
    value of [x]: the module prints quotients and similarity scores. *)
Variable float_str : Q -> string.

Definition same_series_name (series : Z) (name : string) (data : CatalogEntry) : bool :=
  (data_series data =? series) && String.eqb (data_name data) name.

Definition same_series_loose (series : Z) (name : string) (data : CatalogEntry) : bool :=
  (data_series data =? series)
  && String.eqb (PyStr.rstrip "MIRFUL-" (data_name data)) (PyStr.rstrip "MIRFUL-" name).

(** [ResearchProject.get_data]: the rows the generator yields, in order,
    each with the value [self.name] has when the row is yielded (the
    second loop assigns [self.name] before it yields).  [self_name] is
    [self.name] when the generator starts. *)
Definition get_data (self_name : string) (name : string) (series : Z)
  : list (string * CatalogEntry) :=
  let exact :=
    List.map (fun data => (self_name, data))
      (List.filter (same_series_name series name) LIST_RESEARCH_PROJECT) in
  let name1 := "C" +:+ PyStr.tail self_name in
  let shining :=
    if PyStr.startswith "D" name
    then List.map (fun data => (name1, data))
           (List.filter (same_series_name series name1) LIST_RESEARCH_PROJECT)
    else [] in
  let self_name' := match shining with [] => self_name | _ :: _ => name1 end in
  let loose :=
    List.map (fun data => (self_name', data))
      (List.filter (same_series_loose series name) LIST_RESEARCH_PROJECT) in
  exact ++ shining ++ loose.

(** The body of [for item in data['input']]. *)
Definition scan_input (self : ResearchProject) (item : Item) : ResearchProject :=
  match re_search_words REGEX_INPUT
          (PyStr.lower (PyStr.replace " " "" (item_name item))) with
  | Some group => setattr_need group self
  | None => self
  end.

(** The body of [for item in data['output']]. *)
Definition scan_output (self : ResearchProject) (item : Item) : ResearchProject :=
  let result :=
    re_search_words REGEX_SHIP (PyStr.lower (PyStr.replace " " "" (item_name item))) in
  let self :=
    if String.eqb (ship self) ""
    then set_ship self (match result with Some group => group | None => "" end)
    else self in
  if String.eqb (ship self) "" then self
  else set_ship_rarity self
         (if existsb (String.eqb (ship self)) DR_SHIP then "dr" else "pry").

(** [str(seconds / 3600).rstrip('.0')] *)
Definition duration_of_seconds (seconds : Z) : string :=
  PyStr.rstrip ".0" (float_str (inject_Z seconds / 3600)%Q).

(** [ResearchProject.__init__] *)
Definition ResearchProject_init (name : string) (series : Z) : Py ResearchProject :=
  let checked := check_name name in
  let self :=
    {| valid := true; name := checked;
       series := "S" +:+ PyStr.str_int series;
       genre := ""; duration := "24"; ship := ""; ship_rarity := "";
       need_coin := false; need_cube := false; need_part := false;
       data := None |} in
  (* [self.get_data(name=self.name, series=series)], [self.name] being [checked] *)
  match get_data checked checked series with
  | (name', data) :: _ =>
      let self := set_data (set_name self name') data in
      first <- match PyStr.head (data_name data) with
               | Some c => ret c
               | None => raise IndexError
               end ;;
      let self := set_genre self first in
      let self := set_duration self (duration_of_seconds (data_time data)) in
      let self := fold_left scan_input (data_input data) self in
      let self := fold_left scan_output (data_output data) self in
      ret self
  | [] =>
      logger_warning ("Invalid research " +:+ ResearchProject_str self) ;;;
      ret (set_valid self false)
  end.

End Recognition.

(** ** Series classifier and batch detection *)

Definition Area : Type := Z * Z * Z * Z.

(** A [Button] of [module.research.assets]; its [str] is its name. *)
Record Button : Type := { button_name : string; button_area : Area }.

Section Detection.

Variable LIST_RESEARCH_PROJECT : list CatalogEntry.
Variable float_str : Q -> string.

(** Screenshots, as the image libraries see them. *)
Variable Screenshot : Type.

(** [len(peaks)] for the crop of a screenshot at an area: the crop is
    resized to 46x25, converted to grayscale, rows 8 to 16 are averaged
    by column and [scipy.signal.find_peaks] runs with [height=200]. *)
Variable peak_count : Screenshot -> Area -> nat.

(** The five buttons [SERIES_1 .. SERIES_5] of the assets. *)
Variable RESEARCH_SERIES : list Button.

(** [OCR_RESEARCH.ocr(image)]: one recognised string per project slot. *)
Variable OCR_RESEARCH_ocr : Screenshot -> list string.

(** One turn of [for button in RESEARCH_SERIES]. *)
Definition get_research_series_step (image : Screenshot) (result : list Z)
  (button : Button) : Py (list Z) :=
  let series := Z.of_nat (peak_count image (button_area button)) in
  if (1 <=? series) && (series <=? 3)
  then ret (result ++ [series])
  else
    logger_warning
      ("Unknown research series: button=" +:+ button_name button
       +:+ ", series=" +:+ PyStr.str_int series) ;;;
    ret (result ++ [0]).

(** [get_research_series] *)
Definition get_research_series (image : Screenshot) : Py (list Z) :=
  for_each (get_research_series_step image) RESEARCH_SERIES [].

(** [get_research_name] *)
Definition get_research_name (image : Screenshot) : list string :=
  List.map (fun name => PyStr.replace "MIL" "MI" (PyStr.replace "ML" "MI" name))
    (OCR_RESEARCH_ocr image).

(** [ResearchSelector.research_detect]: the new value of [self.projects]. *)
Definition research_detect (image : Screenshot) : Py (list ResearchProject) :=
  let names := get_research_name image in
  serieses <- get_research_series image ;;
  for_each
    (fun projects '(name, series) =>
       project <- ResearchProject_init LIST_RESEARCH_PROJECT float_str name series ;;
       logger_attr "Project" (ResearchProject_str project) ;;;
       ret (projects ++ [project]))
    (zip names serieses) [].

End Detection.

(** ** Priority post-filter *)

(** An element of a priority list: an index into the batch or a token. *)
Inductive PriorityItem : Type :=
| Index (index : Z)
| Token (token : string).

(** The configuration attributes the selector reads. *)
Record Config : Type := {
  RESEARCH_FILTER_PRESET : string;
  RESEARCH_FILTER_STRING : string;
  RESEARCH_USE_CUBE : bool;
  RESEARCH_USE_COIN : bool;
  RESEARCH_USE_PART : bool
}.

Section Selector.

(** [self.projects] and [self.config] *)
Variable projects : list ResearchProject.
Variable config : Config.

(** [(not config.RESEARCH_USE_CUBE and proj.need_cube) or ...] *)
Definition resource_disabled (proj : ResearchProject) : bool :=
  (negb (RESEARCH_USE_CUBE config) && need_cube proj)
  || (negb (RESEARCH_USE_COIN config) && need_coin proj)
  || (negb (RESEARCH_USE_PART config) && need_part proj).

(** [proj.genre.upper() == 'B' or (proj.genre.upper() == 'E' and
    str(proj.duration) != '6')] *)
Definition ignored_genre (proj : ResearchProject) : bool :=
  String.eqb (PyStr.upper (genre proj)) "B"
  || (String.eqb (PyStr.upper (genre proj)) "E"
      && negb (String.eqb (duration proj) "6")).

(** One turn of [for index in priority]. *)
Definition check_filter_step (out : list PriorityItem) (index : PriorityItem)
  : Py (list PriorityItem) :=
  match index with
  | Token _ => ret (out ++ [index])
  | Index i =>
      proj <- getitem projects i ;;
      if negb (valid proj) then ret out
      else if resource_disabled proj then ret out
      else if ignored_genre proj then ret out
      else ret (out ++ [index])
  end.

(** [ResearchSelector._research_check_filter] *)
Definition _research_check_filter (priority : list PriorityItem)
  : Py (list PriorityItem) :=
  for_each check_filter_step priority [].

(** The filter of [module.research.filter] and the preset table of
    [module.research.preset]: [FILTER_apply string projects] is
    [FILTER.load(string)] followed by [FILTER.apply(projects)]. *)
Variable FILTER_apply : string -> list ResearchProject -> list PriorityItem.
Variable DICT_FILTER_PRESET : list (string * string).
Variable FILTER_STRING_SHORTEST FILTER_STRING_CHEAPEST : string.

Definition dict_lookup {V} (key : string) (d : list (string * V)) : option V :=
  snd <$> List.find (fun kv => String.eqb (fst kv) key) d.

(** [' > '.join([self.projects[index].name if isinstance(index, int)
    else index for index in priority])] *)
Definition priority_names (priority : list PriorityItem) : Py string :=
  names <- for_each
             (fun names index =>
                match index with
                | Token token => ret (names ++ [token])
                | Index i => proj <- getitem projects i ;; ret (names ++ [name proj])
                end)
             priority [] ;;
  ret (PyStr.join " > " names).

(** The body the three [research_sort_*] methods share: apply the filter
    to [self.projects], post-filter the priority list, log it under
    [label] and return it. *)
Definition sort_with (label string : string) : Py (list PriorityItem) :=
  let priority := FILTER_apply string projects in
  priority <- _research_check_filter priority ;;
  text <- priority_names priority ;;
  logger_attr label text ;;;
  ret priority.

(** [ResearchSelector.research_sort_filter] *)
Definition research_sort_filter : Py (list PriorityItem) :=
  let preset := RESEARCH_FILTER_PRESET config in
  string <-
    (if String.eqb preset "customized" then ret (RESEARCH_FILTER_STRING config)
     else
       match dict_lookup preset DICT_FILTER_PRESET with
       | Some string => ret string
       | None =>
           logger_warning ("Preset not found: " +:+ preset +:+ ", use default preset") ;;;
           match dict_lookup "series_3_than_2" DICT_FILTER_PRESET with
           | Some string => ret string
           | None => raise KeyError
           end
       end) ;;
  sort_with "Filter_sort" string.

(** [ResearchSelector.research_sort_shortest] and [research_sort_cheapest] *)
Definition research_sort_shortest : Py (list PriorityItem) :=
  sort_with "Shortest_sort" FILTER_STRING_SHORTEST.
Definition research_sort_cheapest : Py (list PriorityItem) :=
  sort_with "Cheapest_sort" FILTER_STRING_CHEAPEST.

End Selector.

(** ** Paths and the template directory *)

Module OsPath.

(** [s.rfind(c)]: the last index of [c], or [-1]. *)
Fixpoint rfind_from (c : ascii) (s : string) (i last : Z) : Z :=
  match s with
  | EmptyString => last
  | String d r => rfind_from c r (i + 1) (if Ascii.eqb d c then i else last)
  end.
Definition rfind (c : ascii) (s : string) : Z := rfind_from c s 0 (-1).

Fixpoint all_dots (s : string) : bool :=
  match s with
  | EmptyString => true
  | String c r => Ascii.eqb c "." && all_dots r
  end.

(** [os.path.splitext(p)[0]]: the extension starts at the last dot of the
    last path component, leading dots of that component not counting. *)
Definition splitext_root (p : string) : string :=
  let sepIndex := rfind "/" p in
  let dotIndex := rfind "." p in
  if (sepIndex <? dotIndex)
     && negb (all_dots (String.substring (Z.to_nat (sepIndex + 1))
                          (Z.to_nat (dotIndex - (sepIndex + 1))) p))
  then String.substring 0 (Z.to_nat dotIndex) p
  else p.

Fixpoint endswith_char (c : ascii) (s : string) : bool :=
  match s with
  | EmptyString => false
  | String d EmptyString => Ascii.eqb d c
  | String _ r => endswith_char c r
  end.

(** [os.path.join(a, b)] *)
Definition join (a b : string) : string :=
  if String.prefix "/" b then b
  else if String.eqb a "" || endswith_char "/" a then a +:+ b
  else a +:+ "/" +:+ b.

End OsPath.

(** What a path names on disk. *)
Inductive FsNode : Type :=
| Missing
| RegularFile
| Directory (entries : list string).

(** An insertion-ordered [dict] with string keys: assigning to a key that
    is present replaces its value and keeps its position. *)
Fixpoint dict_set {V} (d : list (string * V)) (key : string) (v : V) : list (string * V) :=
  match d with
  | [] => [(key, v)]
  | (k, w) :: rest =>
      if String.eqb k key then (key, v) :: rest else (k, w) :: dict_set rest key v
  end.

Definition dict_has {V} (key : string) (d : list (string * V)) : bool :=
  existsb (fun kv => String.eqb (fst kv) key) d.

(** [x > y] on floats that are not NaN, given by their exact values. *)
Definition Qgt_bool (x y : Q) : bool := negb (Qle_bool x y).

Section MatchTemplate.

(** Decoded images, as [numpy] arrays. *)
Variable Image : Type.

(** The directory tree: [os.path.exists] and [os.listdir]. *)
Variable fs : string -> FsNode.

(** [np.array(Image.open(file).convert('RGB'))], which raises on a file
    that is not an image. *)
Variable Image_open : string -> Outcome Image.

(** The largest entry of [cv2.matchTemplate(image, template,
    cv2.TM_CCOEFF_NORMED)], as [cv2.minMaxLoc] reports it, given by its
    exact value; [cv2] raises when the template does not fit in the image. *)
Variable max_score : Image -> Image -> Outcome Q.

Variable float_str : Q -> string.

(** [MatchTemplate.similarity]: the float [0.85], that is the double
    nearest to 85/100. *)
Definition similarity : Q := (7656119366529843 # 9007199254740992)%Q.

(** [MatchTemplate._load_folder] *)
Definition _load_folder (folder : string) : Py (list (string * string)) :=
  match fs folder with
  | Missing => ret []
  | RegularFile => raise NotADirectoryError
  | Directory files =>
      ret (fold_left
             (fun out file =>
                let name := OsPath.splitext_root file in
                dict_set out name (OsPath.join folder file))
             files [])
  end.

(** One turn of [for name, image in data.items()]. *)
Definition load_template_step (templates : list (string * Image))
  (item : string * string) : Py (list (string * Image)) :=
  let (name, file) := item in
  if dict_has name templates then ret templates
  else
    image <- ([], Image_open file) ;;
    ret (dict_set templates name image).

(** [MatchTemplate.load_template_folder], from the value of
    [self.templates] to its new value. *)
Definition load_template_folder (folder : string) (templates : list (string * Image))
  : Py (list (string * Image)) :=
  data <- _load_folder folder ;;
  for_each load_template_step data templates.

(** [MatchTemplate.__init__]: the [templates] of the new object. *)
Definition MatchTemplate_init (folder : string) : Py (list (string * Image)) :=
  load_template_folder folder [].

(** One turn of [for name in names]; the loop state is
    [(similarity, result)]. *)
Definition match_template_step (image : Image) (state : Q * string)
  (item : string * Image) : Py (Q * string) :=
  let (similarity, result) := state in
  let (name, template) := item in
  sim <- ([], max_score image template) ;;
  logger_info (name +:+ " " +:+ float_str sim) ;;;
  if Qgt_bool sim similarity then ret (sim, name)
  else ret (similarity, result).

(** [MatchTemplate.match_template]; the loop visits the keys of
    [self.templates] in insertion order, each with its array. *)
Definition match_template (templates : list (string * Image)) (image : Image)
  : Py string :=
  state <- for_each (match_template_step image) templates (similarity, "") ;;
  logger_info ("Matched template: " +:+ snd state) ;;;
  ret (snd state).

End MatchTemplate.

(** ** The JP identification path *)

(** [timedelta(hours=h, minutes=m, seconds=s)], kept as its total number
    of seconds; the constructor raises when the days exceed 999999999. *)
Definition timedelta (hours minutes seconds : Z) : Py Z :=
  let total := hours * 3600 + minutes * 60 + seconds in
  if total / 86400 >? 999999999 then raise OverflowError else ret total.

(** The value of a numeral, given by the values of its digits. *)
Definition int_of_values (values : list Z) : Z :=
  fold_left (fun acc v => 10 * acc + v) values 0.

Section TimeParsing.

(** The decimal digits outside ASCII, as the Python runtime knows them:
    for a text that starts with a character that is not ASCII and is a
    decimal digit (category Nd), which [\d] matches and [int] reads, the
    value of the digit and the text after the character.  A [string]
    holds such a character as its UTF-8 bytes. *)
Variable unicode_decimal : string -> option (Z * string).

(** [\d] at the start of a text: the value of the digit and the text
    after it.  The runtime's table is asked at the first byte of a
    character outside ASCII only, and only a shorter text is taken as
    what follows the character. *)
Definition decimal_at (s : string) : option (Z * string) :=
  match s with
  | EmptyString => None
  | String c r =>
      if PyStr.is_digit c then Some (PyStr.digit_value c, r)
      else if (192 <=? nat_of_ascii c)%nat
      then match unicode_decimal s with
           | Some (v, rest) =>
               if (String.length rest <? String.length s)%nat
               then Some (v, rest) else None
           | None => None
           end
      else None
  end.

(** [\d+] at the start of a text, as far as it goes: the values of the
    digits and the text after them.  Every digit takes a byte at least,
    so the length of the text is fuel enough. *)
Fixpoint span_digits_fuel (fuel : nat) (s : string) : list Z * string :=
  match fuel with
  | O => ([], s)
  | S fuel' =>
      match decimal_at s with
      | Some (v, rest) =>
          let (values, rest') := span_digits_fuel fuel' rest in (v :: values, rest')
      | None => ([], s)
      end
  end.

Definition span_digits (s : string) : list Z * string :=
  span_digits_fuel (String.length s) s.

(** [re.search('(\d+):(\d+):(\d+)', string)]: each [\d+] takes a maximal
    run of digits (a shorter run would be followed by a digit, not by the
    colon), and the leftmost position that matches wins.  No match starts
    inside a character: the bytes after the first byte of a character
    are no digits. *)
Definition match_time_at (s : string) : option (list Z * list Z * list Z) :=
  let (h, r1) := span_digits s in
  match h, r1 with
  | _ :: _, String ":" r2 =>
      let (m, r3) := span_digits r2 in
      match m, r3 with
      | _ :: _, String ":" r4 =>
          let (sec, _) := span_digits r4 in
          match sec with
          | _ :: _ => Some (h, m, sec)
          | [] => None
          end
      | _, _ => None
      end
  | _, _ => None
  end.

Fixpoint re_search_time (s : string) : option (list Z * list Z * list Z) :=
  match match_time_at s with
  | Some groups => Some groups
  | None =>
      match s with
      | EmptyString => None
      | String _ r => re_search_time r
      end
  end.

(** [ResearchProjectJp._parse_time]: [None] is Python's [None]. *)
(** [sys.get_int_max_str_digits()]: the number of digits above which
    [int] refuses a numeral with [ValueError], 4300 unless it is set
    otherwise; 0 stands for no limit, which is also what the versions of
    Python without the limit do.  The limit is looked at for numerals of
    more than 640 digits only. *)
Variable int_max_str_digits : nat.

Definition int_refuses (digits : nat) : bool :=
  (640 <? digits)%nat && (0 <? int_max_str_digits)%nat
  && (int_max_str_digits <? digits)%nat.

(** [int(s)] for a group of the pattern, given by the values of its
    digits. *)
Definition int_of_group (values : list Z) : Py Z :=
  if int_refuses (length values) then raise ValueError
  else ret (int_of_values values).

(** [_parse_time] *)
Definition _parse_time (string : string) : Py (option Z) :=
  match re_search_time string with
  | None => logger_warning ("Invalid time string: " +:+ string) ;;; ret None
  | Some (h, m, s) =>
      hours <- int_of_group h ;;
      minutes <- int_of_group m ;;
      seconds <- int_of_group s ;;
      t <- timedelta hours minutes seconds ;;
      ret (Some t)
  end.

End TimeParsing.

Section Jp.

Variable Screenshot Image : Type.
Variable fs : string -> FsNode.
Variable Image_open : string -> Outcome Image.
Variable max_score : Image -> Image -> Outcome Q.
Variable float_str : Q -> string.
Variable peak_count : Screenshot -> Area -> nat.

(** [np.array(image.crop(area))] *)
Variable crop : Screenshot -> Area -> Image.

(** [Ocr(button, alphabet=alphabet).ocr(image)] for a button at [area]. *)
Variable ocr : string -> Screenshot -> Area -> string.

(** [np.std(rgb2gray(np.array(image.crop(DETAIL_ITEMS_ODD.area)))) > 10] *)
Variable _stats_items_num_is_odd : Screenshot -> bool.

(** The decimal digits outside ASCII of the runtime, and the limit of
    [int] on the digits of a numeral. *)
Variable unicode_decimal : string -> option (Z * string).
Variable int_max_str_digits : nat.

(** [get_research_series_jp] *)
Definition get_research_series_jp (self : ResearchProject) (image : Screenshot)
  : Py ResearchProject :=
  let area : Area := (285, 109, 319, 134) in
  let count := Z.of_nat (peak_count image area) in
  let self :=
    if (1 <=? count) && (count <=? 3)
    then set_series self ("S" +:+ PyStr.str_int count)
    else set_valid (set_series self "") false in
  logger_info ("Series: " +:+ series self) ;;;
  ret self.

(** [get_research_duration_jp]: [total_seconds] is applied to whatever
    [_parse_time] returned, and [None] has no such attribute. *)
Definition get_research_duration_jp (self : ResearchProject) (image : Screenshot)
  : Py ResearchProject :=
  let area : Area := (790, 275, 911, 321) in
  parsed <- _parse_time unicode_decimal int_max_str_digits
              (ocr "0123456789:" image area) ;;
  total_seconds <- match parsed with
                   | Some t => ret t
                   | None => raise AttributeError
                   end ;;
  let self := set_duration self (duration_of_seconds float_str total_seconds) in
  logger_info ("Duration: " +:+ duration self) ;;;
  ret self.

(** [get_research_genre_jp] *)
Definition get_research_genre_jp (self : ResearchProject) (image : Screenshot)
  : Py ResearchProject :=
  let area : Area := (323, 110, 418, 133) in
  let genre_folder := "./assets/jp/research/research_genre" in
  let im := crop image area in
  ship_templates <- MatchTemplate_init Image fs Image_open genre_folder ;;
  result <- match_template Image max_score float_str ship_templates im ;;
  ret (set_genre self result).

(** [im.save(f'./log/ship/{image_time}.png')]: the file cannot be
    created when [./log] or [./log/ship] is not a directory, a missing
    one giving [FileNotFoundError] and a regular file in the place of one
    [NotADirectoryError]; in a folder that is there the write is taken to
    succeed.  The file that is written is read by nothing in the module,
    and its name, which holds the time of the call, is left out. *)
Definition save_ship_crop : Py unit :=
  match fs "./log" with
  | Missing => raise FileNotFoundError
  | RegularFile => raise NotADirectoryError
  | Directory _ =>
      match fs "./log/ship" with
      | Missing => raise FileNotFoundError
      | RegularFile => raise NotADirectoryError
      | Directory _ => ret tt
      end
  end.

(** [get_research_ship_jp] *)
Definition get_research_ship_jp (self : ResearchProject) (image : Screenshot)
  : Py ResearchProject :=
  let area_even : Area := (331, 448, 407, 524) in
  let area_odd : Area := (377, 448, 453, 524) in
  let area := if _stats_items_num_is_odd image then area_odd else area_even in
  let ship_folder := "./assets/jp/research/research_ship" in
  let im := crop image area in
  save_ship_crop ;;;
  ship_templates <- MatchTemplate_init Image fs Image_open ship_folder ;;
  result <- match_template Image max_score float_str ship_templates im ;;
  ret (set_ship self result).

(** [ResearchProjectJp.__init__] *)
Definition ResearchProjectJp_init (image : Screenshot) : Py ResearchProject :=
  let self :=
    {| valid := true; name := ""; series := ""; genre := ""; duration := "24";
       ship := ""; ship_rarity := "";
       need_coin := false; need_cube := false; need_part := false;
       data := None |} in
  self <- get_research_series_jp self image ;;
  self <- get_research_duration_jp self image ;;
  self <- get_research_genre_jp self image ;;
  self <- (if String.eqb (genre self) "D" then get_research_ship_jp self image
           else ret self) ;;
  let self :=
    if String.eqb (ship self) "" then self
    else set_ship_rarity self
           (if existsb (String.eqb (ship self)) DR_SHIP then "dr" else "pry") in
  let self :=
    set_name self
      (series self +:+ "-" +:+ genre self +:+ "-" +:+ duration self
       +:+ " " +:+ ship self) in
  logger_info
    (series self +:+ " " +:+ genre self +:+ " " +:+ duration self
     +:+ " " +:+ ship self +:+ " " +:+ ship_rarity self) ;;;
  ret self.

(** [ResearchSelector.research_detect_jp]: the new value of
    [self.projects], assigned once every image has been processed. *)
Definition research_detect_jp (images : list Screenshot) : Py (list ResearchProject) :=
  for_each
    (fun projects image =>
       project <- ResearchProjectJp_init image ;;
       logger_attr "Project" (name project) ;;;
       ret (projects ++ [project]))
    images [].

End Jp.

(** ** The decimal quotients whose [str] needs no rounding analysis *)

(** The four decimals of [m / 10000]. *)
Definition frac_digits (m : Z) : string :=
  let d := m mod 10000 in
  String (PyStr.digit_char (d / 1000))
    (String (PyStr.digit_char (d / 100 mod 10))
       (String (PyStr.digit_char (d / 10 mod 10))
          (String (PyStr.digit_char (d mod 10)) EmptyString))).

(** [str(t / 3600)] where the quotient is a decimal of at most fifteen
    significant digits, that is for a non-negative multiple [t] of nine
    seconds below [3600 * 10^11]: such a decimal is the shortest one that
    reads back as the double nearest to it, so [repr] prints it, with one
    decimal at least.  Other quotients are not described. *)
Definition decimal_hours (t : Z) : option string :=
  if (0 <=? t) && (t mod 9 =? 0) && (t <? 3600 * 10 ^ 11)
  then
    let m := t / 9 * 25 in
    let frac := PyStr.rstrip "0" (frac_digits m) in
    Some (PyStr.str_int (m / 10000) +:+ "."
          +:+ (if String.eqb frac "" then "0" else frac))
  else None.

(** A [float_str] that follows [decimal_hours] on the quotients it
    describes, to run the definitions on concrete inputs. *)
Definition decimal_float_str (q : Q) : string :=
  let t := Qnum q * 3600 / Zpos (Qden q) in
  match decimal_hours t with
  | Some s => if t * Zpos (Qden q) =? Qnum q * 3600 then s else ""
  | None => ""
  end.

(** ** Vocabulary of the properties *)

Definition is_token (item : PriorityItem) : bool :=
  match item with
  | Token _ => true
  | Index _ => false
  end.

(** The tokens of a priority list, in order. *)
Definition tokens (priority : list PriorityItem) : list PriorityItem :=
  List.filter is_token priority.

(** The integers that index a batch: [-len <= i < len]. *)
Definition index_in_range {A} (l : list A) (item : PriorityItem) : Prop :=
  match item with
  | Token _ => True
  | Index i => - Z.of_nat (length l) <= i < Z.of_nat (length l)
  end.

(** The elements the post-filter lets through. *)
Definition survives (projects : list ResearchProject) (config : Config)
  (item : PriorityItem) : bool :=
  match item with
  | Token _ => true
  | Index i =>
      match outcome (getitem projects i) with
      | Ok proj => valid proj && negb (resource_disabled config proj) && negb (ignored_genre proj)
      | Raise _ => false
      end
  end.

(** A string that [strip] leaves alone: no character of [chars] at either
    end. *)
Definition clean (chars s : string) : Prop :=
  (forall c, PyStr.first_char s = Some c -> PyStr.mem c chars = false)
  /\ (forall c, PyStr.last_char s = Some c -> PyStr.mem c chars = false).

(** The characters a part of [split] and a corrected number segment hold. *)
Fixpoint free_of (sep : ascii) (s : string) : bool :=
  match s with
  | EmptyString => true
  | String c r => negb (Ascii.eqb c sep) && free_of sep r
  end.

(** The three replacements [check_name] makes in the number segment. *)
Definition fix_number (number : string) : string :=
  PyStr.replace "S" "5" (PyStr.replace "O" "0" (PyStr.replace "D" "0" number)).

Definition fix_digit (c : ascii) : ascii :=
  let c := if Ascii.eqb c "D" then "0"%char else c in
  let c := if Ascii.eqb c "O" then "0"%char else c in
  if Ascii.eqb c "S" then "5"%char else c.

(** The attributes an unmatched name leaves on the record. *)
Definition unmatched_record (name : string) (series : Z) : ResearchProject :=
  {| valid := false; name := check_name name;
     series := "S" +:+ PyStr.str_int series;
     genre := ""; duration := "24"; ship := ""; ship_rarity := "";
     need_coin := false; need_cube := false; need_part := false;
     data := None |}.

(** A duration of zero hours: the empty string, which is what the
    constructor's formula leaves of ["0.0"], or the numeral. *)
Definition zero_duration (d : string) : Prop := d = "" \/ d = "0".

(** Zero values in every attribute but [name] and [series]. *)
Definition zero_value_attributes (p : ResearchProject) : Prop :=
  genre p = "" /\ ship p = "" /\ ship_rarity p = "" /\ zero_duration (duration p)
  /\ need_coin p = false /\ need_cube p = false /\ need_part p = false.

(** The series the classifier reports for a number of peaks. *)
Definition classify_peaks (peaks : nat) : Z :=
  let series := Z.of_nat peaks in
  if (1 <=? series) && (series <=? 3) then series else 0.

(** The warning the classifier logs for a button, if any. *)
Definition series_warning (button : Button) (peaks : nat) : list LogRecord :=
  let series := Z.of_nat peaks in
  if (1 <=? series) && (series <=? 3) then []
  else [LogWarning ("Unknown research series: button=" +:+ button_name button
                    +:+ ", series=" +:+ PyStr.str_int series)].

(** The key the exact layer of [get_data] compares. *)
Definition series_name (data : CatalogEntry) : Z * string :=
  (data_series data, data_name data).

Section TemplateVocabulary.

Variable Image : Type.
Variable max_score : Image -> Image -> Outcome Q.

(** Every template of a list is given a score against the query. *)
Definition all_scored (image : Image) (templates : list (string * Image)) : Prop :=
  forall name t, In (name, t) templates -> exists s, max_score image t = Ok s.

(** The scores of a list of templates are at most, or less than, a bound. *)
Definition scores_le (image : Image) (bound : Q) (templates : list (string * Image))
  : Prop :=
  forall name t s, In (name, t) templates -> max_score image t = Ok s -> (s <= bound)%Q.
Definition scores_lt (image : Image) (bound : Q) (templates : list (string * Image))
  : Prop :=
  forall name t s, In (name, t) templates -> max_score image t = Ok s -> (s < bound)%Q.

(** [name] labels the first template of the list that reaches the
    largest score, [s], and [s] is above [floor]. *)
Definition first_best (image : Image) (floor : Q) (templates : list (string * Image))
  (name : string) (s : Q) : Prop :=
  exists pre t post,
    templates = pre ++ (name, t) :: post
    /\ max_score image t = Ok s
    /\ (floor < s)%Q
    /\ scores_lt image s pre
    /\ scores_le image s post.

End TemplateVocabulary.

(** The last file of a listing whose base name is [name]. *)
Definition last_with_root (name : string) (files : list string) : option string :=
  List.find (fun file => String.eqb (OsPath.splitext_root file) name) (rev files).

(** The image a file decodes to, if it does. *)
Definition opened {Image} (Image_open : string -> Outcome Image) (file : string)
  : option Image :=
  match Image_open file with
  | Ok image => Some image
  | Raise _ => None
  end.

(** ** Sample inputs *)

(** A directory with two files of one base name; an image is given by the
    path it was read from. *)
Definition sample_fs (path : string) : FsNode :=
  if String.eqb path "./assets/jp/research/research_ship"
  then Directory ["drake.png"; "mainz.png"; "drake.jpg"]
  else if String.eqb path "./log" then Directory ["ship"]
  else if String.eqb path "./log/ship" then Directory []
  else Missing.

Definition sample_open (file : string) : Outcome string := Ok file.

(** The same tree with a genre folder that holds the reference "D", and
    that tree without the folder [./log/ship]. *)
Definition dock_fs (path : string) : FsNode :=
  if String.eqb path "./assets/jp/research/research_genre"
  then Directory ["D.png"]
  else sample_fs path.

Definition bare_fs (path : string) : FsNode :=
  if String.eqb path "./log/ship" then Missing else dock_fs path.

(** Screenshots of the JP detail page given by the text under the
    duration button; two peaks under the series button, every crop the
    image 7, every file decoding to the image 7. *)
Definition jp_ocr (alphabet image : string) (area : Area) : string := image.
Definition jp_peak_count (image : string) (area : Area) : nat := 2%nat.
Definition jp_crop (image : string) (area : Area) : nat := 7%nat.
Definition jp_open (file : string) : Outcome nat := Ok 7%nat.
Definition jp_items_odd (image : string) : bool := false.

(** The area of the duration button of the JP detail page. *)
Definition DURATION_area : Area := (790, 275, 911, 321).

(** Images given by a number; an image scores 1 against itself and 0
    against any other. *)
Definition sample_score (image template : nat) : Outcome Q :=
  Ok (if Nat.eqb image template then 1%Q else 0%Q).

(** Two labels for one image. *)
Definition twin_templates : list (string * nat) := [("kitakaze", 7%nat); ("seattle", 7%nat)].

(** Scores as floats give them: an image scores 16777215/16777216, just
    below 1, against itself, the image 0 is scored 1 by every query, and
    any other pair scores 0. *)
Definition near_one_score (image template : nat) : Outcome Q :=
  Ok (if Nat.eqb template 0 then 1%Q
      else if Nat.eqb image template then (16777215 # 16777216)%Q
      else 0%Q).

(** A library of three references, and one that holds the image 0 after
    a reference. *)
Definition sample_library : list (string * nat) :=
  [("drake", 3%nat); ("mainz", 7%nat); ("odin", 9%nat)].
Definition flat_library : list (string * nat) := [("mainz", 7%nat); ("flat", 0%nat)].

(** Five buttons, and screenshots given by the number of peaks under each. *)
Definition sample_buttons : list Button :=
  [ {| button_name := "SERIES_1"; button_area := (0, 0, 10, 10) |};
    {| button_name := "SERIES_2"; button_area := (1, 0, 10, 10) |};
    {| button_name := "SERIES_3"; button_area := (2, 0, 10, 10) |};
    {| button_name := "SERIES_4"; button_area := (3, 0, 10, 10) |};
    {| button_name := "SERIES_5"; button_area := (4, 0, 10, 10) |} ].

Definition sample_peak_count (image : list nat) (area : Area) : nat :=
  match area with
  | (x, _, _, _) => List.nth (Z.to_nat x) image 0%nat
  end.

(** Two rows with the same series and name. *)
Definition twin_first : CatalogEntry :=
  {| data_series := 1; data_name := "C-057-UL"; data_time := 21600;
     data_input := []; data_output := [] |}.
Definition twin_second : CatalogEntry :=
  {| data_series := 1; data_name := "C-057-UL"; data_time := 7200;
     data_input := []; data_output := [] |}.
Definition twin_catalog : list CatalogEntry := [twin_first; twin_second].

Definition sample_catalog : list CatalogEntry :=
  [ {| data_series := 1; data_name := "C-057-UL"; data_time := 21600;
       data_input := [ {| item_name := "Cube" |} ];
       data_output := [ {| item_name := "Drake" |} ] |};
    {| data_series := 1; data_name := "E-031-MI"; data_time := 36000;
       data_input := [ {| item_name := "Coins" |} ];
       data_output := [ {| item_name := "Seattle blueprint" |} ] |};
    {| data_series := 2; data_name := "G-236-MI"; data_time := 1800;
       data_input := []; data_output := [] |} ].

Definition sample_project (genre duration : string) : ResearchProject :=
  {| valid := true; name := genre +:+ "-001-MI"; series := "S1";
     genre := genre; duration := duration; ship := ""; ship_rarity := "";
     need_coin := false; need_cube := false; need_part := false; data := None |}.

Definition sample_projects : list ResearchProject :=
  [ sample_project "B" "4"; sample_project "E" "2"; sample_project "E" "6";
    sample_project "C" "12"; unmatched_record "X-999-ZZ" 1 ].

Definition sample_config : Config :=
  {| RESEARCH_FILTER_PRESET := "series_3_than_2"; RESEARCH_FILTER_STRING := "";
     RESEARCH_USE_CUBE := true; RESEARCH_USE_COIN := true; RESEARCH_USE_PART := true |}.

Definition sample_priority : list PriorityItem :=
  [ Index 3; Index 0; Token "reset"; Index 1; Index 2; Index 4; Index (-2); Token "shortest" ].

(** ** Vocabulary of the further properties *)

(** The label of an item as the two scans of the constructor read it. *)
Definition item_label (item : Item) : string :=
  PyStr.lower (PyStr.replace " " "" (item_name item)).

(** Some item of the list is read as the resource [group]. *)
Definition needs (group : string) (items : list Item) : bool :=
  existsb
    (fun item =>
       match re_search_words REGEX_INPUT (item_label item) with
       | Some g => String.eqb g group
       | None => false
       end)
    items.

(** The ship read in the first item of the list in which one is read. *)
Fixpoint first_ship (items : list Item) : string :=
  match items with
  | [] => ""
  | item :: rest =>
      match re_search_words REGEX_SHIP (item_label item) with
      | Some g => g
      | None => first_ship rest
      end
  end.

(** The rarity that goes with a ship. *)
Definition rarity_of (ship : string) : string :=
  if String.eqb ship "" then ""
  else if existsb (String.eqb ship) DR_SHIP then "dr" else "pry".

(** The record of a matched row before its inputs and outputs are read. *)
Definition matched_base (float_str : Q -> string) (series0 : Z) (name' : string)
  (row : CatalogEntry) (c : ascii) : ResearchProject :=
  {| valid := true; name := name';
     series := "S" +:+ PyStr.str_int series0;
     genre := String c EmptyString;
     duration := duration_of_seconds float_str (data_time row);
     ship := ""; ship_rarity := "";
     need_coin := false; need_cube := false; need_part := false;
     data := Some row |}.

(** What the log of a sort shows for an element of the priority list: the
    name of the project under an index that is in range, the token
    itself. *)
Definition item_text (projects : list ResearchProject) (item : PriorityItem) : string :=
  match item with
  | Token token => token
  | Index i =>
      match outcome (getitem projects i) with
      | Ok proj => name proj
      | Raise _ => ""
      end
  end.

(** A configuration with another filter preset. *)
Definition with_preset (config : Config) (preset : string) : Config :=
  {| RESEARCH_FILTER_PRESET := preset;
     RESEARCH_FILTER_STRING := RESEARCH_FILTER_STRING config;
     RESEARCH_USE_CUBE := RESEARCH_USE_CUBE config;
     RESEARCH_USE_COIN := RESEARCH_USE_COIN config;
     RESEARCH_USE_PART := RESEARCH_USE_PART config |}.

(** A filter that ranks the projects of the batch in reverse order and
    ends with a reset, and a table with the default preset only. *)
Definition sample_FILTER_apply (string : string) (projects : list ResearchProject)
  : list PriorityItem :=
  List.map (fun i => Index (Z.of_nat i)) (rev (seq 0 (length projects)))
  ++ [Token "reset"].

Definition sample_presets : list (string * string) :=
  [("series_3_than_2", "S3 > S2 > reset")].

(** A string of ASCII digits, and a string of ASCII characters that are
    no digits. *)
Fixpoint all_digits (s : string) : bool :=
  match s with
  | EmptyString => true
  | String c r => PyStr.is_digit c && all_digits r
  end.

Definition ascii_not_digit (c : ascii) : bool :=
  (nat_of_ascii c <? 128)%nat && negb (PyStr.is_digit c).

Fixpoint ascii_no_digits (s : string) : bool :=
  match s with
  | EmptyString => true
  | String c r => ascii_not_digit c && ascii_no_digits r
  end.

(** A text at which a run of digits stops: the empty text, or one that
    starts with an ASCII character that is not a digit. *)
Definition stops_digits (s : string) : bool :=
  match s with
  | EmptyString => true
  | String c _ => ascii_not_digit c
  end.

(** The values of the digits of a string of ASCII digits. *)
Fixpoint digit_values (s : string) : list Z :=
  match s with
  | EmptyString => []
  | String c r => PyStr.digit_value c :: digit_values r
  end.

(** A numeral of [n] zeros. *)
Fixpoint zeros (n : nat) : string :=
  match n with
  | O => EmptyString
  | S n' => String "0" (zeros n')
  end.

(** A runtime without decimal digits outside ASCII, and one that knows
    the Arabic-Indic digits, U+0660 to U+0669, the bytes D9 A0 to D9 A9. *)
Definition no_unicode_decimal (s : string) : option (Z * string) := None.

Definition arabic_indic_decimal (s : string) : option (Z * string) :=
  match s with
  | String c1 (String c2 rest) =>
      if (nat_of_ascii c1 =? 217)%nat && (160 <=? nat_of_ascii c2)%nat
         && (nat_of_ascii c2 <=? 169)%nat
      then Some (Z.of_nat (nat_of_ascii c2) - 160, rest)
      else None
  | _ => None
  end.

(** * Properties *)

(** ** The effect monad *)

Lemma bind_ret_l {A B} (a : A) (k : A -> Py B) : bind (ret a) k = k a.
Proof. unfold bind, ret. destruct (k a) as [l r]. reflexivity. Qed.

Lemma bind_nil_Ok {A B} (a : A) (k : A -> Py B) : bind ([], Ok a) k = k a.
Proof. apply bind_ret_l. Qed.

Lemma bind_raise {A B} (e : PyExc) (k : A -> Py B) : bind (raise e) k = raise e.
Proof. reflexivity. Qed.

Lemma bind_Ok {A B} (m : Py A) (k : A -> Py B) l a :
  m = (l, Ok a) -> bind m k = (l ++ logged (k a), outcome (k a)).
Proof. intros ->. unfold bind, logged, outcome. destruct (k a); reflexivity. Qed.

Lemma bind_Raise {A B} (m : Py A) (k : A -> Py B) l e :
  m = (l, Raise e) -> bind m k = (l, Raise e).
Proof. intros ->. reflexivity. Qed.

Lemma bind_assoc {A B C} (m : Py A) (f : A -> Py B) (g : B -> Py C) :
  bind (bind m f) g = bind m (fun x => bind (f x) g).
Proof.
  destruct m as [l [a|e]]; unfold bind; [|reflexivity].
  destruct (f a) as [l1 [b|e]]; [|reflexivity].
  destruct (g b) as [l2 r]. rewrite app_assoc. reflexivity.
Qed.

Lemma bind_logged {A} (l : list LogRecord) (k : unit -> Py A) :
  bind (l, Ok tt) k = (l ++ logged (k tt), outcome (k tt)).
Proof. apply bind_Ok. reflexivity. Qed.

Lemma for_each_cons {A S} (body : S -> A -> Py S) x rest acc :
  for_each body (x :: rest) acc = bind (body acc x) (fun acc' => for_each body rest acc').
Proof. reflexivity. Qed.

Lemma outcome_bind_Ok {A B} (m : Py A) (k : A -> Py B) a :
  outcome m = Ok a -> outcome (bind m k) = outcome (k a).
Proof.
  destruct m as [l r]. simpl. intros ->. unfold bind. destruct (k a); reflexivity.
Qed.

Lemma outcome_bind_Raise {A B} (m : Py A) (k : A -> Py B) e :
  outcome m = Raise e -> outcome (bind m k) = Raise e.
Proof. destruct m as [l r]. simpl. intros ->. reflexivity. Qed.

Lemma logged_bind_prefix {A B} (m : Py A) (k : A -> Py B) :
  exists l, logged (bind m k) = logged m ++ l.
Proof.
  destruct m as [l [a|e]]; unfold bind; simpl.
  - destruct (k a) as [l' r]. exists l'. reflexivity.
  - exists []. symmetry. apply app_nil_r.
Qed.

(** ** Indexing a list the way Python does *)

Lemma getitem_cases {A} (l : list A) (i : Z) :
  (exists x, getitem l i = ([], Ok x)) \/ getitem l i = ([], Raise IndexError).
Proof.
  unfold getitem.
  destruct (_ && _); [|right; reflexivity].
  destruct (l !! _); [left; eexists; reflexivity | right; reflexivity].
Qed.

Lemma getitem_in_range {A} (l : list A) (i : Z) :
  - Z.of_nat (length l) <= i < Z.of_nat (length l) ->
  exists x, getitem l i = ([], Ok x) /\ In x l.
Proof.
  intros Hi. unfold getitem.
  set (j := if i <? 0 then i + Z.of_nat (length l) else i).
  assert (Hj : 0 <= j < Z.of_nat (length l)).
  { subst j. destruct (Z.ltb_spec i 0); lia. }
  replace ((0 <=? j) && (j <? Z.of_nat (length l))) with true
    by (symmetry; apply andb_true_iff; split; [apply Z.leb_le|apply Z.ltb_lt]; lia).
  destruct (lookup_lt_is_Some_2 l (Z.to_nat j)) as [x Hx]; [lia|].
  rewrite Hx. exists x. split; [reflexivity|].
  apply list_elem_of_In. eapply list_elem_of_lookup_2. exact Hx.
Qed.

Lemma getitem_out_of_range {A} (l : list A) (i : Z) :
  ~ (- Z.of_nat (length l) <= i < Z.of_nat (length l)) ->
  getitem l i = ([], Raise IndexError).
Proof.
  intros Hi. unfold getitem.
  set (j := if i <? 0 then i + Z.of_nat (length l) else i).
  destruct (Z.leb_spec 0 j) as [H0|H0]; simpl; [|reflexivity].
  destruct (Z.ltb_spec j (Z.of_nat (length l))) as [H1|H1]; [|reflexivity].
  exfalso. apply Hi. subst j. destruct (Z.ltb_spec i 0); lia.
Qed.

(** ** The post-filter *)

Section SelectorFacts.

Variable projects : list ResearchProject.
Variable config : Config.

Lemma check_filter_step_in_range out item :
  index_in_range projects item ->
  check_filter_step projects config out item
  = ([], Ok (out ++ List.filter (survives projects config) [item])).
Proof.
  destruct item as [i|t]; simpl; intros Hi; [|reflexivity].
  destruct (getitem_in_range projects i Hi) as (proj & Hget & _).
  rewrite Hget. rewrite bind_nil_Ok. unfold outcome; simpl.
  destruct (valid proj); simpl; [|rewrite app_nil_r; reflexivity].
  destruct (resource_disabled config proj); simpl; [rewrite app_nil_r; reflexivity|].
  destruct (ignored_genre proj); simpl; [rewrite app_nil_r|]; reflexivity.
Qed.

Lemma check_filter_loop priority :
  Forall (index_in_range projects) priority ->
  forall out,
    for_each (check_filter_step projects config) priority out
    = ([], Ok (out ++ List.filter (survives projects config) priority)).
Proof.
  induction 1 as [|item priority Hitem _ IH]; intros out; simpl for_each.
  - simpl. rewrite app_nil_r. reflexivity.
  - rewrite (check_filter_step_in_range out item Hitem).
    rewrite bind_nil_Ok. rewrite IH. rewrite <- app_assoc.
    change (item :: priority) with ([item] ++ priority).
    rewrite List.filter_app. reflexivity.
Qed.

(** With every index in range, the post-filter returns the elements
    that survive, in order, and logs nothing. *)
Lemma research_check_filter_in_range priority :
  Forall (index_in_range projects) priority ->
  _research_check_filter projects config priority
  = ([], Ok (List.filter (survives projects config) priority)).
Proof. intros H. unfold _research_check_filter. rewrite check_filter_loop; auto. Qed.

(** An index out of range ends the post-filter with [IndexError]. *)
Lemma check_filter_loop_out_of_range priority :
  ~ Forall (index_in_range projects) priority ->
  forall out,
    outcome (for_each (check_filter_step projects config) priority out)
    = Raise IndexError.
Proof.
  induction priority as [|item priority IH]; intros Hnot out.
  - exfalso. apply Hnot. constructor.
  - simpl for_each.
    destruct item as [i|t].
    + destruct (Z_le_dec (- Z.of_nat (length projects)) i) as [Hlo|Hlo];
        [destruct (Z_lt_dec i (Z.of_nat (length projects))) as [Hhi|Hhi]|].
      * rewrite (check_filter_step_in_range out (Index i)) by (simpl; lia).
        rewrite bind_nil_Ok. apply IH. intros HF. apply Hnot.
        constructor; [simpl; lia|exact HF].
      * apply outcome_bind_Raise. simpl.
        rewrite getitem_out_of_range by lia. reflexivity.
      * apply outcome_bind_Raise. simpl.
        rewrite getitem_out_of_range by lia. reflexivity.
    + rewrite (check_filter_step_in_range out (Token t)) by exact I.
      rewrite bind_nil_Ok. apply IH. intros HF. apply Hnot.
      constructor; [exact I|exact HF].
Qed.

Lemma survives_token_iff item : is_token item = true -> survives projects config item = true.
Proof. destruct item; simpl; congruence. Qed.

Lemma tokens_survive priority :
  tokens (List.filter (survives projects config) priority) = tokens priority.
Proof.
  unfold tokens. induction priority as [|item priority IH]; simpl; [reflexivity|].
  destruct item as [i|t]; simpl.
  - destruct (match outcome (getitem projects i) with Ok _ => _ | Raise _ => _ end);
      simpl; exact IH.
  - rewrite IH. reflexivity.
Qed.

Lemma filter_sublist {A} (f : A -> bool) (l : list A) : List.filter f l `sublist_of` l.
Proof.
  induction l as [|x l IH]; simpl; [constructor|].
  destruct (f x); [apply sublist_skip|apply sublist_cons]; exact IH.
Qed.

End SelectorFacts.

Example research_check_filter_sample :
  _research_check_filter sample_projects sample_config sample_priority
  = ([], Ok [Index 3; Token "reset"; Index 2; Index (-2); Token "shortest"]).
Proof. reflexivity. Qed.

Lemma index_in_range_dec {A} (l : list A) (item : PriorityItem) :
  {index_in_range l item} + {~ index_in_range l item}.
Proof.
  destruct item as [i|t]; simpl; [|left; exact I].
  destruct (Z_le_dec (- Z.of_nat (length l)) i); [|right; lia].
  destruct (Z_lt_dec i (Z.of_nat (length l))); [left|right]; lia.
Qed.

(** The post-filter returns exactly when every index is in range. *)
Lemma research_check_filter_Ok projects config priority out :
  outcome (_research_check_filter projects config priority) = Ok out ->
  Forall (index_in_range projects) priority
  /\ out = List.filter (survives projects config) priority.
Proof.
  intros Hout.
  destruct (List.Forall_dec _ (index_in_range_dec projects) priority) as [HF|HF].
  - split; [exact HF|].
    rewrite (research_check_filter_in_range projects config priority HF) in Hout.
    simpl in Hout. congruence.
  - unfold _research_check_filter in Hout.
    rewrite check_filter_loop_out_of_range in Hout by exact HF. discriminate.
Qed.

Lemma survives_Index projects config i proj :
  survives projects config (Index i) = true ->
  outcome (getitem projects i) = Ok proj ->
  valid proj = true /\ resource_disabled config proj = false /\ ignored_genre proj = false.
Proof.
  simpl. intros Hs Hget. rewrite Hget in Hs.
  apply andb_true_iff in Hs as [Hs Hg]. apply andb_true_iff in Hs as [Hv Hr].
  apply negb_true_iff in Hg, Hr. auto.
Qed.

(** C4: on a priority list whose indices are in range, the post-filter
    returns a list that holds no index of a project of genre "B" and no
    index of a project of genre "E" whose duration is not "6", and whose
    tokens are the tokens of the input, unchanged and in the same order. *)
Theorem research_check_filter_excludes_genres projects config priority :
  Forall (index_in_range projects) priority ->
  exists out,
    _research_check_filter projects config priority = ([], Ok out)
    /\ (forall i proj, In (Index i) out ->
          outcome (getitem projects i) = Ok proj -> genre proj <> "B")
    /\ (forall i proj, In (Index i) out ->
          outcome (getitem projects i) = Ok proj ->
          genre proj = "E" -> duration proj = "6")
    /\ tokens out = tokens priority.
Proof.
  intros HF. exists (List.filter (survives projects config) priority).
  split; [apply research_check_filter_in_range; exact HF|].
  split; [|split].
  - intros i proj Hin Hget Hgenre.
    apply List.filter_In in Hin as [_ Hs].
    destruct (survives_Index _ _ _ _ Hs Hget) as (_ & _ & Hg).
    unfold ignored_genre in Hg. rewrite Hgenre in Hg. discriminate Hg.
  - intros i proj Hin Hget Hgenre.
    apply List.filter_In in Hin as [_ Hs].
    destruct (survives_Index _ _ _ _ Hs Hget) as (_ & _ & Hg).
    unfold ignored_genre in Hg. rewrite Hgenre in Hg. simpl in Hg.
    apply negb_false_iff in Hg. apply String.eqb_eq in Hg. exact Hg.
  - apply tokens_survive.
Qed.

Lemma research_check_filter_excludes_genres_witness :
  Forall (index_in_range sample_projects) sample_priority
  /\ exists out,
    _research_check_filter sample_projects sample_config sample_priority = ([], Ok out)
    /\ (forall i proj, In (Index i) out ->
          outcome (getitem sample_projects i) = Ok proj -> genre proj <> "B")
    /\ (forall i proj, In (Index i) out ->
          outcome (getitem sample_projects i) = Ok proj ->
          genre proj = "E" -> duration proj = "6")
    /\ tokens out = tokens sample_priority.
Proof.
  assert (H : Forall (index_in_range sample_projects) sample_priority)
    by (unfold sample_priority, sample_projects; repeat constructor; simpl; lia).
  split; [exact H|].
  apply (research_check_filter_excludes_genres sample_projects sample_config
           sample_priority H).
Defined.

(** C10: on a priority list whose indices are in range, the list the
    post-filter returns is a subsequence of its input: its elements,
    indices and tokens alike, are elements of the input, none repeated or
    added, in the order the input has them. *)
Theorem research_check_filter_subsequence projects config priority :
  Forall (index_in_range projects) priority ->
  exists out,
    _research_check_filter projects config priority = ([], Ok out)
    /\ out `sublist_of` priority.
Proof.
  intros HF. exists (List.filter (survives projects config) priority).
  split; [apply research_check_filter_in_range; exact HF|apply filter_sublist].
Qed.

Lemma research_check_filter_subsequence_witness :
  Forall (index_in_range sample_projects) sample_priority
  /\ exists out,
    _research_check_filter sample_projects sample_config sample_priority = ([], Ok out)
    /\ out `sublist_of` sample_priority.
Proof.
  assert (H : Forall (index_in_range sample_projects) sample_priority)
    by (unfold sample_priority, sample_projects; repeat constructor; simpl; lia).
  split; [exact H|].
  apply (research_check_filter_subsequence sample_projects sample_config
           sample_priority H).
Defined.

(** ** Names that match no catalog row *)

Lemma unmatched_init catalog float_str name series :
  get_data catalog (check_name name) (check_name name) series = [] ->
  ResearchProject_init catalog float_str name series
  = ([LogWarning ("Invalid research S" +:+ PyStr.str_int series +:+ " " +:+ check_name name)],
     Ok (unmatched_record name series)).
Proof.
  intros Hnone. unfold ResearchProject_init. rewrite Hnone. reflexivity.
Qed.

(** C3, amended: a name and series that no layer of [get_data] matches
    give, without an exception, the record with [valid = false], the
    checked name, the series label, empty genre, ship and ship rarity, all
    need flags false and the constructor's default duration "24" (not a
    zero duration); and no index under which a batch holds that record is
    ever in the list the post-filter returns. *)
Theorem unmatched_project_invalid_and_never_selected catalog float_str name series :
  get_data catalog (check_name name) (check_name name) series = [] ->
  outcome (ResearchProject_init catalog float_str name series)
  = Ok (unmatched_record name series)
  /\ valid (unmatched_record name series) = false
  /\ duration (unmatched_record name series) = "24"
  /\ forall projects config priority i out,
       outcome (getitem projects i) = Ok (unmatched_record name series) ->
       outcome (_research_check_filter projects config priority) = Ok out ->
       ~ In (Index i) out.
Proof.
  intros Hnone. rewrite (unmatched_init _ _ _ _ Hnone).
  split; [reflexivity|]. split; [reflexivity|]. split; [reflexivity|].
  intros projects config priority i out Hget Hout Hin.
  apply research_check_filter_Ok in Hout as [_ ->].
  apply List.filter_In in Hin as [_ Hs].
  destruct (survives_Index _ _ _ _ Hs Hget) as (Hv & _). discriminate Hv.
Qed.

Lemma unmatched_project_invalid_and_never_selected_witness :
  get_data sample_catalog (check_name "X-999-ZZ") (check_name "X-999-ZZ") 1 = []
  /\ outcome (ResearchProject_init sample_catalog decimal_float_str "X-999-ZZ" 1)
     = Ok (unmatched_record "X-999-ZZ" 1)
  /\ valid (unmatched_record "X-999-ZZ" 1) = false
  /\ duration (unmatched_record "X-999-ZZ" 1) = "24"
  /\ forall projects config priority i out,
       outcome (getitem projects i) = Ok (unmatched_record "X-999-ZZ" 1) ->
       outcome (_research_check_filter projects config priority) = Ok out ->
       ~ In (Index i) out.
Proof.
  split; [reflexivity|].
  apply (unmatched_project_invalid_and_never_selected sample_catalog decimal_float_str
           "X-999-ZZ" 1).
  reflexivity.
Defined.

(** C3 as stated fails: the unmatched record keeps the duration "24" the
    constructor starts from, which is not a zero duration. *)
Lemma unmatched_project_duration_not_zero :
  get_data sample_catalog (check_name "X-999-ZZ") (check_name "X-999-ZZ") 1 = []
  /\ exists p,
       outcome (ResearchProject_init sample_catalog decimal_float_str "X-999-ZZ" 1) = Ok p
       /\ duration p = "24"
       /\ ~ zero_value_attributes p.
Proof.
  split; [reflexivity|].
  exists (unmatched_record "X-999-ZZ" 1).
  split; [reflexivity|]. split; [reflexivity|].
  intros (_ & _ & _ & [Hz|Hz] & _); discriminate Hz.
Qed.

(** ** Strings *)

Module PyStrFacts.
Import PyStr.

Lemma prefix_empty s : String.prefix EmptyString s = true.
Proof. destruct s; reflexivity. Qed.

Lemma append_cons c r t : String c r +:+ t = String c (r +:+ t).
Proof. reflexivity. Qed.

Lemma append_nil_l t : EmptyString +:+ t = t.
Proof. reflexivity. Qed.

Lemma replace_one_char a b s :
  replace (String a EmptyString) (String b EmptyString) s
  = map_chars (fun c => if Ascii.eqb c a then b else c) s.
Proof.
  unfold replace. induction s as [|c r IH]; simpl; [reflexivity|].
  destruct (ascii_dec a c) as [->|Hne].
  - rewrite Ascii.eqb_refl, prefix_empty. simpl.
    rewrite append_cons, append_nil_l, IH. reflexivity.
  - destruct (Ascii.eqb_spec c a) as [->|_]; [congruence|].
    rewrite IH. reflexivity.
Qed.

Lemma map_chars_compose f g s : map_chars f (map_chars g s) = map_chars (fun c => f (g c)) s.
Proof. induction s as [|c r IH]; simpl; [reflexivity|]. rewrite IH. reflexivity. Qed.

Lemma map_chars_ext f g s : (forall c, f c = g c) -> map_chars f s = map_chars g s.
Proof. intros H. induction s as [|c r IH]; simpl; [reflexivity|]. rewrite H, IH. reflexivity. Qed.

Lemma append_nil_r s : s +:+ EmptyString = s.
Proof.
  induction s as [|c r IH]; [reflexivity|]. rewrite append_cons, IH. reflexivity.
Qed.

Lemma append_assoc s t u : (s +:+ t) +:+ u = s +:+ (t +:+ u).
Proof.
  induction s as [|c r IH]; [reflexivity|].
  rewrite !append_cons, IH. reflexivity.
Qed.

(** *** Stripping *)

Lemma lstrip_first chars s c :
  first_char (lstrip chars s) = Some c -> mem c chars = false.
Proof.
  induction s as [|d r IH]; simpl; [discriminate|].
  destruct (mem d chars) eqn:Hd; [exact IH|].
  simpl. intros [= <-]. exact Hd.
Qed.

Lemma lstrip_fixed chars s :
  (forall c, first_char s = Some c -> mem c chars = false) -> lstrip chars s = s.
Proof.
  destruct s as [|d r]; simpl; [reflexivity|].
  intros H. rewrite (H d eq_refl). reflexivity.
Qed.

Lemma rstrip_cons chars c r :
  rstrip chars (String c r)
  = match rstrip chars r with
    | EmptyString => if mem c chars then EmptyString else String c EmptyString
    | String d r' => String c (String d r')
    end.
Proof. simpl. destruct (rstrip chars r); reflexivity. Qed.

Lemma rstrip_last chars s c :
  last_char (rstrip chars s) = Some c -> mem c chars = false.
Proof.
  induction s as [|d r IH]; [discriminate|].
  rewrite rstrip_cons. destruct (rstrip chars r) as [|e r'] eqn:Hr.
  - destruct (mem d chars) eqn:Hd; simpl; [discriminate|].
    intros [= <-]. exact Hd.
  - simpl. simpl in IH. exact IH.
Qed.

Lemma rstrip_first chars s c :
  first_char (rstrip chars s) = Some c -> first_char s = Some c.
Proof.
  destruct s as [|d r]; [discriminate|].
  rewrite rstrip_cons. destruct (rstrip chars r) as [|e r'].
  - destruct (mem d chars); simpl; [discriminate|auto].
  - simpl. auto.
Qed.

Lemma rstrip_fixed chars s :
  (forall c, last_char s = Some c -> mem c chars = false) -> rstrip chars s = s.
Proof.
  induction s as [|d r IH]; [reflexivity|].
  intros H. rewrite rstrip_cons. destruct r as [|e r'].
  - simpl. rewrite (H d eq_refl). reflexivity.
  - rewrite IH by (intros c Hc; apply H; exact Hc). reflexivity.
Qed.

Lemma strip_clean chars s : clean chars (strip chars s).
Proof.
  unfold strip. split; intros c Hc.
  - apply rstrip_first in Hc. eapply lstrip_first. exact Hc.
  - eapply rstrip_last. exact Hc.
Qed.

Lemma strip_fixed chars s : clean chars s -> strip chars s = s.
Proof.
  intros [Hf Hl]. unfold strip. rewrite lstrip_fixed by exact Hf.
  apply rstrip_fixed. exact Hl.
Qed.

Lemma first_char_append s t :
  first_char (s +:+ t) = match s with EmptyString => first_char t | String c _ => Some c end.
Proof. destruct s; reflexivity. Qed.

Lemma last_char_append s t :
  last_char (s +:+ t) = match t with EmptyString => last_char s | String _ _ => last_char t end.
Proof.
  destruct t as [|d t']; [rewrite append_nil_r; reflexivity|].
  induction s as [|c r IH]; [reflexivity|].
  rewrite append_cons.
  destruct r as [|e r']; [reflexivity|].
  rewrite append_cons in *. exact IH.
Qed.

(** *** Splitting and joining *)

Lemma split_cons sep c r :
  split sep (String c r)
  = if Ascii.eqb c sep then EmptyString :: split sep r
    else match split sep r with
         | h :: t => String c h :: t
         | [] => [String c EmptyString]
         end.
Proof. reflexivity. Qed.

Lemma split_nonempty sep s : split sep s <> [].
Proof.
  induction s as [|c r IH]; [discriminate|].
  rewrite split_cons. destruct (Ascii.eqb c sep); [discriminate|].
  destruct (split sep r); discriminate.
Qed.

Lemma split_free sep s : Forall (fun p => free_of sep p = true) (split sep s).
Proof.
  induction s as [|c r IH]; [repeat constructor|].
  rewrite split_cons. destruct (Ascii.eqb c sep) eqn:Hc.
  - constructor; [reflexivity|exact IH].
  - destruct (split sep r) as [|h t].
    + repeat constructor. simpl. rewrite Hc. reflexivity.
    + inversion IH as [|? ? Hh Ht]; subst.
      constructor; [|exact Ht]. simpl. rewrite Hc, Hh. reflexivity.
Qed.

Lemma split_of_free sep p : free_of sep p = true -> split sep p = [p].
Proof.
  induction p as [|c r IH]; [reflexivity|].
  simpl free_of. intros H. apply andb_true_iff in H as [Hc Hr].
  apply negb_true_iff in Hc. rewrite split_cons, Hc, (IH Hr). reflexivity.
Qed.

Lemma split_free_sep sep p rest :
  free_of sep p = true ->
  split sep (p +:+ String sep rest) = p :: split sep rest.
Proof.
  induction p as [|c r IH].
  - intros _. rewrite append_nil_l, split_cons, Ascii.eqb_refl. reflexivity.
  - simpl free_of. intros H. apply andb_true_iff in H as [Hc Hr].
    apply negb_true_iff in Hc.
    rewrite append_cons, split_cons, Hc, (IH Hr). reflexivity.
Qed.

Lemma join_cons2 sep p q rest :
  join sep (p :: q :: rest) = p +:+ sep +:+ join sep (q :: rest).
Proof. reflexivity. Qed.

Lemma split_join sep parts :
  parts <> [] ->
  Forall (fun p => free_of sep p = true) parts ->
  split sep (join (String sep EmptyString) parts) = parts.
Proof.
  induction parts as [|p parts IH]; [congruence|].
  intros _ HF. inversion HF as [|? ? Hp Hrest]; subst.
  destruct parts as [|q parts].
  - simpl. apply split_of_free. exact Hp.
  - rewrite join_cons2, append_cons, append_nil_l.
    rewrite (split_free_sep sep p _ Hp).
    rewrite IH by (try discriminate; exact Hrest). reflexivity.
Qed.

(** *** The number segment *)

Lemma fix_number_map n : fix_number n = map_chars fix_digit n.
Proof.
  unfold fix_number.
  rewrite !(replace_one_char _ _ _), !map_chars_compose.
  apply map_chars_ext. intros c. reflexivity.
Qed.

Lemma fix_digit_idem c : fix_digit (fix_digit c) = fix_digit c.
Proof. destruct c as [[] [] [] [] [] [] [] []]; reflexivity. Qed.

Lemma fix_digit_hyphen c : Ascii.eqb (fix_digit c) "-" = Ascii.eqb c "-".
Proof. destruct c as [[] [] [] [] [] [] [] []]; reflexivity. Qed.

Lemma fix_number_idem n : fix_number (fix_number n) = fix_number n.
Proof.
  rewrite !fix_number_map, map_chars_compose.
  apply map_chars_ext, fix_digit_idem.
Qed.

Lemma fix_number_free n : free_of "-" (fix_number n) = free_of "-" n.
Proof.
  rewrite fix_number_map. induction n as [|c r IH]; [reflexivity|].
  simpl. rewrite fix_digit_hyphen, IH. reflexivity.
Qed.

Lemma join_cons_char sep c h t :
  join sep (String c h :: t) = String c (join sep (h :: t)).
Proof. destruct t; reflexivity. Qed.

Lemma join_split sep s : join (String sep EmptyString) (split sep s) = s.
Proof.
  induction s as [|c r IH]; [reflexivity|].
  rewrite split_cons. destruct (Ascii.eqb_spec c sep) as [->|Hne].
  - destruct (split sep r) as [|h t] eqn:Hr; [destruct (split_nonempty _ _ Hr)|].
    rewrite join_cons2, append_nil_l, append_cons, append_nil_l, IH. reflexivity.
  - destruct (split sep r) as [|h t] eqn:Hr; [destruct (split_nonempty _ _ Hr)|].
    rewrite join_cons_char, IH. reflexivity.
Qed.

Lemma join3 p n x :
  join "-" [p; n; x] = p +:+ String "-" (n +:+ String "-" x).
Proof. reflexivity. Qed.

Lemma last_char_hyphen a x :
  last_char (a +:+ String "-" x)
  = match x with EmptyString => Some "-"%char | String _ _ => last_char x end.
Proof. rewrite last_char_append. destruct x; reflexivity. Qed.

(** The ends of a three-part name do not depend on its middle part. *)
Lemma clean_three_parts p n n' x :
  clean "-" (join "-" [p; n; x]) -> clean "-" (join "-" [p; n'; x]).
Proof.
  rewrite !join3. intros [Hf Hl]. split; intros c.
  - rewrite first_char_append in *. destruct p as [|d p']; [|apply Hf].
    specialize (Hf "-"%char eq_refl). discriminate Hf.
  - rewrite <- append_cons, <- append_assoc, last_char_hyphen.
    rewrite <- append_cons, <- append_assoc, last_char_hyphen in Hl.
    apply Hl.
Qed.

End PyStrFacts.

(** ** Name normalisation *)

Lemma check_name_unfold name :
  check_name name
  = match PyStr.split "-" (PyStr.strip "-" name) with
    | [prefix; number; suffix] => PyStr.join "-" [prefix; fix_number number; suffix]
    | _ => PyStr.strip "-" name
    end.
Proof. reflexivity. Qed.

Lemma check_name_of_clean s :
  clean "-" s ->
  check_name s
  = match PyStr.split "-" s with
    | [prefix; number; suffix] => PyStr.join "-" [prefix; fix_number number; suffix]
    | _ => s
    end.
Proof.
  intros Hs. rewrite check_name_unfold, (PyStrFacts.strip_fixed _ _ Hs). reflexivity.
Qed.

(** C9: [check_name] is idempotent. *)
Theorem check_name_idempotent name : check_name (check_name name) = check_name name.
Proof.
  rewrite (check_name_unfold name).
  pose proof (PyStrFacts.strip_clean "-" name) as Hclean.
  pose proof (PyStrFacts.split_free "-" (PyStr.strip "-" name)) as Hfree.
  pose proof (PyStrFacts.join_split "-" (PyStr.strip "-" name)) as Hjoin.
  set (s := PyStr.strip "-" name) in *.
  destruct (PyStr.split "-" s) as [|p [|n [|x [|y rest]]]] eqn:Hsplit;
    try (rewrite (check_name_of_clean s Hclean), Hsplit; reflexivity).
  rewrite <- Hjoin in Hclean.
  assert (Hclean' : clean "-" (PyStr.join "-" [p; fix_number n; x]))
    by (eapply PyStrFacts.clean_three_parts; exact Hclean).
  rewrite (check_name_of_clean _ Hclean').
  inversion Hfree as [|? ? Hp Hfree1]; subst.
  inversion Hfree1 as [|? ? Hn Hfree2]; subst.
  inversion Hfree2 as [|? ? Hx _]; subst.
  rewrite (PyStrFacts.split_join "-" [p; fix_number n; x]).
  - rewrite PyStrFacts.fix_number_idem. reflexivity.
  - discriminate.
  - repeat constructor; try assumption.
    rewrite PyStrFacts.fix_number_free. exact Hn.
Qed.

Example check_name_examples :
  check_name "D-057-UL" = "D-057-UL" /\ check_name "-D-O5S-UL-" = "D-055-UL"
  /\ check_name "D-0D7" = "D-0D7" /\ check_name "" = "".
Proof. repeat split; reflexivity. Qed.

(** ** The layers of [get_data] *)

Lemma filter_first {A} (f : A -> bool) (l : list A) (x : A) :
  In x l -> f x = true ->
  exists y rest, List.filter f l = y :: rest /\ List.find f l = Some y /\ In y l.
Proof.
  induction l as [|a l IH]; simpl; [contradiction|].
  intros [->|Hin] Hfx.
  - rewrite Hfx. exists x, (List.filter f l). auto.
  - destruct (f a) eqn:Hfa; [exists a, (List.filter f l); auto|].
    destruct (IH Hin Hfx) as (y & rest & Hfilter & Hfind & Hy).
    exists y, rest. auto.
Qed.

Lemma same_series_name_true series name data :
  same_series_name series name data = true <->
  data_series data = series /\ data_name data = name.
Proof.
  unfold same_series_name. rewrite andb_true_iff, Z.eqb_eq, String.eqb_eq. tauto.
Qed.

Lemma NoDup_key_inj {A K} (key : A -> K) (l : list A) (a b : A) :
  NoDup (List.map key l) -> In a l -> In b l -> key a = key b -> a = b.
Proof.
  induction l as [|c l IH]; simpl; [contradiction|].
  intros Hnd Ha Hb Hkey. apply NoDup_cons in Hnd as [Hc Hnd].
  assert (Hmem : forall d, In d l -> key d ∈ List.map key l).
  { intros d Hd. apply list_elem_of_In, in_map, Hd. }
  destruct Ha as [->|Ha], Hb as [->|Hb].
  - reflexivity.
  - exfalso. apply Hc. rewrite Hkey. apply Hmem, Hb.
  - exfalso. apply Hc. rewrite <- Hkey. apply Hmem, Ha.
  - apply IH; assumption.
Qed.

(** C5, amended: for a row [R] of the catalog, [get_data] called with
    [R]'s name and series yields first the first catalog row that has
    [R]'s series and name, ahead of the rows of the two later layers;
    that row is [R] itself when the pairs of series and name of the
    catalog are distinct. *)
Theorem get_data_exact_row_first catalog self_name R :
  In R catalog ->
  exists R' rest,
    get_data catalog self_name (data_name R) (data_series R) = (self_name, R') :: rest
    /\ List.find (same_series_name (data_series R) (data_name R)) catalog = Some R'
    /\ series_name R' = series_name R
    /\ (NoDup (List.map series_name catalog) -> R' = R).
Proof.
  intros HR.
  destruct (filter_first (same_series_name (data_series R) (data_name R)) catalog R HR)
    as (R' & rest & Hfilter & Hfind & HR').
  { apply same_series_name_true. auto. }
  exists R'. eexists. unfold get_data. rewrite Hfilter. simpl.
  split; [reflexivity|]. split; [exact Hfind|].
  assert (Hkey : series_name R' = series_name R).
  { apply List.find_some in Hfind as [_ Hsame].
    apply same_series_name_true in Hsame as [Hs Hn].
    unfold series_name. rewrite Hs, Hn. reflexivity. }
  split; [exact Hkey|].
  intros Hnd. eapply NoDup_key_inj; eauto.
Qed.

Lemma get_data_exact_row_first_witness :
  In twin_first twin_catalog
  /\ exists R' rest,
    get_data twin_catalog "C-057-UL" (data_name twin_first) (data_series twin_first)
    = ("C-057-UL", R') :: rest
    /\ List.find (same_series_name (data_series twin_first) (data_name twin_first))
         twin_catalog = Some R'
    /\ series_name R' = series_name twin_first
    /\ (NoDup (List.map series_name twin_catalog) -> R' = twin_first).
Proof.
  assert (H : In twin_first twin_catalog) by (left; reflexivity).
  split; [exact H|].
  apply (get_data_exact_row_first twin_catalog "C-057-UL" twin_first H).
Defined.

(** C5 as stated fails on a catalog that holds two rows with the same
    series and name: asking for the second row's name and series yields
    the first row first. *)
Lemma get_data_twin_yields_earlier_row :
  In twin_second twin_catalog
  /\ twin_first <> twin_second
  /\ get_data twin_catalog (data_name twin_second) (data_name twin_second)
       (data_series twin_second)
     = [ ("C-057-UL", twin_first); ("C-057-UL", twin_second);
         ("C-057-UL", twin_first); ("C-057-UL", twin_second) ].
Proof.
  split; [right; left; reflexivity|]. split; [discriminate|reflexivity].
Qed.

Lemma get_data_same_series catalog self_name name series yield :
  In yield (get_data catalog self_name name series) ->
  data_series (snd yield) = series.
Proof.
  unfold get_data. rewrite !in_app_iff.
  assert (Hlayer : forall (f : CatalogEntry -> bool) n,
             (forall d, f d = true -> data_series d = series) ->
             In yield (List.map (fun d => (n, d)) (List.filter f catalog)) ->
             data_series (snd yield) = series).
  { intros f n Hf Hin. apply in_map_iff in Hin as (d & <- & Hd).
    apply List.filter_In in Hd as [_ Hd]. apply Hf, Hd. }
  assert (Hexact : forall n d, same_series_name series n d = true -> data_series d = series).
  { intros n d Hd. apply same_series_name_true in Hd. tauto. }
  intros [H|[H|H]].
  - eapply Hlayer; [apply Hexact|exact H].
  - destruct (PyStr.startswith "D" name); [|contradiction].
    eapply Hlayer; [apply Hexact|exact H].
  - eapply Hlayer; [|exact H].
    intros d Hd. unfold same_series_loose in Hd.
    apply andb_true_iff in Hd as [Hd _]. apply Z.eqb_eq, Hd.
Qed.

Lemma get_data_no_series catalog self_name name series :
  Forall (fun d => data_series d <> series) catalog ->
  get_data catalog self_name name series = [].
Proof.
  intros Hnone.
  destruct (get_data catalog self_name name series) as [|yield rest] eqn:Hget;
    [reflexivity|].
  assert (Hin : In yield (get_data catalog self_name name series))
    by (rewrite Hget; left; reflexivity).
  pose proof (get_data_same_series _ _ _ _ _ Hin) as Hs.
  assert (Hcat : In (snd yield) catalog).
  { revert Hin. unfold get_data. rewrite !in_app_iff.
    assert (Hlayer : forall (f : CatalogEntry -> bool) n,
               In yield (List.map (fun d => (n, d)) (List.filter f catalog)) ->
               In (snd yield) catalog).
    { intros f n H. apply in_map_iff in H as (d & <- & Hd).
      apply List.filter_In in Hd as [Hd _]. exact Hd. }
    intros [H|[H|H]]; [eapply Hlayer, H| |eapply Hlayer, H].
    destruct (PyStr.startswith "D" name); [eapply Hlayer, H|contradiction]. }
  rewrite List.Forall_forall in Hnone. destruct (Hnone _ Hcat Hs).
Qed.

(** ** The series classifier *)

Section ClassifierFacts.

Variable Screenshot : Type.
Variable peak_count : Screenshot -> Area -> nat.

Lemma get_research_series_loop image buttons result :
  for_each (get_research_series_step Screenshot peak_count image) buttons result
  = (flat_map (fun b => series_warning b (peak_count image (button_area b))) buttons,
     Ok (result
         ++ List.map (fun b => classify_peaks (peak_count image (button_area b))) buttons)).
Proof.
  revert result. induction buttons as [|b buttons IH]; intros result.
  - simpl. rewrite app_nil_r. reflexivity.
  - rewrite for_each_cons. simpl flat_map. simpl List.map.
    unfold get_research_series_step at 1, series_warning, classify_peaks.
    destruct ((1 <=? Z.of_nat (peak_count image (button_area b)))
              && (Z.of_nat (peak_count image (button_area b)) <=? 3)).
    + rewrite bind_ret_l, IH, <- app_assoc. reflexivity.
    + rewrite bind_assoc. unfold logger_warning. rewrite bind_logged.
      rewrite bind_ret_l, IH. unfold logged, outcome. simpl.
      rewrite <- app_assoc. reflexivity.
Qed.

(** The classifier never raises: it reports the peak count when it is
    1, 2 or 3 and 0 otherwise, with one warning for each such button. *)
Lemma get_research_series_spec RESEARCH_SERIES image :
  get_research_series Screenshot peak_count RESEARCH_SERIES image
  = (flat_map (fun b => series_warning b (peak_count image (button_area b)))
       RESEARCH_SERIES,
     Ok (List.map (fun b => classify_peaks (peak_count image (button_area b)))
           RESEARCH_SERIES)).
Proof. unfold get_research_series. rewrite get_research_series_loop. reflexivity. Qed.

End ClassifierFacts.

Example get_research_series_sample :
  get_research_series (list nat) sample_peak_count sample_buttons [1; 2; 3; 0; 4]%nat
  = ([LogWarning "Unknown research series: button=SERIES_4, series=0";
      LogWarning "Unknown research series: button=SERIES_5, series=4"],
     Ok [1; 2; 3; 0; 0]).
Proof. reflexivity. Qed.

Lemma classify_peaks_unknown peaks :
  ~ (1 <= peaks <= 3)%nat -> classify_peaks peaks = 0.
Proof.
  intros H. unfold classify_peaks.
  destruct (Z.leb_spec 1 (Z.of_nat peaks)); simpl; [|reflexivity].
  destruct (Z.leb_spec (Z.of_nat peaks) 3); [lia|reflexivity].
Qed.

Lemma series_warning_unknown button peaks :
  ~ (1 <= peaks <= 3)%nat ->
  series_warning button peaks
  = [LogWarning ("Unknown research series: button=" +:+ button_name button
                 +:+ ", series=" +:+ PyStr.str_int (Z.of_nat peaks))].
Proof.
  intros H. unfold series_warning.
  destruct (Z.leb_spec 1 (Z.of_nat peaks)); simpl; [|reflexivity].
  destruct (Z.leb_spec (Z.of_nat peaks) 3); [lia|reflexivity].
Qed.

(** C6, amended: the series classifier never fails; for each button it
    reports the peak count when that is 1, 2 or 3 and 0 otherwise, with a
    warning logged for each such button.  Every layer of [get_data]
    compares the series of the row with the series it is given, so a
    record of series 0 matches only rows whose series is 0: there is no
    layer that ignores the series, and on a catalog without such rows a
    name of series 0 is left unmatched and gives an invalid record. *)
Theorem unknown_series_is_reported_and_still_compared
  (Screenshot : Type) (peak_count : Screenshot -> Area -> nat)
  (RESEARCH_SERIES : list Button) (image : Screenshot)
  (catalog : list CatalogEntry) (float_str : Q -> string) (name : string) :
  get_research_series Screenshot peak_count RESEARCH_SERIES image
  = (flat_map (fun b => series_warning b (peak_count image (button_area b)))
       RESEARCH_SERIES,
     Ok (List.map (fun b => classify_peaks (peak_count image (button_area b)))
           RESEARCH_SERIES))
  /\ (forall button peaks,
        ~ (1 <= peaks <= 3)%nat ->
        classify_peaks peaks = 0
        /\ series_warning button peaks
           = [LogWarning ("Unknown research series: button=" +:+ button_name button
                          +:+ ", series=" +:+ PyStr.str_int (Z.of_nat peaks))])
  /\ (forall self_name series yield,
        In yield (get_data catalog self_name name series) ->
        data_series (snd yield) = series)
  /\ (Forall (fun d => data_series d <> 0) catalog ->
      outcome (ResearchProject_init catalog float_str name 0)
      = Ok (unmatched_record name 0)).
Proof.
  split; [apply get_research_series_spec|].
  split; [intros button peaks H; split;
          [apply classify_peaks_unknown|apply series_warning_unknown]; exact H|].
  split; [intros self_name series yield; apply get_data_same_series|].
  intros Hnone. rewrite unmatched_init; [reflexivity|].
  apply get_data_no_series, Hnone.
Qed.

Lemma unknown_series_is_reported_and_still_compared_witness :
  Forall (fun d => data_series d <> 0) sample_catalog
  /\ outcome (ResearchProject_init sample_catalog decimal_float_str "C-057-UL" 0)
     = Ok (unmatched_record "C-057-UL" 0).
Proof.
  assert (H : Forall (fun d => data_series d <> 0) sample_catalog)
    by (unfold sample_catalog; repeat constructor; simpl; lia).
  split; [exact H|].
  apply (unknown_series_is_reported_and_still_compared (list nat) sample_peak_count
           sample_buttons [1; 2; 3; 0; 4]%nat sample_catalog decimal_float_str
           "C-057-UL").
  exact H.
Defined.

(** C6 as stated fails: a name that is in the catalog, read with the
    unknown series 0, is matched by no layer. *)
Lemma unknown_series_matches_no_row :
  (exists R, In R sample_catalog /\ data_name R = "C-057-UL")
  /\ get_data sample_catalog "C-057-UL" "C-057-UL" 0 = []
  /\ outcome (ResearchProject_init sample_catalog decimal_float_str "C-057-UL" 0)
     = Ok (unmatched_record "C-057-UL" 0).
Proof.
  split; [eexists; split; [left; reflexivity|reflexivity]|].
  split; reflexivity.
Qed.

(** ** The template classifier *)

Lemma Qgt_bool_true (x y : Q) : Qgt_bool x y = true <-> (y < x)%Q.
Proof.
  unfold Qgt_bool. rewrite negb_true_iff.
  destruct (Qle_bool x y) eqn:H.
  - apply Qle_bool_iff in H. split; [discriminate|].
    intros Hlt. exfalso. exact (Qlt_not_le _ _ Hlt H).
  - split; [|reflexivity]. intros _. apply Qnot_le_lt. intros Hle.
    apply Qle_bool_iff in Hle. congruence.
Qed.

Lemma Qgt_bool_false (x y : Q) : Qgt_bool x y = false <-> (x <= y)%Q.
Proof.
  unfold Qgt_bool. rewrite negb_false_iff. apply Qle_bool_iff.
Qed.

Section MatchTemplateFacts.

Variable Image : Type.
Variable max_score : Image -> Image -> Outcome Q.
Variable float_str : Q -> string.
Variable image : Image.

Local Abbreviation step := (match_template_step Image max_score float_str image).
Local Abbreviation all_scored := (all_scored Image max_score image).
Local Abbreviation scores_le := (scores_le Image max_score image).
Local Abbreviation scores_lt := (scores_lt Image max_score image).
Local Abbreviation first_best := (first_best Image max_score image).

Lemma step_outcome s0 r0 name t s :
  max_score image t = Ok s ->
  outcome (step (s0, r0) (name, t))
  = Ok (if Qgt_bool s s0 then (s, name) else (s0, r0)).
Proof.
  intros Hs. unfold match_template_step. rewrite Hs, bind_nil_Ok.
  unfold logger_info. rewrite bind_logged. unfold outcome. simpl.
  destruct (Qgt_bool s s0); reflexivity.
Qed.

Lemma all_scored_cons item templates :
  all_scored (item :: templates) ->
  (exists s, max_score image (snd item) = Ok s) /\ all_scored templates.
Proof.
  intros H. split.
  - destruct item as [n t]. apply (H n t). left. reflexivity.
  - intros n t Hin. apply (H n t). right. exact Hin.
Qed.

Lemma scores_le_nil bound : scores_le bound [].
Proof. intros n t s []. Qed.

Lemma scores_lt_nil bound : scores_lt bound [].
Proof. intros n t s []. Qed.

Lemma scores_le_cons bound name t s templates :
  max_score image t = Ok s -> (s <= bound)%Q -> scores_le bound templates ->
  scores_le bound ((name, t) :: templates).
Proof.
  intros Hs Hle H n' t' s' [Heq|Hin] Hs'.
  - injection Heq as <- <-. rewrite Hs in Hs'. injection Hs' as <-. exact Hle.
  - eapply H; eauto.
Qed.

Lemma scores_lt_cons bound name t s templates :
  max_score image t = Ok s -> (s < bound)%Q -> scores_lt bound templates ->
  scores_lt bound ((name, t) :: templates).
Proof.
  intros Hs Hlt H n' t' s' [Heq|Hin] Hs'.
  - injection Heq as <- <-. rewrite Hs in Hs'. injection Hs' as <-. exact Hlt.
  - eapply H; eauto.
Qed.

Lemma scores_lt_weaken b1 b2 templates :
  (b1 <= b2)%Q -> scores_lt b1 templates -> scores_lt b2 templates.
Proof.
  intros Hb H n t s Hin Hs. eapply Qlt_le_trans; [eapply H; eauto|exact Hb].
Qed.

Lemma scores_le_lt b1 b2 templates :
  (b1 < b2)%Q -> scores_le b1 templates -> scores_lt b2 templates.
Proof.
  intros Hb H n t s Hin Hs. eapply Qle_lt_trans; [eapply H; eauto|exact Hb].
Qed.

(** The loop of [match_template]: it ends with the state it started
    from when no score exceeds the starting similarity, and otherwise
    with the first template that reaches the largest score. *)
Lemma match_template_loop templates :
  all_scored templates ->
  forall s0 r0,
  exists s r,
    outcome (for_each step templates (s0, r0)) = Ok (s, r)
    /\ ((s = s0 /\ r = r0 /\ scores_le s0 templates)
        \/ first_best s0 templates r s).
Proof.
  induction templates as [|[name t] templates IH]; intros Hall s0 r0.
  - exists s0, r0. split; [reflexivity|]. left. auto using scores_le_nil.
  - apply all_scored_cons in Hall as [[s1 Hs1] Hall]. simpl in Hs1.
    rewrite for_each_cons.
    pose proof (step_outcome s0 r0 name t s1 Hs1) as Hstep.
    destruct (Qgt_bool s1 s0) eqn:Hgt.
    + apply Qgt_bool_true in Hgt.
      destruct (IH Hall s1 name) as (s & r & Hloop & Hchar).
      exists s, r. split; [rewrite (outcome_bind_Ok _ _ _ Hstep); exact Hloop|].
      right. destruct Hchar as [(-> & -> & Hle)|(pre & t' & post & -> & Hs & Hlt & Hpre & Hpost)].
      * exists [], t, templates. simpl. auto using scores_lt_nil.
      * exists ((name, t) :: pre), t', post. simpl. repeat split; auto.
        -- eapply Qlt_trans; eauto.
        -- eapply scores_lt_cons; eauto.
    + apply Qgt_bool_false in Hgt.
      destruct (IH Hall s0 r0) as (s & r & Hloop & Hchar).
      exists s, r. split; [rewrite (outcome_bind_Ok _ _ _ Hstep); exact Hloop|].
      destruct Hchar as [(-> & -> & Hle)|(pre & t' & post & -> & Hs & Hlt & Hpre & Hpost)].
      * left. repeat split; auto. eapply scores_le_cons; eauto.
      * right. exists ((name, t) :: pre), t', post. simpl. repeat split; auto.
        eapply scores_lt_cons; eauto. eapply Qle_lt_trans; eauto.
Qed.

Lemma match_template_outcome templates s r :
  outcome (for_each step templates (similarity, EmptyString)) = Ok (s, r) ->
  outcome (match_template Image max_score float_str templates image) = Ok r.
Proof.
  intros Hloop. unfold match_template.
  rewrite (outcome_bind_Ok _ _ _ Hloop).
  unfold logger_info. rewrite bind_logged. reflexivity.
Qed.

(** A template that scores above the starting similarity, more than
    every template before it and no less than every template after it,
    is the one the loop ends with. *)
Lemma match_template_loop_first_best pre name t post s :
  max_score image t = Ok s ->
  all_scored (pre ++ (name, t) :: post) ->
  scores_lt s pre -> scores_le s post ->
  forall s0 r0, (s0 < s)%Q ->
  outcome (for_each step (pre ++ (name, t) :: post) (s0, r0)) = Ok (s, name).
Proof.
  intros Hs. induction pre as [|[n1 t1] pre IH]; intros Hall Hpre Hpost s0 r0 Hlt.
  - simpl app. rewrite for_each_cons.
    pose proof (step_outcome s0 r0 name t s Hs) as Hstep.
    apply Qgt_bool_true in Hlt. rewrite Hlt in Hstep.
    rewrite (outcome_bind_Ok _ _ _ Hstep).
    apply all_scored_cons in Hall as [_ Hall].
    destruct (match_template_loop post Hall s name)
      as (s' & r' & Hloop & [(-> & -> & _)|(p & t' & q & -> & Hs' & Hlt' & _ & _)]);
      [exact Hloop|].
    exfalso. apply (Qlt_not_le _ _ Hlt'). eapply Hpost; [|exact Hs'].
    apply in_app_iff. right. left. reflexivity.
  - simpl app. rewrite for_each_cons.
    apply all_scored_cons in Hall as [[s1 Hs1] Hall]. simpl in Hs1.
    pose proof (step_outcome s0 r0 n1 t1 s1 Hs1) as Hstep.
    rewrite (outcome_bind_Ok _ _ _ Hstep).
    assert (Hs1lt : (s1 < s)%Q) by (eapply Hpre; [left; reflexivity|exact Hs1]).
    assert (Hpre' : scores_lt s pre)
      by (intros n' t' s' Hin; apply (Hpre n' t' s'); right; exact Hin).
    destruct (Qgt_bool s1 s0); apply IH; auto.
Qed.

End MatchTemplateFacts.

(** C7, amended: when [cv2] scores every template of the library against
    the query, [match_template] returns without raising; what it returns
    is either the empty string, every score being at most the floor 0.85,
    or the label of a template whose score is above 0.85, is the largest
    of the library and is reached by no earlier template; it is the empty
    string when no score is above 0.85; and when the query is one of the
    reference images, it returns that reference's label provided the
    score of the reference against the query, whatever it is, is above
    0.85, every earlier template scores less and no later template scores
    more. *)
Theorem match_template_first_best_above_floor
  (Image : Type) (max_score : Image -> Image -> Outcome Q) (float_str : Q -> string)
  (templates : list (string * Image)) (image : Image) :
  all_scored Image max_score image templates ->
  exists result,
    outcome (match_template Image max_score float_str templates image) = Ok result
    /\ ((result = "" /\ scores_le Image max_score image similarity templates)
        \/ exists s, first_best Image max_score image similarity templates result s)
    /\ (scores_le Image max_score image similarity templates -> result = "")
    /\ (forall pre name post s,
          templates = pre ++ (name, image) :: post ->
          max_score image image = Ok s ->
          (similarity < s)%Q ->
          scores_lt Image max_score image s pre ->
          scores_le Image max_score image s post ->
          result = name).
Proof.
  intros Hall.
  destruct (match_template_loop Image max_score float_str image templates Hall
              similarity "") as (s & r & Hloop & Hchar).
  exists r.
  pose proof (match_template_outcome _ _ _ _ _ _ _ Hloop) as Hout.
  split; [exact Hout|]. split; [|split].
  - destruct Hchar as [(_ & -> & Hle)|Hbest]; [left; auto|right; eauto].
  - intros Hle. destruct Hchar as [(_ & -> & _)|(pre & t & post & -> & Hs & Hlt & _ & _)];
      [reflexivity|].
    exfalso. apply (Qlt_not_le _ _ Hlt). eapply Hle; [|exact Hs].
    apply in_app_iff. right. left. reflexivity.
  - intros pre name post s' -> Hself Hfloor Hpre Hpost.
    pose proof (match_template_loop_first_best Image max_score float_str image
                  pre name image post s' Hself Hall Hpre Hpost similarity ""
                  Hfloor) as Hfirst.
    rewrite Hfirst in Hloop. congruence.
Qed.

Lemma match_template_first_best_above_floor_witness :
  all_scored nat near_one_score 7%nat sample_library
  /\ outcome (match_template nat near_one_score decimal_float_str sample_library 7%nat)
     = Ok "mainz".
Proof.
  assert (H : all_scored nat near_one_score 7%nat sample_library)
    by (intros name t _; eexists; reflexivity).
  split; [exact H|].
  destruct (match_template_first_best_above_floor nat near_one_score decimal_float_str
              sample_library 7%nat H) as (result & Hout & _ & _ & Hown).
  rewrite Hout. f_equal.
  apply (Hown [("drake", 3%nat)] "mainz" [("odin", 9%nat)] (16777215 # 16777216)%Q);
    try reflexivity.
  - intros name t s [[= <- <-]|[]] [= <-]. reflexivity.
  - intros name t s [[= <- <-]|[]] [= <-]. discriminate.
Defined.

(** C7 as stated fails where two labels hold the same image: the query
    equals the reference image of the second label, and the first label
    is returned. *)
Lemma match_template_twin_returns_first_label :
  In ("seattle", 7%nat) twin_templates
  /\ sample_score 7%nat 7%nat = Ok 1%Q
  /\ match_template nat sample_score decimal_float_str twin_templates 7%nat
     = ([LogInfo "kitakaze 1.0"; LogInfo "seattle 1.0";
         LogInfo "Matched template: kitakaze"],
        Ok "kitakaze").
Proof.
  split; [right; left; reflexivity|]. split; reflexivity.
Qed.

(** The own label is not returned either when another template scores
    more than the reference does against itself, nor when the reference
    scores no more than the floor against itself. *)
Example match_template_other_template_scores_more :
  In ("mainz", 7%nat) flat_library
  /\ near_one_score 7%nat 7%nat = Ok (16777215 # 16777216)%Q
  /\ outcome (match_template nat near_one_score decimal_float_str flat_library 7%nat)
     = Ok "flat".
Proof. split; [left; reflexivity|]. split; reflexivity. Qed.

Example match_template_own_score_at_floor :
  outcome (match_template nat (fun _ _ => Ok similarity) decimal_float_str
             sample_library 7%nat)
  = Ok "".
Proof. reflexivity. Qed.

(** ** Loading the template directory *)

Lemma dict_lookup_cons {V} key k (v : V) d :
  dict_lookup key ((k, v) :: d) = if String.eqb k key then Some v else dict_lookup key d.
Proof. unfold dict_lookup. simpl. destruct (String.eqb k key); reflexivity. Qed.

Lemma dict_lookup_set {V} key k (v : V) d :
  dict_lookup key (dict_set d k v) = if String.eqb k key then Some v else dict_lookup key d.
Proof.
  induction d as [|[k' v'] d IH]; simpl dict_set.
  - rewrite dict_lookup_cons. reflexivity.
  - destruct (String.eqb_spec k' k) as [->|Hne].
    + rewrite !dict_lookup_cons. destruct (String.eqb k key); reflexivity.
    + rewrite !dict_lookup_cons, IH.
      destruct (String.eqb_spec k' key) as [->|_]; [|reflexivity].
      destruct (String.eqb_spec k key) as [->|_]; [congruence|reflexivity].
  Qed.

Lemma dict_has_lookup {V} key (d : list (string * V)) :
  dict_has key d = true <-> exists v, dict_lookup key d = Some v.
Proof.
  induction d as [|[k v] d IH]; simpl.
  - split; [discriminate|]. intros [v Hv]. discriminate Hv.
  - rewrite dict_lookup_cons. destruct (String.eqb k key); simpl; [|exact IH].
    split; eauto.
Qed.

Lemma dict_has_false_lookup {V} key (d : list (string * V)) :
  dict_has key d = false -> dict_lookup key d = None.
Proof.
  intros H. destruct (dict_lookup key d) as [v|] eqn:Hl; [|reflexivity].
  assert (dict_has key d = true) by (apply dict_has_lookup; eauto). congruence.
Qed.

Lemma dict_set_In {V} (d : list (string * V)) k v k' v' :
  In (k', v') (dict_set d k v) -> (k', v') = (k, v) \/ In (k', v') d.
Proof.
  induction d as [|[k0 v0] d IH]; simpl.
  - intros [H|[]]. left. congruence.
  - destruct (String.eqb k0 k); simpl; intros [H|H]; auto.
    destruct (IH H); auto.
Qed.

Section LoadFacts.

Variable Image : Type.
Variable fs : string -> FsNode.
Variable Image_open : string -> Outcome Image.

Local Abbreviation step := (load_template_step Image Image_open).

(** The paths [_load_folder] collects: the last file wins a base name. *)
Lemma load_folder_lookup folder files name :
  dict_lookup name
    (fold_left
       (fun out file =>
          dict_set out (OsPath.splitext_root file) (OsPath.join folder file))
       files [])
  = OsPath.join folder <$> last_with_root name files.
Proof.
  unfold last_with_root.
  induction files as [|file files IH] using rev_ind; [reflexivity|].
  rewrite fold_left_app, rev_app_distr. simpl.
  rewrite dict_lookup_set, IH.
  destruct (String.eqb (OsPath.splitext_root file) name); reflexivity.
Qed.

Lemma load_folder_values folder files name path :
  In (name, path)
    (fold_left
       (fun out file =>
          dict_set out (OsPath.splitext_root file) (OsPath.join folder file))
       files [])
  -> exists file, In file files /\ path = OsPath.join folder file.
Proof.
  induction files as [|file files IH] using rev_ind; [intros []|].
  rewrite fold_left_app. simpl. intros H.
  apply dict_set_In in H as [H|H].
  - injection H as _ ->. exists file. split; [|reflexivity].
    apply in_app_iff. right. left. reflexivity.
  - destruct (IH H) as (f & Hf & ->). exists f. split; [|reflexivity].
    apply in_app_iff. left. exact Hf.
Qed.

(** The loop of [load_template_folder]: a name already in the library
    keeps its image, and a name that is new gets the image of the first
    entry of [data] under that name. *)
Lemma load_template_loop data :
  (forall name file, In (name, file) data -> exists image, Image_open file = Ok image) ->
  forall templates0,
  exists templates,
    for_each step data templates0 = ([], Ok templates)
    /\ forall name,
         dict_lookup name templates
         = match dict_lookup name templates0 with
           | Some image => Some image
           | None => dict_lookup name data ≫= opened Image_open
           end.
Proof.
  induction data as [|[n file] data IH]; intros Hopen templates0.
  - exists templates0. split; [reflexivity|]. intros name.
    destruct (dict_lookup name templates0); reflexivity.
  - assert (Hrest : forall name f, In (name, f) data ->
                                   exists image, Image_open f = Ok image)
      by (intros name f Hin; apply (Hopen name f); right; exact Hin).
    rewrite for_each_cons. unfold load_template_step at 1.
    destruct (dict_has n templates0) eqn:Hhas.
    + rewrite bind_ret_l.
      destruct (IH Hrest templates0) as (templates & Hloop & Hlook).
      exists templates. split; [exact Hloop|]. intros name. rewrite Hlook.
      destruct (dict_lookup name templates0) as [image|] eqn:H0; [reflexivity|].
      rewrite dict_lookup_cons. destruct (String.eqb_spec n name) as [->|_]; [|reflexivity].
      apply dict_has_lookup in Hhas as [v Hv]. congruence.
    + destruct (Hopen n file) as [image Himage]; [left; reflexivity|].
      rewrite Himage, bind_nil_Ok, bind_ret_l.
      destruct (IH Hrest (dict_set templates0 n image)) as (templates & Hloop & Hlook).
      exists templates. split; [exact Hloop|]. intros name. rewrite Hlook.
      rewrite dict_lookup_set, dict_lookup_cons.
      destruct (String.eqb_spec n name) as [->|_]; [|reflexivity].
      rewrite (dict_has_false_lookup _ _ Hhas). simpl.
      unfold opened. rewrite Himage. reflexivity.
Qed.

End LoadFacts.

(** C8, amended: when the files of the template directory decode,
    loading it does not raise, a label that was in the library before the
    load keeps its image (the skip of [load_template_folder] makes the first
    load win across loads), and a new label gets the image of the last
    file of the listing with that base name: among the files of one scan
    that share a base name the later file replaces the earlier one. *)
Theorem load_template_folder_last_file_wins
  (Image : Type) (fs : string -> FsNode) (Image_open : string -> Outcome Image)
  (folder : string) (files : list string) (templates0 : list (string * Image)) :
  fs folder = Directory files ->
  (forall file, In file files ->
     exists image, Image_open (OsPath.join folder file) = Ok image) ->
  exists templates,
    load_template_folder Image fs Image_open folder templates0 = ([], Ok templates)
    /\ forall name,
         dict_lookup name templates
         = match dict_lookup name templates0 with
           | Some image => Some image
           | None =>
               last_with_root name files
                 ≫= fun file => opened Image_open (OsPath.join folder file)
           end.
Proof.
  intros Hdir Hopen. unfold load_template_folder, _load_folder. rewrite Hdir.
  rewrite bind_ret_l.
  destruct (load_template_loop Image Image_open
              (fold_left
                 (fun out file =>
                    dict_set out (OsPath.splitext_root file) (OsPath.join folder file))
                 files []))
    with (templates0 := templates0) as (templates & Hloop & Hlook).
  { intros name path Hin. apply load_folder_values in Hin as (file & Hfile & ->).
    apply Hopen, Hfile. }
  exists templates. split; [exact Hloop|]. intros name. rewrite Hlook.
  destruct (dict_lookup name templates0); [reflexivity|].
  rewrite load_folder_lookup. destruct (last_with_root name files); reflexivity.
Qed.

Lemma load_template_folder_last_file_wins_witness :
  sample_fs "./assets/jp/research/research_ship"
  = Directory ["drake.png"; "mainz.png"; "drake.jpg"]
  /\ (forall file, In file ["drake.png"; "mainz.png"; "drake.jpg"] ->
        exists image,
          sample_open (OsPath.join "./assets/jp/research/research_ship" file) = Ok image)
  /\ exists templates,
       load_template_folder string sample_fs sample_open
         "./assets/jp/research/research_ship" []
       = ([], Ok templates)
       /\ forall name,
            dict_lookup name templates
            = match dict_lookup name (@nil (string * string)) with
              | Some image => Some image
              | None =>
                  last_with_root name ["drake.png"; "mainz.png"; "drake.jpg"]
                    ≫= fun file =>
                         opened sample_open
                           (OsPath.join "./assets/jp/research/research_ship" file)
              end.
Proof.
  assert (Hdir : sample_fs "./assets/jp/research/research_ship"
                 = Directory ["drake.png"; "mainz.png"; "drake.jpg"]) by reflexivity.
  assert (Hopen : forall file, In file ["drake.png"; "mainz.png"; "drake.jpg"] ->
            exists image,
              sample_open (OsPath.join "./assets/jp/research/research_ship" file)
              = Ok image)
    by (intros file _; eexists; reflexivity).
  split; [exact Hdir|]. split; [exact Hopen|].
  apply (load_template_folder_last_file_wins string sample_fs sample_open
           "./assets/jp/research/research_ship"
           ["drake.png"; "mainz.png"; "drake.jpg"] [] Hdir Hopen).
Defined.

(** C8 as stated fails: of two files with the base name "drake" the
    library holds the image of the one listed last, not of the one listed
    first. *)
Lemma template_library_holds_later_duplicate :
  sample_fs "./assets/jp/research/research_ship"
  = Directory ["drake.png"; "mainz.png"; "drake.jpg"]
  /\ MatchTemplate_init string sample_fs sample_open "./assets/jp/research/research_ship"
     = ([], Ok [ ("drake", "./assets/jp/research/research_ship/drake.jpg");
                 ("mainz", "./assets/jp/research/research_ship/mainz.png") ])
  /\ sample_open "./assets/jp/research/research_ship/drake.png"
     <> sample_open "./assets/jp/research/research_ship/drake.jpg".
Proof.
  split; [reflexivity|]. split; [reflexivity|discriminate].
Qed.

(** ** Durations *)

Module DurationFacts.
Import PyStr PyStrFacts.

Lemma digits_aux_acc fuel : forall n acc,
  digits_aux fuel n acc = digits_aux fuel n EmptyString +:+ acc.
Proof.
  induction fuel as [|fuel IH]; intros n acc; [reflexivity|].
  simpl. destruct (n <? 10); [reflexivity|].
  rewrite (IH _ (String _ acc)), (IH _ (String _ EmptyString)).
  rewrite append_assoc. reflexivity.
Qed.

Lemma digits_aux_last fuel n :
  last_char (digits_aux (S fuel) n EmptyString) = Some (digit_char (n mod 10)).
Proof.
  simpl. destruct (n <? 10); [reflexivity|].
  rewrite digits_aux_acc, last_char_append. reflexivity.
Qed.

Lemma str_int_last n :
  0 <= n -> last_char (str_int n) = Some (digit_char (n mod 10)).
Proof.
  intros Hn. unfold str_int.
  destruct (Z.ltb_spec n 0); [lia|]. apply digits_aux_last.
Qed.

Lemma digit_char_not_stripped d :
  1 <= d <= 9 -> mem (digit_char d) ".0" = false.
Proof.
  intros Hd.
  assert (H : d = 1 \/ d = 2 \/ d = 3 \/ d = 4 \/ d = 5 \/ d = 6 \/ d = 7 \/ d = 8 \/ d = 9)
    by lia.
  repeat (destruct H as [->|H]; [reflexivity|]). subst d. reflexivity.
Qed.

Lemma rstrip_append_stripped chars s t :
  rstrip chars t = EmptyString -> rstrip chars (s +:+ t) = rstrip chars s.
Proof.
  intros Ht. induction s as [|c r IH]; [exact Ht|].
  rewrite append_cons, !rstrip_cons, IH. reflexivity.
Qed.

(** A whole number of hours prints with one decimal, a zero. *)
Lemma decimal_hours_whole h :
  0 <= h < 10 ^ 11 -> decimal_hours (3600 * h) = Some (str_int h +:+ ".0").
Proof.
  change (10 ^ 11) with 100000000000. intros Hh. unfold decimal_hours.
  change (10 ^ 11) with 100000000000.
  replace (3600 * h) with (400 * h * 9) by lia.
  rewrite Z.mod_mul, Z.div_mul by lia.
  replace (400 * h * 25) with (h * 10000) by lia.
  rewrite Z.div_mul by lia.
  unfold frac_digits. rewrite Z.mod_mul by lia.
  destruct (Z.leb_spec 0 (400 * h * 9)); [|lia].
  destruct (Z.ltb_spec (400 * h * 9) (3600 * 100000000000)); [|lia].
  reflexivity.
Qed.

End DurationFacts.

Section DurationOfEntry.

Variable float_str : Q -> string.

(** The runtime prints the quotients [decimal_hours] describes as it
    says. *)
Hypothesis float_str_decimal :
  forall t s, decimal_hours t = Some s -> float_str (inject_Z t / 3600)%Q = s.

(** The duration of a whole number of hours: the numeral of the hours
    with its trailing zeros stripped too. *)
Lemma duration_of_whole_hours h :
  0 <= h < 10 ^ 11 ->
  duration_of_seconds float_str (3600 * h) = PyStr.rstrip ".0" (PyStr.str_int h).
Proof.
  intros Hh. unfold duration_of_seconds.
  rewrite (float_str_decimal _ _ (DurationFacts.decimal_hours_whole h Hh)).
  apply DurationFacts.rstrip_append_stripped. reflexivity.
Qed.

(** It is the numeral of the hours when that does not end in a zero. *)
Lemma duration_of_whole_hours_no_trailing_zero h :
  0 <= h < 10 ^ 11 -> h mod 10 <> 0 ->
  duration_of_seconds float_str (3600 * h) = PyStr.str_int h.
Proof.
  intros Hh Hmod. rewrite duration_of_whole_hours by exact Hh.
  apply PyStrFacts.rstrip_fixed. intros c Hc.
  rewrite DurationFacts.str_int_last in Hc by lia. injection Hc as <-.
  apply DurationFacts.digit_char_not_stripped.
  pose proof (Z.mod_pos_bound h 10). lia.
Qed.

Lemma duration_of_six_hours : duration_of_seconds float_str 21600 = "6".
Proof.
  unfold duration_of_seconds.
  rewrite (float_str_decimal 21600 "6.0") by reflexivity. reflexivity.
Qed.

Lemma duration_of_half_hour : duration_of_seconds float_str 1800 = "0.5".
Proof.
  unfold duration_of_seconds.
  rewrite (float_str_decimal 1800 "0.5") by reflexivity. reflexivity.
Qed.

Lemma duration_of_ten_hours : duration_of_seconds float_str 36000 = "1".
Proof.
  unfold duration_of_seconds.
  rewrite (float_str_decimal 36000 "10.0") by reflexivity. reflexivity.
Qed.

End DurationOfEntry.

Lemma decimal_float_str_decimal t s :
  decimal_hours t = Some s -> decimal_float_str (inject_Z t / 3600)%Q = s.
Proof.
  intros Hs. unfold decimal_float_str. simpl Qnum. simpl Qden.
  change (Z.pos (1 * 3600)) with 3600.
  replace (t * 1 * 3600 / 3600) with t
    by (rewrite Z.mul_1_r, Z.div_mul; [reflexivity|discriminate]).
  rewrite Hs. rewrite Z.mul_1_r, Z.eqb_refl. reflexivity.
Qed.

(** ** Records of matched names *)

Section MatchedFacts.

Variable catalog : list CatalogEntry.
Variable float_str : Q -> string.

Lemma scan_input_keeps self item :
  valid (scan_input self item) = valid self
  /\ name (scan_input self item) = name self
  /\ genre (scan_input self item) = genre self
  /\ duration (scan_input self item) = duration self.
Proof.
  unfold scan_input. destruct (re_search_words _ _); simpl; auto.
Qed.

Lemma scan_output_keeps self item :
  valid (scan_output self item) = valid self
  /\ name (scan_output self item) = name self
  /\ genre (scan_output self item) = genre self
  /\ duration (scan_output self item) = duration self.
Proof.
  unfold scan_output.
  destruct (String.eqb (ship self) ""); simpl;
    repeat match goal with
           | |- context [if ?b then _ else _] => destruct b; simpl
           end; auto.
Qed.

Lemma fold_scan_keeps (scan : ResearchProject -> Item -> ResearchProject) items :
  (forall self item,
      valid (scan self item) = valid self
      /\ name (scan self item) = name self
      /\ genre (scan self item) = genre self
      /\ duration (scan self item) = duration self) ->
  forall self,
    valid (fold_left scan items self) = valid self
    /\ name (fold_left scan items self) = name self
    /\ genre (fold_left scan items self) = genre self
    /\ duration (fold_left scan items self) = duration self.
Proof.
  intros Hscan. induction items as [|item items IH]; intros self; simpl; [auto|].
  destruct (IH (scan self item)) as (-> & -> & -> & ->). apply Hscan.
Qed.

(** The record of a name that some layer matches: no exception, no log,
    the attributes of the first row yielded. *)
Lemma matched_init name0 series0 name' row rest c tl :
  get_data catalog (check_name name0) (check_name name0) series0 = (name', row) :: rest ->
  data_name row = String c tl ->
  exists r,
    ResearchProject_init catalog float_str name0 series0 = ([], Ok r)
    /\ valid r = true
    /\ name r = name'
    /\ genre r = String c EmptyString
    /\ duration r = duration_of_seconds float_str (data_time row).
Proof.
  intros Hget Hname. unfold ResearchProject_init. rewrite Hget, Hname.
  cbn [PyStr.head]. rewrite bind_ret_l. eexists. split; [reflexivity|].
  match goal with
  | |- context [fold_left scan_output ?o (fold_left scan_input ?i ?self0)] =>
      destruct (fold_scan_keeps scan_output o scan_output_keeps
                  (fold_left scan_input i self0)) as (-> & -> & -> & ->);
      destruct (fold_scan_keeps scan_input i scan_input_keeps self0)
        as (-> & -> & -> & ->)
  end.
  simpl. auto.
Qed.

End MatchedFacts.

(** C1: for a matched catalog entry the record's duration is
    [str(time / 3600).rstrip('.0')]; it is "6" for 21600 seconds, "0.5"
    for 1800 seconds and the numeral of the hours for a whole number of
    hours that does not end in a zero.  For a whole number of hours that
    ends in a zero the zeros of the numeral are stripped as well: ten
    hours give "1". *)
Theorem matched_entry_duration
  (float_str : Q -> string) (catalog : list CatalogEntry)
  (name0 : string) (series0 : Z) (name' : string) (row : CatalogEntry)
  (rest : list (string * CatalogEntry)) :
  (forall t s, decimal_hours t = Some s -> float_str (inject_Z t / 3600)%Q = s) ->
  get_data catalog (check_name name0) (check_name name0) series0 = (name', row) :: rest ->
  data_name row <> "" ->
  exists r,
    ResearchProject_init catalog float_str name0 series0 = ([], Ok r)
    /\ duration r = PyStr.rstrip ".0" (float_str (inject_Z (data_time row) / 3600)%Q)
    /\ (data_time row = 21600 -> duration r = "6")
    /\ (data_time row = 1800 -> duration r = "0.5")
    /\ (forall h, 0 <= h < 10 ^ 11 -> h mod 10 <> 0 -> data_time row = 3600 * h ->
                  duration r = PyStr.str_int h)
    /\ (data_time row = 36000 -> duration r = "1" /\ PyStr.str_int 10 = "10").
Proof.
  intros Hfloat Hget Hname.
  destruct (data_name row) as [|c tl] eqn:Hrow; [congruence|].
  destruct (matched_init catalog float_str name0 series0 name' row rest c tl Hget Hrow)
    as (r & Hinit & _ & _ & _ & Hduration).
  exists r. split; [exact Hinit|]. rewrite Hduration.
  split; [reflexivity|]. split; [|split; [|split]].
  - intros ->. apply duration_of_six_hours, Hfloat.
  - intros ->. apply duration_of_half_hour, Hfloat.
  - intros h Hh Hmod ->. apply duration_of_whole_hours_no_trailing_zero; assumption.
  - intros ->. split; [apply duration_of_ten_hours, Hfloat|reflexivity].
Qed.

Lemma matched_entry_duration_witness :
  (forall t s, decimal_hours t = Some s -> decimal_float_str (inject_Z t / 3600)%Q = s)
  /\ exists r,
       ResearchProject_init sample_catalog decimal_float_str "E-031-MI" 1 = ([], Ok r)
       /\ duration r = "1".
Proof.
  split; [exact decimal_float_str_decimal|].
  destruct (matched_entry_duration decimal_float_str sample_catalog "E-031-MI" 1
              "E-031-MI"
              {| data_series := 1; data_name := "E-031-MI"; data_time := 36000;
                 data_input := [ {| item_name := "Coins" |} ];
                 data_output := [ {| item_name := "Seattle blueprint" |} ] |}
              [ ("E-031-MI",
                 {| data_series := 1; data_name := "E-031-MI"; data_time := 36000;
                    data_input := [ {| item_name := "Coins" |} ];
                    data_output := [ {| item_name := "Seattle blueprint" |} ] |}) ]
              decimal_float_str_decimal eq_refl ltac:(discriminate))
    as (r & Hinit & _ & _ & _ & _ & Hten).
  exists r. split; [exact Hinit|]. apply Hten. reflexivity.
Defined.

(** ** The JP duration path *)

Lemma for_each_raises {A S} (body : S -> A -> Py S) (xs : list A) (x : A) :
  In x xs ->
  (forall acc, exists e, outcome (body acc x) = Raise e) ->
  forall acc, exists e, outcome (for_each body xs acc) = Raise e.
Proof.
  intros Hin Hx. induction xs as [|a xs IH]; [destruct Hin|]. intros acc.
  rewrite for_each_cons. destruct Hin as [->|Hin].
  - destruct (Hx acc) as [e He]. exists e. apply outcome_bind_Raise, He.
  - destruct (outcome (body acc a)) as [acc'|e] eqn:Hbody.
    + rewrite (outcome_bind_Ok _ _ _ Hbody). apply IH, Hin.
    + exists e. apply outcome_bind_Raise, Hbody.
Qed.

Lemma parse_time_no_match unicode_decimal int_max_str_digits text :
  re_search_time unicode_decimal text = None ->
  _parse_time unicode_decimal int_max_str_digits text
  = ([LogWarning ("Invalid time string: " +:+ text)], Ok None).
Proof.
  intros H. unfold _parse_time. rewrite H. unfold logger_warning.
  rewrite bind_logged. reflexivity.
Qed.

Section JpFacts.

Variable Screenshot Image : Type.
Variable fs : string -> FsNode.
Variable Image_open : string -> Outcome Image.
Variable max_score : Image -> Image -> Outcome Q.
Variable float_str : Q -> string.
Variable peak_count : Screenshot -> Area -> nat.
Variable crop : Screenshot -> Area -> Image.
Variable ocr : string -> Screenshot -> Area -> string.
Variable _stats_items_num_is_odd : Screenshot -> bool.
Variable unicode_decimal : string -> option (Z * string).
Variable int_max_str_digits : nat.

Lemma get_research_series_jp_returns self image :
  exists self1,
    get_research_series_jp Screenshot peak_count self image
    = ([LogInfo ("Series: " +:+ series self1)], Ok self1).
Proof.
  unfold get_research_series_jp, logger_info. eexists.
  rewrite bind_logged. reflexivity.
Qed.

Lemma get_research_duration_jp_no_match self image :
  re_search_time unicode_decimal (ocr "0123456789:" image DURATION_area) = None ->
  get_research_duration_jp Screenshot float_str ocr unicode_decimal int_max_str_digits
    self image
  = ([LogWarning ("Invalid time string: " +:+ ocr "0123456789:" image DURATION_area)],
     Raise AttributeError).
Proof.
  intros H. unfold get_research_duration_jp.
  change (790, 275, 911, 321) with DURATION_area.
  erewrite bind_Ok by (apply parse_time_no_match, H).
  reflexivity.
Qed.

Lemma ResearchProjectJp_init_no_match image :
  re_search_time unicode_decimal (ocr "0123456789:" image DURATION_area) = None ->
  exists self1,
    ResearchProjectJp_init Screenshot Image fs Image_open max_score float_str
      peak_count crop ocr _stats_items_num_is_odd unicode_decimal int_max_str_digits image
    = ([LogInfo ("Series: " +:+ series self1);
        LogWarning ("Invalid time string: " +:+ ocr "0123456789:" image DURATION_area)],
       Raise AttributeError).
Proof.
  intros H. unfold ResearchProjectJp_init.
  match goal with
  | |- context [get_research_series_jp _ _ ?self0 image] =>
      destruct (get_research_series_jp_returns self0 image) as [self1 Hseries]
  end.
  exists self1. erewrite bind_Ok by exact Hseries.
  erewrite bind_Raise by (apply get_research_duration_jp_no_match, H).
  reflexivity.
Qed.

End JpFacts.

(** C2: on the JP duration path a text without an HH:MM:SS pattern has a
    warning logged by [_parse_time], which returns [None]; the caller
    then asks [None] for [total_seconds], so the construction of the
    record ends with [AttributeError] and the detection of a batch that
    holds such a screenshot ends with an exception. *)
Theorem malformed_time_aborts_jp_detection
  (Screenshot Image : Type) (fs : string -> FsNode)
  (Image_open : string -> Outcome Image) (max_score : Image -> Image -> Outcome Q)
  (float_str : Q -> string) (peak_count : Screenshot -> Area -> nat)
  (crop : Screenshot -> Area -> Image) (ocr : string -> Screenshot -> Area -> string)
  (_stats_items_num_is_odd : Screenshot -> bool)
  (unicode_decimal : string -> option (Z * string))
  (int_max_str_digits : nat) (image : Screenshot) :
  re_search_time unicode_decimal (ocr "0123456789:" image DURATION_area) = None ->
  (exists self1,
      ResearchProjectJp_init Screenshot Image fs Image_open max_score float_str
        peak_count crop ocr _stats_items_num_is_odd unicode_decimal int_max_str_digits image
      = ([LogInfo ("Series: " +:+ series self1);
          LogWarning ("Invalid time string: " +:+ ocr "0123456789:" image DURATION_area)],
         Raise AttributeError))
  /\ forall images,
       In image images ->
       exists e,
         outcome (research_detect_jp Screenshot Image fs Image_open max_score float_str
                    peak_count crop ocr _stats_items_num_is_odd unicode_decimal
                    int_max_str_digits images)
         = Raise e.
Proof.
  intros H.
  pose proof (ResearchProjectJp_init_no_match Screenshot Image fs Image_open max_score
                float_str peak_count crop ocr _stats_items_num_is_odd unicode_decimal
                int_max_str_digits image H) as Hinit.
  split; [exact Hinit|].
  intros images Hin. unfold research_detect_jp.
  apply (for_each_raises _ images image Hin). intros acc.
  destruct Hinit as [self1 Hinit]. exists AttributeError.
  apply outcome_bind_Raise. rewrite Hinit. reflexivity.
Qed.

Lemma malformed_time_aborts_jp_detection_witness :
  re_search_time arabic_indic_decimal (jp_ocr "0123456789:" "12:34" DURATION_area) = None
  /\ exists e,
       outcome (research_detect_jp string nat sample_fs jp_open sample_score
                  decimal_float_str jp_peak_count jp_crop jp_ocr jp_items_odd
                  arabic_indic_decimal 4300%nat ["01:30:00"; "12:34"; "02:00:00"])
       = Raise e.
Proof.
  assert (H : re_search_time arabic_indic_decimal
                (jp_ocr "0123456789:" "12:34" DURATION_area) = None)
    by reflexivity.
  split; [exact H|].
  apply (malformed_time_aborts_jp_detection string nat sample_fs jp_open sample_score
           decimal_float_str jp_peak_count jp_crop jp_ocr jp_items_odd
           arabic_indic_decimal 4300%nat "12:34" H).
  right. left. reflexivity.
Defined.

Example research_detect_jp_sample :
  research_detect_jp string nat sample_fs jp_open sample_score decimal_float_str
    jp_peak_count jp_crop jp_ocr jp_items_odd arabic_indic_decimal 4300%nat
    ["01:30:00"; "12:34"; "02:00:00"]
  = ([LogInfo "Series: S2"; LogInfo "Duration: 1.5"; LogInfo "Matched template: ";
      LogInfo "S2  1.5  "; LogAttr "Project" "S2--1.5 ";
      LogInfo "Series: S2"; LogWarning "Invalid time string: 12:34"],
     Raise AttributeError).
Proof. reflexivity. Qed.

Example ResearchProjectJp_ten_hours :
  exists log r,
    ResearchProjectJp_init string nat sample_fs jp_open sample_score decimal_float_str
      jp_peak_count jp_crop jp_ocr jp_items_odd arabic_indic_decimal 4300%nat "10:00:00"
    = (log, Ok r)
    /\ duration r = "1".
Proof. eexists. eexists. split; reflexivity. Qed.

(** * Further properties of the module *)

(** ** [check_name] *)

Lemma free_of_first sep s c :
  free_of sep s = true -> PyStr.first_char s = Some c -> Ascii.eqb c sep = false.
Proof.
  destruct s as [|d r]; [discriminate|]. simpl.
  intros H [= <-]. apply andb_true_iff in H as [H _]. apply negb_true_iff, H.
Qed.

Lemma free_of_last sep s c :
  free_of sep s = true -> PyStr.last_char s = Some c -> Ascii.eqb c sep = false.
Proof.
  induction s as [|d r IH]; [discriminate|].
  simpl free_of. intros H. apply andb_true_iff in H as [Hd Hr].
  destruct r as [|e r'].
  - simpl. intros [= <-]. apply negb_true_iff, Hd.
  - intros Hc. apply IH; [exact Hr|exact Hc].
Qed.

Lemma mem_hyphen c : PyStr.mem c "-" = Ascii.eqb c "-".
Proof. simpl. apply orb_false_r. Qed.

Lemma fix_digit_free_DOS c :
  Ascii.eqb (fix_digit c) "D" = false
  /\ Ascii.eqb (fix_digit c) "O" = false
  /\ Ascii.eqb (fix_digit c) "S" = false.
Proof. destruct c as [[] [] [] [] [] [] [] []]; repeat split; reflexivity. Qed.

Lemma fix_number_free_DOS n :
  free_of "D" (fix_number n) = true
  /\ free_of "O" (fix_number n) = true
  /\ free_of "S" (fix_number n) = true.
Proof.
  rewrite PyStrFacts.fix_number_map.
  induction n as [|c r (HD & HO & HS)]; [repeat split; reflexivity|].
  destruct (fix_digit_free_DOS c) as (Hd & Ho & Hs).
  simpl. rewrite Hd, Ho, Hs, HD, HO, HS. repeat split; reflexivity.
Qed.

(** X1: the name [check_name] returns never starts or ends with a hyphen. *)
Theorem check_name_clean name : clean "-" (check_name name).
Proof.
  rewrite check_name_unfold.
  pose proof (PyStrFacts.strip_clean "-" name) as Hclean.
  pose proof (PyStrFacts.join_split "-" (PyStr.strip "-" name)) as Hjoin.
  set (s := PyStr.strip "-" name) in *.
  destruct (PyStr.split "-" s) as [|p [|n [|x [|y rest]]]] eqn:Hsplit;
    try exact Hclean.
  rewrite <- Hjoin in Hclean.
  eapply PyStrFacts.clean_three_parts. exact Hclean.
Qed.

(** X2: a name of three hyphen-free parts, the outer two not empty, keeps its
    outer parts and has the letters D and O of its middle part turned
    into 0 and the letter S into 5; no D, O or S is left there. *)
Theorem check_name_three_parts prefix number suffix :
  prefix <> "" -> suffix <> "" ->
  free_of "-" prefix = true -> free_of "-" number = true -> free_of "-" suffix = true ->
  check_name (PyStr.join "-" [prefix; number; suffix])
  = PyStr.join "-" [prefix; PyStr.map_chars fix_digit number; suffix]
  /\ free_of "D" (PyStr.map_chars fix_digit number) = true
  /\ free_of "O" (PyStr.map_chars fix_digit number) = true
  /\ free_of "S" (PyStr.map_chars fix_digit number) = true.
Proof.
  intros Hp Hs Fp Fn Fs.
  rewrite <- PyStrFacts.fix_number_map. split; [|apply fix_number_free_DOS].
  assert (Hclean : clean "-" (PyStr.join "-" [prefix; number; suffix])).
  { rewrite PyStrFacts.join3. split; intros c.
    - rewrite PyStrFacts.first_char_append.
      destruct prefix as [|d p']; [congruence|]. intros [= <-].
      rewrite mem_hyphen. eapply free_of_first; [exact Fp|reflexivity].
    - rewrite <- PyStrFacts.append_cons, <- PyStrFacts.append_assoc,
        PyStrFacts.last_char_hyphen.
      destruct suffix as [|d s']; [congruence|]. intros Hc.
      rewrite mem_hyphen. eapply free_of_last; [exact Fs|exact Hc]. }
  rewrite (check_name_of_clean _ Hclean).
  rewrite (PyStrFacts.split_join "-" [prefix; number; suffix]);
    [reflexivity|discriminate|repeat constructor; assumption].
Qed.

Lemma check_name_three_parts_witness :
  check_name (PyStr.join "-" ["D"; "O5S"; "UL"]) = PyStr.join "-" ["D"; "055"; "UL"].
Proof.
  exact (proj1 (check_name_three_parts "D" "O5S" "UL" ltac:(discriminate)
                  ltac:(discriminate) eq_refl eq_refl eq_refl)).
Defined.

(** ** The record of a matched name *)

Lemma matched_init_eq catalog float_str name0 series0 name' row rest c tl :
  get_data catalog (check_name name0) (check_name name0) series0 = (name', row) :: rest ->
  data_name row = String c tl ->
  ResearchProject_init catalog float_str name0 series0
  = ([], Ok (fold_left scan_output (data_output row)
               (fold_left scan_input (data_input row)
                  (matched_base float_str series0 name' row c)))).
Proof.
  intros Hget Hname. unfold ResearchProject_init. rewrite Hget, Hname.
  cbn [PyStr.head]. rewrite bind_ret_l. reflexivity.
Qed.

Lemma empty_name_init catalog float_str name0 series0 name' row rest :
  get_data catalog (check_name name0) (check_name name0) series0 = (name', row) :: rest ->
  data_name row = "" ->
  ResearchProject_init catalog float_str name0 series0 = ([], Raise IndexError).
Proof.
  intros Hget Hname. unfold ResearchProject_init. rewrite Hget, Hname. reflexivity.
Qed.

Lemma scan_input_flags self item :
  let g := re_search_words REGEX_INPUT (item_label item) in
  need_coin (scan_input self item)
  = need_coin self || match g with Some g => String.eqb g "coin" | None => false end
  /\ need_cube (scan_input self item)
     = need_cube self || match g with Some g => String.eqb g "cube" | None => false end
  /\ need_part (scan_input self item)
     = need_part self || match g with Some g => String.eqb g "part" | None => false end
  /\ ship (scan_input self item) = ship self
  /\ ship_rarity (scan_input self item) = ship_rarity self
  /\ data (scan_input self item) = data self.
Proof.
  unfold scan_input, item_label.
  destruct (re_search_words REGEX_INPUT _); simpl; rewrite ?orb_false_r; auto 10.
Qed.

Lemma fold_scan_input_flags items : forall self,
  need_coin (fold_left scan_input items self) = need_coin self || needs "coin" items
  /\ need_cube (fold_left scan_input items self) = need_cube self || needs "cube" items
  /\ need_part (fold_left scan_input items self) = need_part self || needs "part" items
  /\ ship (fold_left scan_input items self) = ship self
  /\ ship_rarity (fold_left scan_input items self) = ship_rarity self
  /\ data (fold_left scan_input items self) = data self.
Proof.
  induction items as [|item items IH]; intros self.
  - simpl. rewrite !orb_false_r. auto 10.
  - simpl fold_left. destruct (IH (scan_input self item)) as (-> & -> & -> & -> & -> & ->).
    destruct (scan_input_flags self item) as (-> & -> & -> & -> & -> & ->).
    unfold needs. simpl existsb. rewrite <- !orb_assoc. auto 10.
Qed.

Lemma scan_output_flags self item :
  need_coin (scan_output self item) = need_coin self
  /\ need_cube (scan_output self item) = need_cube self
  /\ need_part (scan_output self item) = need_part self
  /\ data (scan_output self item) = data self.
Proof.
  unfold scan_output.
  destruct (String.eqb (ship self) ""); simpl;
    repeat match goal with
           | |- context [if ?b then _ else _] => destruct b; simpl
           end; auto.
Qed.

Lemma fold_scan_output_flags items : forall self,
  need_coin (fold_left scan_output items self) = need_coin self
  /\ need_cube (fold_left scan_output items self) = need_cube self
  /\ need_part (fold_left scan_output items self) = need_part self
  /\ data (fold_left scan_output items self) = data self.
Proof.
  induction items as [|item items IH]; intros self; simpl; [auto|].
  destruct (IH (scan_output self item)) as (-> & -> & -> & ->).
  apply scan_output_flags.
Qed.

Lemma re_search_words_In words s g :
  re_search_words words s = Some g -> In g words.
Proof.
  induction s as [|c r IH]; simpl.
  - destruct (List.find _ words) as [w|] eqn:Hfind; [|discriminate].
    intros [= <-]. apply List.find_some in Hfind. tauto.
  - destruct (List.find _ words) as [w|] eqn:Hfind; [|exact IH].
    intros [= <-]. apply List.find_some in Hfind. tauto.
Qed.

Lemma REGEX_SHIP_not_empty s g :
  re_search_words REGEX_SHIP s = Some g -> String.eqb g "" = false.
Proof.
  intros H. apply re_search_words_In in H. unfold REGEX_SHIP in H. simpl in H.
  repeat (destruct H as [<-|H]; [reflexivity|]). destruct H.
Qed.

Lemma scan_output_ship self item :
  ship_rarity self = rarity_of (ship self) ->
  ship (scan_output self item)
  = (if String.eqb (ship self) ""
     then match re_search_words REGEX_SHIP (item_label item) with
          | Some g => g
          | None => ""
          end
     else ship self)
  /\ ship_rarity (scan_output self item) = rarity_of (ship (scan_output self item)).
Proof.
  intros Hinv. unfold scan_output. fold (item_label item).
  destruct (String.eqb (ship self) "") eqn:Hship.
  - destruct (re_search_words REGEX_SHIP (item_label item)) as [g|] eqn:Hsearch.
    + pose proof (REGEX_SHIP_not_empty _ _ Hsearch) as Hg.
      simpl. rewrite Hg. simpl. unfold rarity_of. rewrite Hg. auto.
    + simpl. split; [reflexivity|]. rewrite Hinv.
      apply String.eqb_eq in Hship. rewrite Hship. reflexivity.
  - rewrite Hship. simpl. unfold rarity_of. rewrite Hship. auto.
Qed.

Lemma fold_scan_output_ship items : forall self,
  ship_rarity self = rarity_of (ship self) ->
  ship (fold_left scan_output items self)
  = (if String.eqb (ship self) "" then first_ship items else ship self)
  /\ ship_rarity (fold_left scan_output items self)
     = rarity_of (ship (fold_left scan_output items self)).
Proof.
  induction items as [|item items IH]; intros self Hinv.
  - simpl. split; [|exact Hinv]. destruct (String.eqb_spec (ship self) ""); auto.
  - simpl fold_left. destruct (scan_output_ship self item Hinv) as [Hship Hrar].
    destruct (IH _ Hrar) as [-> ->]. split; [|reflexivity].
    rewrite Hship. simpl first_ship.
    destruct (String.eqb (ship self) "") eqn:Hself.
    + destruct (re_search_words REGEX_SHIP (item_label item)) as [g|] eqn:Hsearch.
      * rewrite (REGEX_SHIP_not_empty _ _ Hsearch). reflexivity.
      * reflexivity.
    + rewrite Hself. reflexivity.
Qed.

(** Every attribute of the record of a matched name. *)
Lemma matched_record catalog float_str name0 series0 name' row rest c tl :
  get_data catalog (check_name name0) (check_name name0) series0 = (name', row) :: rest ->
  data_name row = String c tl ->
  exists r,
    ResearchProject_init catalog float_str name0 series0 = ([], Ok r)
    /\ valid r = true /\ name r = name' /\ genre r = String c EmptyString
    /\ data r = Some row
    /\ need_coin r = needs "coin" (data_input row)
    /\ need_cube r = needs "cube" (data_input row)
    /\ need_part r = needs "part" (data_input row)
    /\ ship r = first_ship (data_output row)
    /\ ship_rarity r = rarity_of (ship r).
Proof.
  intros Hget Hname. eexists. split; [eapply matched_init_eq; eassumption|].
  set (base := matched_base float_str series0 name' row c).
  destruct (fold_scan_keeps scan_output (data_output row) scan_output_keeps
              (fold_left scan_input (data_input row) base)) as (-> & -> & -> & _).
  destruct (fold_scan_keeps scan_input (data_input row) scan_input_keeps base)
    as (-> & -> & -> & _).
  destruct (fold_scan_output_flags (data_output row)
              (fold_left scan_input (data_input row) base)) as (-> & -> & -> & ->).
  destruct (fold_scan_input_flags (data_input row) base)
    as (-> & -> & -> & Hship & Hrar & ->).
  destruct (fold_scan_output_ship (data_output row)
              (fold_left scan_input (data_input row) base)) as [-> ->].
  { rewrite Hship, Hrar. reflexivity. }
  rewrite Hship. simpl. auto 12.
Qed.

Lemma needs_label group items item :
  In item items ->
  re_search_words REGEX_INPUT (item_label item) = Some group ->
  needs group items = true.
Proof.
  intros Hin Hsearch. unfold needs. apply existsb_exists.
  exists item. split; [exact Hin|]. rewrite Hsearch. apply String.eqb_refl.
Qed.

(** X3: the need flags of a matched record: a flag is set exactly when some
    input item of the row, read without its spaces and in lower case, has
    the resource as the leftmost of coin, cube and part in it; an item
    whose label is "cube" in any case and spacing sets [need_cube]. *)
Theorem matched_record_need_flags
  catalog float_str name0 series0 name' row rest :
  get_data catalog (check_name name0) (check_name name0) series0 = (name', row) :: rest ->
  data_name row <> "" ->
  exists r,
    ResearchProject_init catalog float_str name0 series0 = ([], Ok r)
    /\ need_coin r = needs "coin" (data_input row)
    /\ need_cube r = needs "cube" (data_input row)
    /\ need_part r = needs "part" (data_input row)
    /\ (forall item, In item (data_input row) -> item_label item = "cube" ->
                     need_cube r = true).
Proof.
  intros Hget Hname. destruct (data_name row) as [|c tl] eqn:Hrow; [congruence|].
  destruct (matched_record _ float_str _ _ _ _ _ _ _ Hget Hrow)
    as (r & Hinit & _ & _ & _ & _ & Hcoin & Hcube & Hpart & _).
  exists r. repeat split; try assumption.
  intros item Hin Hlabel. rewrite Hcube. apply (needs_label _ _ item Hin).
  rewrite Hlabel. reflexivity.
Qed.

(** X4: the ship of a matched record is the ship read in the first output
    item of the row in which one of the seventeen ship names occurs, and
    is empty when none occurs; the rarity is empty without a ship, "dr"
    for azuma, friedrich and drake and "pry" for any other ship. *)
Theorem matched_record_ship
  catalog float_str name0 series0 name' row rest :
  get_data catalog (check_name name0) (check_name name0) series0 = (name', row) :: rest ->
  data_name row <> "" ->
  exists r,
    ResearchProject_init catalog float_str name0 series0 = ([], Ok r)
    /\ ship r = first_ship (data_output row)
    /\ ship_rarity r = rarity_of (ship r)
    /\ (ship r = "" \/ In (ship r) REGEX_SHIP).
Proof.
  intros Hget Hname. destruct (data_name row) as [|c tl] eqn:Hrow; [congruence|].
  destruct (matched_record _ float_str _ _ _ _ _ _ _ Hget Hrow)
    as (r & Hinit & _ & _ & _ & _ & _ & _ & _ & Hship & Hrar).
  exists r. repeat split; try assumption.
  rewrite Hship. clear. induction (data_output row) as [|item items IH]; [left; reflexivity|].
  simpl first_ship.
  destruct (re_search_words REGEX_SHIP (item_label item)) as [g|] eqn:Hs; [|exact IH].
  right. exact (re_search_words_In _ _ _ Hs).
Qed.

Lemma matched_record_need_flags_witness :
  exists r,
    ResearchProject_init sample_catalog decimal_float_str "D-057-UL" 1 = ([], Ok r)
    /\ need_coin r = false /\ need_cube r = true /\ need_part r = false.
Proof.
  destruct (matched_record_need_flags sample_catalog decimal_float_str "D-057-UL" 1
              _ _ _ eq_refl ltac:(discriminate))
    as (r & Hinit & Hcoin & Hcube & Hpart & _).
  exists r. repeat split; assumption.
Defined.

Lemma matched_record_ship_witness :
  exists r,
    ResearchProject_init sample_catalog decimal_float_str "D-057-UL" 1 = ([], Ok r)
    /\ ship r = "drake" /\ ship_rarity r = rarity_of (ship r).
Proof.
  destruct (matched_record_ship sample_catalog decimal_float_str "D-057-UL" 1
              _ _ _ eq_refl ltac:(discriminate))
    as (r & Hinit & Hship & Hrar & _).
  exists r. repeat split; assumption.
Defined.

(** ** The three layers in the constructor *)

Lemma filter_none {A} (f : A -> bool) (l : list A) :
  (forall x, In x l -> f x = false) -> List.filter f l = [].
Proof.
  induction l as [|a l IH]; intros H; [reflexivity|]. simpl.
  rewrite (H a) by (left; reflexivity). apply IH. intros x Hx. apply H. right. exact Hx.
Qed.

Lemma same_series_name_false catalog series0 name0 :
  (forall R, In R catalog -> series_name R <> (series0, name0)) ->
  List.filter (same_series_name series0 name0) catalog = [].
Proof.
  intros H. apply filter_none. intros R HR.
  destruct (same_series_name series0 name0 R) eqn:Hs; [|reflexivity].
  apply same_series_name_true in Hs as [Hs Hn]. exfalso. apply (H R HR).
  unfold series_name. rewrite Hs, Hn. reflexivity.
Qed.

Lemma get_data_In_catalog catalog self_name name0 series0 yield :
  In yield (get_data catalog self_name name0 series0) -> In (snd yield) catalog.
Proof.
  unfold get_data. rewrite !in_app_iff.
  assert (Hlayer : forall (f : CatalogEntry -> bool) n,
             In yield (List.map (fun d => (n, d)) (List.filter f catalog)) ->
             In (snd yield) catalog).
  { intros f n H. apply in_map_iff in H as (d & <- & Hd).
    apply List.filter_In in Hd as [Hd _]. exact Hd. }
  intros [H|[H|H]]; [eapply Hlayer, H| |eapply Hlayer, H].
  destruct (PyStr.startswith "D" name0); [eapply Hlayer, H|contradiction].
Qed.

Lemma get_data_committed_name catalog self_name name0 series0 yield :
  In yield (get_data catalog self_name name0 series0) ->
  fst yield = self_name
  \/ (PyStr.startswith "D" name0 = true /\ fst yield = "C" +:+ PyStr.tail self_name).
Proof.
  unfold get_data. rewrite !in_app_iff.
  assert (Hlayer : forall (f : CatalogEntry -> bool) n,
             In yield (List.map (fun d => (n, d)) (List.filter f catalog)) ->
             fst yield = n).
  { intros f n H. apply in_map_iff in H as (d & <- & _). reflexivity. }
  intros [H|[H|H]].
  - left. eapply Hlayer, H.
  - destruct (PyStr.startswith "D" name0); [|contradiction].
    right. split; [reflexivity|]. eapply Hlayer, H.
  - apply Hlayer in H. rewrite H.
    destruct (PyStr.startswith "D" name0); [|left; reflexivity].
    destruct (List.map _ _); [left|right]; auto.
Qed.

(** What the constructor returns, by cases on the first row yielded. *)
Lemma init_cases catalog float_str name0 series0 :
  (get_data catalog (check_name name0) (check_name name0) series0 = []
   /\ ResearchProject_init catalog float_str name0 series0
      = ([LogWarning ("Invalid research S" +:+ PyStr.str_int series0 +:+ " "
                      +:+ check_name name0)],
         Ok (unmatched_record name0 series0)))
  \/ (exists name' row rest,
         get_data catalog (check_name name0) (check_name name0) series0
         = (name', row) :: rest
         /\ data_name row = ""
         /\ ResearchProject_init catalog float_str name0 series0 = ([], Raise IndexError))
  \/ (exists name' row rest r,
         get_data catalog (check_name name0) (check_name name0) series0
         = (name', row) :: rest
         /\ data_name row <> ""
         /\ ResearchProject_init catalog float_str name0 series0 = ([], Ok r)
         /\ valid r = true /\ name r = name' /\ data r = Some row).
Proof.
  destruct (get_data catalog (check_name name0) (check_name name0) series0)
    as [|[name' row] rest] eqn:Hget.
  - left. split; [reflexivity|]. apply unmatched_init, Hget.
  - right. destruct (data_name row) as [|c tl] eqn:Hrow.
    + left. exists name', row, rest. split; [reflexivity|]. split; [exact Hrow|].
      eapply empty_name_init; eassumption.
    + right.
      destruct (matched_record _ float_str _ _ _ _ _ _ _ Hget Hrow)
        as (r & Hinit & Hv & Hn & _ & Hd & _).
      exists name', row, rest, r. rewrite Hrow. repeat split; try assumption.
      discriminate.
Qed.

(** X5: the constructor raises nothing on a catalog without empty names; the
    record is valid exactly when some layer yields a row, a valid record
    holds a row of the catalog of the series asked for, and the warning
    is logged exactly for the invalid record. *)
Theorem ResearchProject_init_returns catalog float_str name0 series0 :
  Forall (fun R => data_name R <> "") catalog ->
  exists log r,
    ResearchProject_init catalog float_str name0 series0 = (log, Ok r)
    /\ (valid r = true <->
        get_data catalog (check_name name0) (check_name name0) series0 <> [])
    /\ (valid r = true ->
        log = [] /\ exists row, data r = Some row /\ In row catalog
                                /\ data_series row = series0)
    /\ (valid r = false ->
        r = unmatched_record name0 series0
        /\ log = [LogWarning ("Invalid research S" +:+ PyStr.str_int series0 +:+ " "
                              +:+ check_name name0)]).
Proof.
  intros Hnames.
  destruct (init_cases catalog float_str name0 series0)
    as [[Hget Hinit]|[(name' & row & rest & Hget & Hrow & _)
                     |(name' & row & rest & r & Hget & Hrow & Hinit & Hv & Hn & Hd)]].
  - eexists. eexists. split; [exact Hinit|]. rewrite Hget. simpl.
    repeat split; try congruence; try discriminate.
  - exfalso. rewrite List.Forall_forall in Hnames. apply (Hnames row); [|exact Hrow].
    apply (get_data_In_catalog catalog (check_name name0) (check_name name0) series0
             (name', row)).
    rewrite Hget. left. reflexivity.
  - exists [], r. split; [exact Hinit|]. rewrite Hget, Hv.
    assert (Hin : In (name', row)
                    (get_data catalog (check_name name0) (check_name name0) series0))
      by (rewrite Hget; left; reflexivity).
    repeat split; try discriminate.
    exists row. split; [exact Hd|]. split.
    + apply (get_data_In_catalog _ _ _ _ _ Hin).
    + apply (get_data_same_series _ _ _ _ _ Hin).
Qed.

Lemma ResearchProject_init_returns_witness :
  Forall (fun R => data_name R <> "") sample_catalog
  /\ exists log r,
       ResearchProject_init sample_catalog decimal_float_str "G-236" 2 = (log, Ok r)
       /\ (valid r = true <-> get_data sample_catalog (check_name "G-236")
                                (check_name "G-236") 2 <> []).
Proof.
  assert (H : Forall (fun R => data_name R <> "") sample_catalog)
    by (unfold sample_catalog; repeat constructor; discriminate).
  split; [exact H|].
  destruct (ResearchProject_init_returns sample_catalog decimal_float_str "G-236" 2 H)
    as (log & r & Hinit & Hvalid & _).
  exists log, r. split; assumption.
Defined.

(** X6: a name that strips to the empty string, asked with the series of a
    catalog row whose name is empty, ends the constructor with
    [IndexError]: the genre is read as the first character of that name. *)
Theorem ResearchProject_init_empty_name catalog float_str name0 series0 R :
  In R catalog -> data_name R = "" -> data_series R = series0 ->
  check_name name0 = "" ->
  ResearchProject_init catalog float_str name0 series0 = ([], Raise IndexError).
Proof.
  intros HR Hname Hseries Hchecked.
  destruct (filter_first (same_series_name series0 "") catalog R HR)
    as (R' & rest & Hfilter & Hfind & _).
  { apply same_series_name_true. auto. }
  apply List.find_some in Hfind as [_ Hsame].
  apply same_series_name_true in Hsame as [_ Hn].
  eapply empty_name_init; [|exact Hn].
  rewrite Hchecked. unfold get_data. rewrite Hfilter. reflexivity.
Qed.

Lemma ResearchProject_init_empty_name_witness :
  ResearchProject_init
    [ {| data_series := 1; data_name := ""; data_time := 3600;
         data_input := []; data_output := [] |} ]
    decimal_float_str "--" 1
  = ([], Raise IndexError).
Proof.
  apply (ResearchProject_init_empty_name _ decimal_float_str "--" 1
           {| data_series := 1; data_name := ""; data_time := 3600;
              data_input := []; data_output := [] |});
    [left; reflexivity|reflexivity|reflexivity|reflexivity].
Defined.

Lemma get_data_exact_head catalog self_name name1 series0 R :
  In R catalog -> series_name R = (series0, name1) ->
  exists R' rest,
    get_data catalog self_name name1 series0 = (self_name, R') :: rest
    /\ List.find (same_series_name series0 name1) catalog = Some R'
    /\ data_name R' = name1.
Proof.
  intros HR Hkey. injection Hkey as Hs Hn.
  destruct (filter_first (same_series_name series0 name1) catalog R HR)
    as (R' & rest & Hfilter & Hfind & _).
  { apply same_series_name_true. auto. }
  exists R'. eexists. unfold get_data. rewrite Hfilter. simpl.
  split; [reflexivity|]. split; [exact Hfind|].
  apply List.find_some in Hfind as [_ Hsame].
  apply same_series_name_true in Hsame. tauto.
Qed.

(** X7: a name whose checked form and series are those of a catalog row is
    matched by the first layer: the record is valid, keeps the checked
    name (also when it starts with "D" and a row with "C" in its place
    exists) and holds the first row of that series and name. *)
Theorem exact_match_keeps_name catalog float_str name0 series0 R :
  In R catalog -> series_name R = (series0, check_name name0) ->
  check_name name0 <> "" ->
  exists r R',
    ResearchProject_init catalog float_str name0 series0 = ([], Ok r)
    /\ valid r = true
    /\ name r = check_name name0
    /\ data r = Some R'
    /\ List.find (same_series_name series0 (check_name name0)) catalog = Some R'.
Proof.
  intros HR Hkey Hne.
  destruct (get_data_exact_head catalog (check_name name0) _ _ R HR Hkey)
    as (R' & rest & Hget & Hfind & Hn').
  destruct (check_name name0) as [|c tl] eqn:Hchecked; [congruence|].
  rewrite <- Hchecked in Hget.
  destruct (matched_record catalog float_str name0 series0 _ R' rest c tl Hget Hn')
    as (r & Hinit & Hv & Hname & _ & Hd & _).
  exists r, R'. rewrite Hchecked in Hname. auto.
Qed.

Lemma exact_match_keeps_name_witness :
  exists r R',
    ResearchProject_init twin_catalog decimal_float_str "-C-O57-UL" 1 = ([], Ok r)
    /\ valid r = true
    /\ name r = check_name "-C-O57-UL"
    /\ data r = Some R'
    /\ List.find (same_series_name 1 (check_name "-C-O57-UL")) twin_catalog = Some R'.
Proof.
  apply (exact_match_keeps_name twin_catalog decimal_float_str "-C-O57-UL" 1 twin_second);
    [right; left; reflexivity|reflexivity|discriminate].
Defined.

(** X8: a checked name that starts with "D" and has no row of its series and
    name, while the name with "C" in place of the "D" has one, is matched
    by the second layer: the record is valid, its name is the name with
    "C", its genre is "C" and it holds the first row of that name. *)
Theorem shining_letter_substitution catalog float_str name0 series0 tl R :
  check_name name0 = String "D" tl ->
  (forall R0, In R0 catalog -> series_name R0 <> (series0, String "D" tl)) ->
  In R catalog -> series_name R = (series0, String "C" tl) ->
  exists r R',
    ResearchProject_init catalog float_str name0 series0 = ([], Ok r)
    /\ valid r = true
    /\ name r = String "C" tl
    /\ genre r = "C"
    /\ data r = Some R'
    /\ List.find (same_series_name series0 (String "C" tl)) catalog = Some R'.
Proof.
  intros Hchecked Hnone HR Hkey. injection Hkey as Hs Hn.
  destruct (filter_first (same_series_name series0 (String "C" tl)) catalog R HR)
    as (R' & rest & Hfilter & Hfind & _).
  { apply same_series_name_true. auto. }
  pose proof Hfind as Hsame. apply List.find_some in Hsame as [_ Hsame].
  apply same_series_name_true in Hsame as [_ Hn'].
  assert (Hget : exists rest',
             get_data catalog (check_name name0) (check_name name0) series0
             = (String "C" tl, R') :: rest').
  { rewrite Hchecked. unfold get_data.
    rewrite (same_series_name_false _ _ _ Hnone).
    change (PyStr.startswith "D" (String "D" tl)) with (String.prefix "" tl).
    rewrite PyStrFacts.prefix_empty.
    change ("C" +:+ PyStr.tail (String "D" tl)) with (String "C" tl).
    rewrite Hfilter. simpl. eexists. reflexivity. }
  destruct Hget as [rest' Hget].
  destruct (matched_record catalog float_str name0 series0 _ R' rest' _ tl Hget Hn')
    as (r & Hinit & Hv & Hname & Hgenre & Hd & _).
  exists r, R'. auto 10.
Qed.

Lemma shining_letter_substitution_witness :
  exists r R',
    ResearchProject_init sample_catalog decimal_float_str "D-057-UL" 1 = ([], Ok r)
    /\ valid r = true
    /\ name r = "C-057-UL"
    /\ genre r = "C"
    /\ data r = Some R'
    /\ List.find (same_series_name 1 "C-057-UL") sample_catalog = Some R'.
Proof.
  apply (shining_letter_substitution sample_catalog decimal_float_str "D-057-UL" 1
           "-057-UL"
           {| data_series := 1; data_name := "C-057-UL"; data_time := 21600;
              data_input := [ {| item_name := "Cube" |} ];
              data_output := [ {| item_name := "Drake" |} ] |});
    [reflexivity| |left; reflexivity|reflexivity].
  intros R0 [<-|[<-|[<-|[]]]]; discriminate.
Defined.

Lemma same_series_loose_true series0 name1 R :
  same_series_loose series0 name1 R = true <->
  data_series R = series0
  /\ PyStr.rstrip "MIRFUL-" (data_name R) = PyStr.rstrip "MIRFUL-" name1.
Proof.
  unfold same_series_loose. rewrite andb_true_iff, Z.eqb_eq, String.eqb_eq. tauto.
Qed.

(** X9: a checked name that neither layer of exact comparison matches, while
    a row of its series has the same name once the trailing characters
    among M, I, R, F, U, L and the hyphen are dropped from both, is
    matched by the third layer: the record is valid and holds the first
    such row, and its name stays the checked name, not the row's. *)
Theorem loose_match_keeps_input_name catalog float_str name0 series0 R :
  Forall (fun R0 => data_name R0 <> "") catalog ->
  (forall R0, In R0 catalog -> series_name R0 <> (series0, check_name name0)) ->
  (PyStr.startswith "D" (check_name name0) = false
   \/ forall R0, In R0 catalog ->
                 series_name R0 <> (series0, "C" +:+ PyStr.tail (check_name name0))) ->
  In R catalog -> data_series R = series0 ->
  PyStr.rstrip "MIRFUL-" (data_name R) = PyStr.rstrip "MIRFUL-" (check_name name0) ->
  exists r R',
    ResearchProject_init catalog float_str name0 series0 = ([], Ok r)
    /\ valid r = true
    /\ name r = check_name name0
    /\ data r = Some R'
    /\ List.find (same_series_loose series0 (check_name name0)) catalog = Some R'.
Proof.
  intros Hnames Hnone1 Hnone2 HR Hs Hloose.
  destruct (filter_first (same_series_loose series0 (check_name name0)) catalog R HR)
    as (R' & rest & Hfilter & Hfind & HR').
  { apply same_series_loose_true. auto. }
  assert (Hget : get_data catalog (check_name name0) (check_name name0) series0
                 = (check_name name0, R')
                     :: List.map (fun d => (check_name name0, d)) rest).
  { unfold get_data. rewrite (same_series_name_false _ _ _ Hnone1).
    destruct Hnone2 as [->|Hnone2];
      [|rewrite (same_series_name_false _ _ _ Hnone2);
        destruct (PyStr.startswith "D" (check_name name0))];
      rewrite Hfilter; reflexivity. }
  rewrite List.Forall_forall in Hnames.
  destruct (data_name R') as [|c tl] eqn:Hrow; [destruct (Hnames R' HR' Hrow)|].
  destruct (matched_record catalog float_str name0 series0 _ R' _ c tl Hget Hrow)
    as (r & Hinit & Hv & Hname & _ & Hd & _).
  exists r, R'. auto.
Qed.

Lemma loose_match_keeps_input_name_witness :
  exists r R',
    ResearchProject_init sample_catalog decimal_float_str "G-236-UL" 2 = ([], Ok r)
    /\ valid r = true
    /\ name r = "G-236-UL"
    /\ data r = Some R'
    /\ data_name R' = "G-236-MI".
Proof.
  destruct (loose_match_keeps_input_name sample_catalog decimal_float_str "G-236-UL" 2
              {| data_series := 2; data_name := "G-236-MI"; data_time := 1800;
                 data_input := []; data_output := [] |})
    as (r & R' & Hinit & Hv & Hname & Hd & Hfind).
  - unfold sample_catalog. repeat constructor; discriminate.
  - intros R0 [<-|[<-|[<-|[]]]]; discriminate.
  - left. reflexivity.
  - right. right. left. reflexivity.
  - reflexivity.
  - reflexivity.
  - exists r, R'. repeat split; try assumption.
    injection Hfind as <-. reflexivity.
Defined.

(** X10: the name of a record differs from the checked input at most by a "C"
    in place of a leading "D". *)
Theorem committed_name_is_checked_or_substituted catalog float_str name0 series0 log r :
  ResearchProject_init catalog float_str name0 series0 = (log, Ok r) ->
  name r = check_name name0
  \/ (PyStr.startswith "D" (check_name name0) = true
      /\ name r = "C" +:+ PyStr.tail (check_name name0)).
Proof.
  intros Hinit.
  destruct (init_cases catalog float_str name0 series0)
    as [[_ H]|[(name' & row & rest & _ & _ & H)
              |(name' & row & rest & r' & Hget & _ & H & _ & Hname & _)]];
    rewrite H in Hinit.
  - injection Hinit as _ <-. left. reflexivity.
  - discriminate.
  - injection Hinit as _ <-. rewrite Hname.
    apply (get_data_committed_name catalog (check_name name0) (check_name name0) series0
             (name', row)).
    rewrite Hget. left. reflexivity.
Qed.

Lemma committed_name_is_checked_or_substituted_witness :
  exists log r,
    ResearchProject_init sample_catalog decimal_float_str "D-057-UL" 1 = (log, Ok r)
    /\ (name r = check_name "D-057-UL"
        \/ (PyStr.startswith "D" (check_name "D-057-UL") = true
            /\ name r = "C" +:+ PyStr.tail (check_name "D-057-UL"))).
Proof.
  eexists. eexists. split; [reflexivity|].
  eapply (committed_name_is_checked_or_substituted sample_catalog decimal_float_str
            "D-057-UL" 1).
  reflexivity.
Defined.

(** ** More on the post-filter *)

Lemma resource_disabled_false config proj :
  resource_disabled config proj = false <->
  (need_cube proj = true -> RESEARCH_USE_CUBE config = true)
  /\ (need_coin proj = true -> RESEARCH_USE_COIN config = true)
  /\ (need_part proj = true -> RESEARCH_USE_PART config = true).
Proof.
  unfold resource_disabled.
  destruct (RESEARCH_USE_CUBE config), (RESEARCH_USE_COIN config),
    (RESEARCH_USE_PART config), (need_cube proj), (need_coin proj), (need_part proj);
    simpl; intuition congruence.
Qed.

Lemma survives_Index_iff projects config i :
  survives projects config (Index i) = true <->
  exists proj,
    outcome (getitem projects i) = Ok proj
    /\ valid proj = true
    /\ resource_disabled config proj = false
    /\ ignored_genre proj = false.
Proof.
  simpl. destruct (outcome (getitem projects i)) as [proj|e].
  - rewrite !andb_true_iff, !negb_true_iff. split.
    + intros [[Hv Hr] Hg]. exists proj. auto.
    + intros (p & [= <-] & Hv & Hr & Hg). auto.
  - split; [discriminate|]. intros (p & Hp & _). discriminate.
Qed.

(** X11: with the indices in range, an index is in the list the post-filter
    returns exactly when it is in the input and its project is valid,
    needs no resource that the configuration disables, and has neither
    genre "B" nor genre "E" with a duration other than "6". *)
Theorem research_check_filter_keeps_exactly projects config priority :
  Forall (index_in_range projects) priority ->
  exists out,
    _research_check_filter projects config priority = ([], Ok out)
    /\ forall i,
         In (Index i) out <->
         In (Index i) priority
         /\ exists proj,
              outcome (getitem projects i) = Ok proj
              /\ valid proj = true
              /\ (need_cube proj = true -> RESEARCH_USE_CUBE config = true)
              /\ (need_coin proj = true -> RESEARCH_USE_COIN config = true)
              /\ (need_part proj = true -> RESEARCH_USE_PART config = true)
              /\ ignored_genre proj = false.
Proof.
  intros HF. exists (List.filter (survives projects config) priority).
  split; [apply research_check_filter_in_range, HF|].
  intros i. rewrite List.filter_In, survives_Index_iff.
  split.
  - intros [Hin (proj & Hget & Hv & Hr & Hg)]. split; [exact Hin|].
    exists proj. apply resource_disabled_false in Hr. tauto.
  - intros [Hin (proj & Hget & Hv & Hcube & Hcoin & Hpart & Hg)]. split; [exact Hin|].
    exists proj. split; [exact Hget|]. split; [exact Hv|]. split; [|exact Hg].
    apply resource_disabled_false. tauto.
Qed.

Lemma research_check_filter_keeps_exactly_witness :
  Forall (index_in_range sample_projects) sample_priority
  /\ exists out,
       _research_check_filter sample_projects sample_config sample_priority
       = ([], Ok out)
       /\ (In (Index 2) out /\ ~ In (Index 4) out).
Proof.
  assert (H : Forall (index_in_range sample_projects) sample_priority)
    by (unfold sample_priority, sample_projects; repeat constructor; simpl; lia).
  split; [exact H|].
  destruct (research_check_filter_keeps_exactly sample_projects sample_config
              sample_priority H) as (out & Hout & Hiff).
  exists out. split; [exact Hout|]. split.
  - apply Hiff. split; [do 4 right; left; reflexivity|].
    eexists. split; [reflexivity|]. repeat split; discriminate.
  - intros Hin. apply Hiff in Hin as (_ & proj & Hget & Hv & _).
    injection Hget as <-. discriminate Hv.
Defined.

(** X12: the post-filter returns when every index lies between minus the
    length of the batch and the length less one, and ends with
    [IndexError], and only with it, when some index does not. *)
Theorem research_check_filter_raises_iff projects config priority :
  (Forall (index_in_range projects) priority ->
   exists out, _research_check_filter projects config priority = ([], Ok out))
  /\ (~ Forall (index_in_range projects) priority ->
      outcome (_research_check_filter projects config priority) = Raise IndexError)
  /\ (forall e,
        outcome (_research_check_filter projects config priority) = Raise e ->
        e = IndexError /\ ~ Forall (index_in_range projects) priority).
Proof.
  split; [|split].
  - intros HF. eexists. apply research_check_filter_in_range, HF.
  - intros HF. apply check_filter_loop_out_of_range, HF.
  - intros e He.
    destruct (List.Forall_dec _ (index_in_range_dec projects) priority) as [HF|HF].
    + rewrite (research_check_filter_in_range projects config priority HF) in He.
      discriminate He.
    + unfold _research_check_filter in He.
      rewrite check_filter_loop_out_of_range in He by exact HF.
      split; [congruence|exact HF].
Qed.

Lemma filter_survives_in_range projects config priority :
  Forall (index_in_range projects) priority ->
  Forall (index_in_range projects) (List.filter (survives projects config) priority).
Proof.
  rewrite !List.Forall_forall. intros H item Hin.
  apply List.filter_In in Hin as [Hin _]. apply H, Hin.
Qed.

Lemma filter_filter {A} (f : A -> bool) (l : list A) :
  List.filter f (List.filter f l) = List.filter f l.
Proof.
  induction l as [|x l IH]; [reflexivity|]. simpl.
  destruct (f x) eqn:Hx; [simpl; rewrite Hx, IH; reflexivity|exact IH].
Qed.

(** X13: the post-filter is idempotent, and the post-filter of two lists one
    after the other is the post-filter of the first followed by that of
    the second. *)
Theorem research_check_filter_idempotent_and_appends projects config p1 p2 :
  Forall (index_in_range projects) p1 ->
  Forall (index_in_range projects) p2 ->
  exists out1 out2,
    _research_check_filter projects config p1 = ([], Ok out1)
    /\ _research_check_filter projects config p2 = ([], Ok out2)
    /\ _research_check_filter projects config out1 = ([], Ok out1)
    /\ _research_check_filter projects config (p1 ++ p2) = ([], Ok (out1 ++ out2)).
Proof.
  intros H1 H2.
  exists (List.filter (survives projects config) p1),
    (List.filter (survives projects config) p2).
  split; [apply research_check_filter_in_range, H1|].
  split; [apply research_check_filter_in_range, H2|].
  split.
  - rewrite research_check_filter_in_range by (apply filter_survives_in_range, H1).
    rewrite filter_filter. reflexivity.
  - rewrite research_check_filter_in_range by (apply Forall_app; auto).
    rewrite List.filter_app. reflexivity.
Qed.

Lemma research_check_filter_idempotent_and_appends_witness :
  Forall (index_in_range sample_projects) sample_priority
  /\ exists out1 out2,
       _research_check_filter sample_projects sample_config sample_priority
       = ([], Ok out1)
       /\ _research_check_filter sample_projects sample_config [Index 1; Index 3]
          = ([], Ok out2)
       /\ _research_check_filter sample_projects sample_config out1 = ([], Ok out1)
       /\ _research_check_filter sample_projects sample_config
            (sample_priority ++ [Index 1; Index 3])
          = ([], Ok (out1 ++ out2)).
Proof.
  assert (H : Forall (index_in_range sample_projects) sample_priority)
    by (unfold sample_priority, sample_projects; repeat constructor; simpl; lia).
  split; [exact H|].
  apply (research_check_filter_idempotent_and_appends sample_projects sample_config
           sample_priority [Index 1; Index 3] H).
  unfold sample_projects. repeat constructor; simpl; lia.
Defined.

(** ** The sort entry points *)

Section SortFacts.

Variable projects : list ResearchProject.
Variable config : Config.
Variable FILTER_apply : string -> list ResearchProject -> list PriorityItem.
Variable DICT_FILTER_PRESET : list (string * string).
Variable FILTER_STRING_SHORTEST FILTER_STRING_CHEAPEST : string.

Lemma priority_names_loop priority :
  Forall (index_in_range projects) priority ->
  forall names,
    for_each
      (fun names index =>
         match index with
         | Token token => ret (names ++ [token])
         | Index i => proj <- getitem projects i ;; ret (names ++ [name proj])
         end)
      priority names
    = ([], Ok (names ++ List.map (item_text projects) priority)).
Proof.
  induction 1 as [|item priority Hitem _ IH]; intros names.
  - simpl. rewrite app_nil_r. reflexivity.
  - rewrite for_each_cons. cbv beta. destruct item as [i|t].
    + destruct (getitem_in_range projects i Hitem) as (proj & Hget & _).
      rewrite Hget, bind_nil_Ok, bind_ret_l, IH.
      simpl. unfold outcome. rewrite Hget. simpl.
      rewrite <- app_assoc. reflexivity.
    + rewrite bind_ret_l, IH. simpl. rewrite <- app_assoc. reflexivity.
Qed.

Lemma priority_names_in_range priority :
  Forall (index_in_range projects) priority ->
  priority_names projects priority
  = ([], Ok (PyStr.join " > " (List.map (item_text projects) priority))).
Proof.
  intros H. unfold priority_names. rewrite (priority_names_loop priority H).
  rewrite bind_nil_Ok. reflexivity.
Qed.

(** The shared body of the sorts, when the filter ranks indices of the
    batch: nothing is raised, the result is the post-filter of the
    ranking and one line shows its names. *)
Lemma sort_with_in_range label string :
  Forall (index_in_range projects) (FILTER_apply string projects) ->
  sort_with projects config FILTER_apply label string
  = ([LogAttr label
        (PyStr.join " > "
           (List.map (item_text projects)
              (List.filter (survives projects config) (FILTER_apply string projects))))],
     Ok (List.filter (survives projects config) (FILTER_apply string projects))).
Proof.
  intros H. unfold sort_with.
  rewrite (research_check_filter_in_range projects config _ H), bind_nil_Ok.
  rewrite priority_names_in_range by (apply filter_survives_in_range, H).
  rewrite bind_nil_Ok. unfold logger_attr. rewrite bind_logged. reflexivity.
Qed.

End SortFacts.

(** X14: when the external filter ranks indices of the batch, the shortest
    and the cheapest sort raise nothing; each returns a subsequence of
    the ranking the filter gave for its rule string, with every token of
    the ranking in it, and logs one line. *)
Theorem research_sorts_are_subsequences
  projects config
  (FILTER_apply : string -> list ResearchProject -> list PriorityItem)
  (FILTER_STRING_SHORTEST FILTER_STRING_CHEAPEST : string) :
  (forall string, Forall (index_in_range projects) (FILTER_apply string projects)) ->
  (exists text out,
      research_sort_shortest projects config FILTER_apply FILTER_STRING_SHORTEST
      = ([LogAttr "Shortest_sort" text], Ok out)
      /\ out `sublist_of` FILTER_apply FILTER_STRING_SHORTEST projects
      /\ tokens out = tokens (FILTER_apply FILTER_STRING_SHORTEST projects))
  /\ (exists text out,
         research_sort_cheapest projects config FILTER_apply FILTER_STRING_CHEAPEST
         = ([LogAttr "Cheapest_sort" text], Ok out)
         /\ out `sublist_of` FILTER_apply FILTER_STRING_CHEAPEST projects
         /\ tokens out = tokens (FILTER_apply FILTER_STRING_CHEAPEST projects)).
Proof.
  intros H. split.
  - unfold research_sort_shortest. rewrite sort_with_in_range by apply H.
    eexists. eexists. split; [reflexivity|].
    split; [apply filter_sublist|apply tokens_survive].
  - unfold research_sort_cheapest. rewrite sort_with_in_range by apply H.
    eexists. eexists. split; [reflexivity|].
    split; [apply filter_sublist|apply tokens_survive].
Qed.

Lemma sample_FILTER_apply_in_range projects string :
  Forall (index_in_range projects) (sample_FILTER_apply string projects).
Proof.
  unfold sample_FILTER_apply. apply Forall_app. split; [|repeat constructor].
  apply List.Forall_forall. intros item Hin.
  apply in_map_iff in Hin as (i & <- & Hi). apply in_rev, in_seq in Hi.
  simpl. lia.
Qed.

Lemma research_sorts_are_subsequences_witness :
  (forall string,
      Forall (index_in_range sample_projects) (sample_FILTER_apply string sample_projects))
  /\ exists text out,
       research_sort_shortest sample_projects sample_config sample_FILTER_apply "shortest"
       = ([LogAttr "Shortest_sort" text], Ok out)
       /\ out `sublist_of` sample_FILTER_apply "shortest" sample_projects
       /\ tokens out = tokens (sample_FILTER_apply "shortest" sample_projects).
Proof.
  split; [apply sample_FILTER_apply_in_range|].
  apply (research_sorts_are_subsequences sample_projects sample_config
           sample_FILTER_apply "shortest" "cheapest"
           (sample_FILTER_apply_in_range sample_projects)).
Defined.

Example research_sort_shortest_sample :
  research_sort_shortest sample_projects sample_config sample_FILTER_apply "shortest"
  = ([LogAttr "Shortest_sort" "C-001-MI > E-001-MI > reset"],
     Ok [Index 3; Index 2; Token "reset"]).
Proof. reflexivity. Qed.

(** X15: a preset that is neither "customized" nor a key of the preset table
    has a warning logged and is replaced by "series_3_than_2": the sort
    continues as with that preset; when the table lacks that key too,
    the sort ends with [KeyError] after the warning. *)
Theorem research_sort_filter_unknown_preset
  projects config
  (FILTER_apply : string -> list ResearchProject -> list PriorityItem)
  (DICT_FILTER_PRESET : list (string * string)) :
  RESEARCH_FILTER_PRESET config <> "customized" ->
  dict_lookup (RESEARCH_FILTER_PRESET config) DICT_FILTER_PRESET = None ->
  let warning :=
    LogWarning ("Preset not found: " +:+ RESEARCH_FILTER_PRESET config
                +:+ ", use default preset") in
  let default :=
    research_sort_filter projects (with_preset config "series_3_than_2")
      FILTER_apply DICT_FILTER_PRESET in
  (forall string,
      dict_lookup "series_3_than_2" DICT_FILTER_PRESET = Some string ->
      research_sort_filter projects config FILTER_apply DICT_FILTER_PRESET
      = (warning :: logged default, outcome default))
  /\ (dict_lookup "series_3_than_2" DICT_FILTER_PRESET = None ->
      research_sort_filter projects config FILTER_apply DICT_FILTER_PRESET
      = ([warning], Raise KeyError)).
Proof.
  intros Hcustom Hunknown warning default. subst warning default.
  unfold research_sort_filter.
  destruct (String.eqb_spec (RESEARCH_FILTER_PRESET config) "customized") as [H|_];
    [contradiction|].
  rewrite Hunknown. simpl RESEARCH_FILTER_PRESET.
  change (String.eqb "series_3_than_2" "customized") with false. cbv iota.
  split.
  - intros string Hdefault. rewrite Hdefault.
    rewrite bind_assoc. unfold logger_warning. rewrite bind_logged.
    rewrite !bind_ret_l. reflexivity.
  - intros Hdefault. rewrite Hdefault. reflexivity.
Qed.

Lemma research_sort_filter_unknown_preset_witness :
  research_sort_filter sample_projects (with_preset sample_config "series_9")
    sample_FILTER_apply sample_presets
  = ([LogWarning "Preset not found: series_9, use default preset";
      LogAttr "Filter_sort" "C-001-MI > E-001-MI > reset"],
     Ok [Index 3; Index 2; Token "reset"]).
Proof.
  exact (proj1 (research_sort_filter_unknown_preset sample_projects
                  (with_preset sample_config "series_9") sample_FILTER_apply
                  sample_presets ltac:(discriminate) eq_refl)
           "S3 > S2 > reset" eq_refl).
Defined.

(** ** Detection of a batch *)

Lemma classify_peaks_range peaks : 0 <= classify_peaks peaks <= 3.
Proof.
  unfold classify_peaks.
  destruct (Z.leb_spec 1 (Z.of_nat peaks)); simpl; [|lia].
  destruct (Z.leb_spec (Z.of_nat peaks) 3); lia.
Qed.

Lemma series_warning_count button peaks :
  length (series_warning button peaks)
  = length (List.filter (Z.eqb 0) [classify_peaks peaks]).
Proof.
  unfold series_warning, classify_peaks.
  destruct (Z.leb_spec 1 (Z.of_nat peaks)); cbn [andb]; [|reflexivity].
  destruct (Z.leb_spec (Z.of_nat peaks) 3); [|reflexivity].
  cbn [List.filter]. destruct (Z.eqb_spec 0 (Z.of_nat peaks)); [lia|reflexivity].
Qed.

(** X16: the series classifier raises nothing and reports one series for each
    button, each of them 0, 1, 2 or 3, with as many warnings as zeros. *)
Theorem get_research_series_range
  (Screenshot : Type) (peak_count : Screenshot -> Area -> nat)
  (RESEARCH_SERIES : list Button) (image : Screenshot) :
  exists log result,
    get_research_series Screenshot peak_count RESEARCH_SERIES image = (log, Ok result)
    /\ length result = length RESEARCH_SERIES
    /\ Forall (fun s => 0 <= s <= 3) result
    /\ length log = length (List.filter (Z.eqb 0) result).
Proof.
  eexists. eexists. split; [apply get_research_series_spec|].
  split; [apply length_map|]. split.
  - apply List.Forall_forall. intros s Hs.
    apply in_map_iff in Hs as (b & <- & _). apply classify_peaks_range.
  - induction RESEARCH_SERIES as [|b buttons IH]; [reflexivity|].
    simpl flat_map. simpl List.map. rewrite length_app, IH, series_warning_count.
    change (classify_peaks (peak_count image (button_area b))
              :: List.map (fun b0 => classify_peaks (peak_count image (button_area b0)))
                   buttons)
      with ([classify_peaks (peak_count image (button_area b))]
              ++ List.map (fun b0 => classify_peaks (peak_count image (button_area b0)))
                   buttons).
    rewrite List.filter_app, length_app. reflexivity.
Qed.

Section DetectFacts.

Variable catalog : list CatalogEntry.
Variable float_str : Q -> string.
Variable Screenshot : Type.
Variable peak_count : Screenshot -> Area -> nat.
Variable RESEARCH_SERIES : list Button.
Variable OCR_RESEARCH_ocr : Screenshot -> list string.

Hypothesis catalog_names : Forall (fun R => data_name R <> "") catalog.

Lemma init_returns name0 series0 :
  exists log r, ResearchProject_init catalog float_str name0 series0 = (log, Ok r).
Proof.
  destruct (init_cases catalog float_str name0 series0)
    as [[_ H]|[(name' & row & rest & Hget & Hrow & _)
              |(name' & row & rest & r & _ & _ & H & _)]]; eauto.
  exfalso. rewrite List.Forall_forall in catalog_names.
  apply (catalog_names row); [|exact Hrow].
  apply (get_data_In_catalog catalog (check_name name0) (check_name name0) series0
           (name', row)).
  rewrite Hget. left. reflexivity.
Qed.

Lemma research_detect_loop pairs :
  forall projects0,
  exists log projects,
    for_each
      (fun projects '(name1, series1) =>
         project <- ResearchProject_init catalog float_str name1 series1 ;;
         logger_attr "Project" (ResearchProject_str project) ;;;
         ret (projects ++ [project]))
      pairs projects0
    = (log, Ok (projects0 ++ projects))
    /\ Forall2
         (fun project pair =>
            outcome (ResearchProject_init catalog float_str (fst pair) (snd pair))
            = Ok project)
         projects pairs.
Proof.
  induction pairs as [|[name1 series1] pairs IH]; intros projects0.
  - exists [], []. split; [simpl; rewrite app_nil_r; reflexivity|constructor].
  - destruct (init_returns name1 series1) as (log1 & r & Hinit).
    destruct (IH (projects0 ++ [r])) as (log & projects & Hloop & Hall).
    rewrite for_each_cons. cbv beta iota.
    exists ((log1 ++ [LogAttr "Project" (ResearchProject_str r)]) ++ log), (r :: projects).
    split.
    + erewrite bind_Ok by (erewrite bind_Ok by exact Hinit;
                           unfold logger_attr; rewrite bind_logged; reflexivity).
      rewrite Hloop. unfold logged, outcome. simpl.
      rewrite <- !app_assoc. reflexivity.
    + constructor; [simpl; rewrite Hinit; reflexivity|exact Hall].
Qed.

End DetectFacts.

(** X17: on a catalog without empty names the detection of a batch raises
    nothing; it returns one record for each pair of a recognised name and
    a series, in the order of the slots, the record the constructor gives
    for that pair: a name that matches nothing stays in the batch as an
    invalid record. *)
Theorem research_detect_one_record_per_slot
  (catalog : list CatalogEntry) (float_str : Q -> string)
  (Screenshot : Type) (peak_count : Screenshot -> Area -> nat)
  (RESEARCH_SERIES : list Button) (OCR_RESEARCH_ocr : Screenshot -> list string)
  (image : Screenshot) :
  Forall (fun R => data_name R <> "") catalog ->
  exists log projects,
    research_detect catalog float_str Screenshot peak_count RESEARCH_SERIES
      OCR_RESEARCH_ocr image
    = (log, Ok projects)
    /\ length projects
       = Nat.min (length (OCR_RESEARCH_ocr image)) (length RESEARCH_SERIES)
    /\ Forall2
         (fun project pair =>
            outcome (ResearchProject_init catalog float_str (fst pair) (snd pair))
            = Ok project)
         projects
         (zip (get_research_name Screenshot OCR_RESEARCH_ocr image)
            (List.map (fun b => classify_peaks (peak_count image (button_area b)))
               RESEARCH_SERIES)).
Proof.
  intros Hnames. unfold research_detect.
  rewrite get_research_series_spec.
  destruct (research_detect_loop catalog float_str Hnames
              (zip (get_research_name Screenshot OCR_RESEARCH_ocr image)
                 (List.map (fun b => classify_peaks (peak_count image (button_area b)))
                    RESEARCH_SERIES)) [])
    as (log & projects & Hloop & Hall).
  eexists. exists projects. split.
  - erewrite bind_Ok by reflexivity. rewrite Hloop. reflexivity.
  - split; [|exact Hall].
    rewrite (Forall2_length _ _ _ Hall), length_zip.
    unfold get_research_name. rewrite !length_map. reflexivity.
Qed.

Lemma research_detect_one_record_per_slot_witness :
  Forall (fun R => data_name R <> "") sample_catalog
  /\ exists log projects,
       research_detect sample_catalog decimal_float_str (list nat) sample_peak_count
         sample_buttons (fun _ => ["D-057-UL"; "X-999-ZZ"; "G-236-ML"])
         [1; 5; 2; 0; 0]%nat
       = (log, Ok projects)
       /\ length projects = 3%nat.
Proof.
  assert (H : Forall (fun R => data_name R <> "") sample_catalog)
    by (unfold sample_catalog; repeat constructor; discriminate).
  split; [exact H|].
  destruct (research_detect_one_record_per_slot sample_catalog decimal_float_str
              (list nat) sample_peak_count sample_buttons
              (fun _ => ["D-057-UL"; "X-999-ZZ"; "G-236-ML"]) [1; 5; 2; 0; 0]%nat H)
    as (log & projects & Hdetect & Hlen & _).
  exists log, projects. split; [exact Hdetect|exact Hlen].
Defined.

(** ** More on the template library *)

Lemma dict_set_keys {V} (d : list (string * V)) k v :
  List.map fst (dict_set d k v)
  = if dict_has k d then List.map fst d else List.map fst d ++ [k].
Proof.
  induction d as [|[k0 v0] d IH]; [reflexivity|]. simpl.
  destruct (String.eqb_spec k0 k) as [->|Hne]; simpl; [reflexivity|].
  rewrite IH. destruct (dict_has k d); reflexivity.
Qed.

Lemma dict_has_In {V} (d : list (string * V)) k :
  dict_has k d = true <-> In k (List.map fst d).
Proof.
  unfold dict_has. rewrite existsb_exists, in_map_iff. split.
  - intros (kv & Hin & Heq). apply String.eqb_eq in Heq. eauto.
  - intros (kv & Heq & Hin). exists kv. split; [exact Hin|]. apply String.eqb_eq, Heq.
Qed.

Lemma dict_set_NoDup {V} (d : list (string * V)) k v :
  NoDup (List.map fst d) -> NoDup (List.map fst (dict_set d k v)).
Proof.
  intros Hnd. rewrite dict_set_keys. destruct (dict_has k d) eqn:Hhas; [exact Hnd|].
  apply NoDup_app. split; [exact Hnd|]. split; [|apply NoDup_singleton].
  intros x Hx Hk. apply list_elem_of_In in Hx. apply list_elem_of_In in Hk.
  destruct Hk as [<-|[]].
  apply dict_has_In in Hx. congruence.
Qed.

Lemma dict_set_has {V} (d : list (string * V)) k v key :
  dict_has key (dict_set d k v) = String.eqb k key || dict_has key d.
Proof.
  destruct (dict_has key (dict_set d k v)) eqn:H1.
  - apply dict_has_lookup in H1 as [w Hw]. rewrite dict_lookup_set in Hw.
    destruct (String.eqb k key); [reflexivity|]. simpl. symmetry.
    apply dict_has_lookup. eauto.
  - destruct (String.eqb k key) eqn:Hk; simpl.
    + assert (dict_has key (dict_set d k v) = true); [|congruence].
      apply dict_has_lookup. rewrite dict_lookup_set, Hk. eauto.
    + destruct (dict_has key d) eqn:H2; [|reflexivity].
      assert (dict_has key (dict_set d k v) = true); [|congruence].
      apply dict_has_lookup in H2 as [w Hw].
      apply dict_has_lookup. rewrite dict_lookup_set, Hk. eauto.
Qed.

Lemma load_folder_NoDup folder files :
  NoDup (List.map fst
           (fold_left
              (fun out file =>
                 dict_set out (OsPath.splitext_root file) (OsPath.join folder file))
              files [])).
Proof.
  induction files as [|file files IH] using rev_ind; [apply NoDup_nil_2|].
  rewrite fold_left_app. simpl. apply dict_set_NoDup, IH.
Qed.

Section LoadMoreFacts.

Variable Image : Type.
Variable Image_open : string -> Outcome Image.

Local Abbreviation step := (load_template_step Image Image_open).

Lemma load_template_loop_NoDup data :
  (forall name file, In (name, file) data -> exists image, Image_open file = Ok image) ->
  forall templates0,
    NoDup (List.map fst templates0) ->
    exists templates,
      for_each step data templates0 = ([], Ok templates)
      /\ NoDup (List.map fst templates).
Proof.
  induction data as [|[n file] data IH]; intros Hopen templates0 Hnd.
  - exists templates0. split; [reflexivity|exact Hnd].
  - assert (Hrest : forall name f, In (name, f) data ->
                                   exists image, Image_open f = Ok image)
      by (intros name f Hin; apply (Hopen name f); right; exact Hin).
    rewrite for_each_cons. unfold load_template_step at 1.
    destruct (dict_has n templates0) eqn:Hhas.
    + rewrite bind_ret_l. apply IH; assumption.
    + destruct (Hopen n file) as [image Himage]; [left; reflexivity|].
      rewrite Himage, bind_nil_Ok, bind_ret_l.
      apply IH; [exact Hrest|]. apply dict_set_NoDup, Hnd.
Qed.

(** A file that does not decode ends the loop with an exception when its
    label is not in the library yet. *)
Lemma load_template_loop_raises data : forall templates0 n file e,
  NoDup (List.map fst data) ->
  In (n, file) data -> dict_has n templates0 = false -> Image_open file = Raise e ->
  exists e', outcome (for_each step data templates0) = Raise e'.
Proof.
  induction data as [|[n1 file1] data IH]; intros templates0 n file e Hnd Hin Hhas Hopen;
    [destruct Hin|].
  simpl in Hnd. apply NoDup_cons in Hnd as [Hn1 Hnd].
  rewrite for_each_cons. destruct Hin as [Heq|Hin].
  - injection Heq as -> ->. exists e. apply outcome_bind_Raise.
    unfold load_template_step. rewrite Hhas, Hopen. reflexivity.
  - assert (Hne : String.eqb n1 n = false).
    { apply String.eqb_neq. intros ->. apply Hn1. apply list_elem_of_In.
      apply in_map_iff. exists (n, file). auto. }
    destruct (outcome (step templates0 (n1, file1))) as [templates1|e1] eqn:Hstep.
    + rewrite (outcome_bind_Ok _ _ _ Hstep).
      apply (IH templates1 n file e Hnd Hin); [|exact Hopen].
      revert Hstep. unfold load_template_step.
      destruct (dict_has n1 templates0); [intros [= <-]; exact Hhas|].
      destruct (Image_open file1) as [image|e1]; [|discriminate].
      rewrite bind_nil_Ok. intros [= <-]. rewrite dict_set_has, Hne, Hhas. reflexivity.
    + exists e1. apply outcome_bind_Raise, Hstep.
Qed.

End LoadMoreFacts.

Lemma last_with_root_Some name files :
  (exists file, last_with_root name files = Some file)
  <-> exists file, In file files /\ OsPath.splitext_root file = name.
Proof.
  unfold last_with_root. split.
  - intros [file H]. apply List.find_some in H as [Hin Heq].
    exists file. split; [apply in_rev, Hin|apply String.eqb_eq, Heq].
  - intros (file & Hin & Heq).
    destruct (List.find _ (rev files)) as [f|] eqn:Hfind; [eauto|].
    exfalso. apply in_rev in Hin.
    pose proof (List.find_none _ _ Hfind file Hin) as Hnone. simpl in Hnone.
    rewrite Heq, String.eqb_refl in Hnone. discriminate.
Qed.

(** X18: when the files of the template directory decode, the labels of the
    library that [MatchTemplate] builds are the base names of the files,
    each label once. *)
Theorem template_labels_are_base_names
  (Image : Type) (fs : string -> FsNode) (Image_open : string -> Outcome Image)
  (folder : string) (files : list string) :
  fs folder = Directory files ->
  (forall file, In file files ->
     exists image, Image_open (OsPath.join folder file) = Ok image) ->
  exists templates,
    MatchTemplate_init Image fs Image_open folder = ([], Ok templates)
    /\ NoDup (List.map fst templates)
    /\ forall name,
         In name (List.map fst templates)
         <-> exists file, In file files /\ OsPath.splitext_root file = name.
Proof.
  intros Hdir Hopen.
  set (data := fold_left
                 (fun out file =>
                    dict_set out (OsPath.splitext_root file) (OsPath.join folder file))
                 files []).
  assert (Hdata : forall name path, In (name, path) data ->
                                    exists image, Image_open path = Ok image).
  { intros name path Hin. apply load_folder_values in Hin as (file & Hfile & ->).
    apply Hopen, Hfile. }
  destruct (load_template_loop Image Image_open data Hdata [])
    as (templates & Hloop & Hlook).
  destruct (load_template_loop_NoDup Image Image_open data Hdata [] (NoDup_nil_2))
    as (templates' & Hloop' & Hnd).
  rewrite Hloop in Hloop'. injection Hloop' as <-.
  exists templates. split; [|split; [exact Hnd|]].
  - unfold MatchTemplate_init, load_template_folder, _load_folder. rewrite Hdir.
    rewrite bind_ret_l. exact Hloop.
  - intros name. rewrite <- dict_has_In, dict_has_lookup, Hlook. simpl.
    unfold data. rewrite load_folder_lookup, <- last_with_root_Some.
    split.
    + intros [image H]. destruct (last_with_root name files) as [file|]; [eauto|].
      discriminate H.
    + intros [file H]. rewrite H. simpl.
      apply List.find_some in H as [Hin _]. apply in_rev in Hin.
      destruct (Hopen file Hin) as [image Himage]. exists image.
      unfold opened. rewrite Himage. reflexivity.
Qed.

Lemma template_labels_are_base_names_witness :
  exists templates,
    MatchTemplate_init string sample_fs sample_open "./assets/jp/research/research_ship"
    = ([], Ok templates)
    /\ NoDup (List.map fst templates)
    /\ forall name,
         In name (List.map fst templates)
         <-> exists file,
               In file ["drake.png"; "mainz.png"; "drake.jpg"]
               /\ OsPath.splitext_root file = name.
Proof.
  apply (template_labels_are_base_names string sample_fs sample_open
           "./assets/jp/research/research_ship" ["drake.png"; "mainz.png"; "drake.jpg"]);
    [reflexivity|].
  intros file _. eexists. reflexivity.
Defined.

(** X19: a file that is the last of the listing with its base name and does
    not decode makes the construction of the library end with an
    exception: no partial library is returned. *)
Theorem template_file_that_fails_to_decode
  (Image : Type) (fs : string -> FsNode) (Image_open : string -> Outcome Image)
  (folder : string) (files : list string) (file : string) (e : PyExc) :
  fs folder = Directory files ->
  last_with_root (OsPath.splitext_root file) files = Some file ->
  Image_open (OsPath.join folder file) = Raise e ->
  exists e', outcome (MatchTemplate_init Image fs Image_open folder) = Raise e'.
Proof.
  intros Hdir Hlast Hopen.
  unfold MatchTemplate_init, load_template_folder, _load_folder. rewrite Hdir.
  rewrite bind_ret_l.
  apply (load_template_loop_raises Image Image_open _ [] (OsPath.splitext_root file)
           (OsPath.join folder file) e);
    [apply load_folder_NoDup| |reflexivity|exact Hopen].
  pose proof (load_folder_lookup folder files (OsPath.splitext_root file)) as Hlook.
  rewrite Hlast in Hlook. simpl in Hlook. unfold dict_lookup in Hlook.
  destruct (List.find _ _) as [[k v]|] eqn:Hfind; [|discriminate Hlook].
  simpl in Hlook. injection Hlook as ->.
  apply List.find_some in Hfind as [Hin Hk]. simpl in Hk.
  apply String.eqb_eq in Hk. subst k. exact Hin.
Qed.

Lemma template_file_that_fails_to_decode_witness :
  exists e',
    outcome (MatchTemplate_init string sample_fs
               (fun file => if String.eqb file "./assets/jp/research/research_ship/mainz.png"
                            then Raise OSError else Ok file)
               "./assets/jp/research/research_ship")
    = Raise e'.
Proof.
  apply (template_file_that_fails_to_decode string sample_fs _
           "./assets/jp/research/research_ship"
           ["drake.png"; "mainz.png"; "drake.jpg"] "mainz.png" OSError);
    reflexivity.
Defined.

(** X20: a template that [cv2] refuses to score makes [match_template] end
    with an exception, whatever the other templates score. *)
Theorem match_template_unscored_template
  (Image : Type) (max_score : Image -> Image -> Outcome Q) (float_str : Q -> string)
  (templates : list (string * Image)) (image : Image) name t e :
  In (name, t) templates -> max_score image t = Raise e ->
  exists e',
    outcome (match_template Image max_score float_str templates image) = Raise e'.
Proof.
  intros Hin Hscore. unfold match_template.
  destruct (for_each_raises (match_template_step Image max_score float_str image)
              templates (name, t) Hin) with (acc := (similarity, ""))
    as [e' He'].
  - intros [s0 r0]. exists e. unfold match_template_step. rewrite Hscore. reflexivity.
  - exists e'. apply outcome_bind_Raise, He'.
Qed.

Lemma match_template_unscored_template_witness :
  exists e',
    outcome (match_template nat
               (fun image t => if Nat.ltb image t then Raise cv2_error
                               else sample_score image t)
               decimal_float_str [("kitakaze", 7%nat); ("drake", 9%nat)] 7%nat)
    = Raise e'.
Proof.
  apply (match_template_unscored_template nat _ decimal_float_str
           [("kitakaze", 7%nat); ("drake", 9%nat)] 7%nat "drake" 9%nat cv2_error);
    [right; left; reflexivity|reflexivity].
Defined.

(** X21: a template directory that does not exist gives an empty library, and
    an empty library classifies every image as the empty label: the genre
    of a JP record read against a missing directory is empty. *)
Theorem missing_template_folder_gives_empty_label
  (Screenshot Image : Type) (fs : string -> FsNode)
  (Image_open : string -> Outcome Image) (max_score : Image -> Image -> Outcome Q)
  (float_str : Q -> string) (crop : Screenshot -> Area -> Image)
  (folder : string) (image : Image) (self : ResearchProject) (screen : Screenshot) :
  (fs folder = Missing ->
   MatchTemplate_init Image fs Image_open folder = ([], Ok [])
   /\ match_template Image max_score float_str [] image
      = ([LogInfo "Matched template: "], Ok ""))
  /\ (fs "./assets/jp/research/research_genre" = Missing ->
      get_research_genre_jp Screenshot Image fs Image_open max_score float_str crop
        self screen
      = ([LogInfo "Matched template: "], Ok (set_genre self ""))).
Proof.
  split.
  - intros Hmissing. split; [|reflexivity].
    unfold MatchTemplate_init, load_template_folder, _load_folder.
    rewrite Hmissing. reflexivity.
  - intros Hmissing.
    unfold get_research_genre_jp, MatchTemplate_init, load_template_folder, _load_folder.
    rewrite Hmissing. reflexivity.
Qed.

Lemma missing_template_folder_gives_empty_label_witness :
  sample_fs "./assets/jp/research/research_genre" = Missing
  /\ get_research_genre_jp string nat sample_fs jp_open sample_score decimal_float_str
       jp_crop (sample_project "" "24") "01:00:00"
     = ([LogInfo "Matched template: "], Ok (set_genre (sample_project "" "24") "")).
Proof.
  split; [reflexivity|].
  apply (missing_template_folder_gives_empty_label string nat sample_fs jp_open
           sample_score decimal_float_str jp_crop "" 7%nat (sample_project "" "24")
           "01:00:00").
  reflexivity.
Defined.

(** ** Times *)

Module TimeFacts.
Import PyStr PyStrFacts.

Lemma digit_value_digit_char d : 0 <= d <= 9 -> digit_value (digit_char d) = d.
Proof.
  intros Hd.
  assert (H : d = 0 \/ d = 1 \/ d = 2 \/ d = 3 \/ d = 4 \/ d = 5 \/ d = 6 \/ d = 7
              \/ d = 8 \/ d = 9) by lia.
  repeat (destruct H as [->|H]; [reflexivity|]). subst d. reflexivity.
Qed.

Lemma is_digit_digit_char d : 0 <= d <= 9 -> is_digit (digit_char d) = true.
Proof.
  intros Hd.
  assert (H : d = 0 \/ d = 1 \/ d = 2 \/ d = 3 \/ d = 4 \/ d = 5 \/ d = 6 \/ d = 7
              \/ d = 8 \/ d = 9) by lia.
  repeat (destruct H as [->|H]; [reflexivity|]). subst d. reflexivity.
Qed.

Lemma int_of_digits_snoc s c :
  int_of_digits (s +:+ String c EmptyString) = 10 * int_of_digits s + digit_value c.
Proof.
  unfold int_of_digits. generalize 0 at 1 2. induction s as [|d r IH]; intros acc.
  - reflexivity.
  - rewrite append_cons. apply IH.
Qed.

Lemma digits_aux_step fuel n :
  digits_aux (S fuel) n EmptyString
  = if n <? 10 then String (digit_char (n mod 10)) EmptyString
    else digits_aux fuel (n / 10) EmptyString +:+ String (digit_char (n mod 10)) EmptyString.
Proof.
  simpl. destruct (n <? 10); [reflexivity|]. apply DurationFacts.digits_aux_acc.
Qed.

Lemma digits_aux_value fuel : forall n,
  0 <= n < 2 ^ Z.of_nat fuel ->
  int_of_digits (digits_aux fuel n EmptyString) = n.
Proof.
  induction fuel as [|fuel IH]; intros n Hn.
  - simpl in Hn. assert (n = 0) by lia. subst. reflexivity.
  - rewrite digits_aux_step. destruct (Z.ltb_spec n 10) as [Hlt|Hge].
    + unfold int_of_digits. rewrite Z.mod_small by lia. simpl.
      apply digit_value_digit_char. lia.
    + rewrite int_of_digits_snoc, IH.
      * rewrite digit_value_digit_char by (pose proof (Z.mod_pos_bound n 10); lia).
        pose proof (Z.div_mod n 10). lia.
      * rewrite Nat2Z.inj_succ, Z.pow_succ_r in Hn by lia.
        split; [apply Z.div_pos; lia|].
        apply Z.div_lt_upper_bound; lia.
Qed.

Lemma str_int_fuel n : 0 <= n -> n < 2 ^ Z.of_nat (S (Z.to_nat (Z.log2 n))).
Proof.
  intros Hn. rewrite Nat2Z.inj_succ, Z2Nat.id by apply Z.log2_nonneg.
  destruct (Z.eq_dec n 0) as [->|Hne]; [reflexivity|].
  apply Z.log2_spec. lia.
Qed.

(** [int] reads back the numeral [str] writes. *)
Lemma int_of_digits_str_int n : 0 <= n -> int_of_digits (str_int n) = n.
Proof.
  intros Hn. unfold str_int. destruct (Z.ltb_spec n 0); [lia|].
  apply digits_aux_value. split; [exact Hn|apply str_int_fuel, Hn].
Qed.

End TimeFacts.

Section TimeParsingFacts.

Variable unicode_decimal : string -> option (Z * string).
Variable int_max_str_digits : nat.

Lemma int_of_values_digit_values d :
  int_of_values (digit_values d) = PyStr.int_of_digits d.
Proof.
  unfold int_of_values, PyStr.int_of_digits. generalize 0.
  induction d as [|c r IH]; intros acc; [reflexivity|]. simpl. apply IH.
Qed.

Lemma length_digit_values d : length (digit_values d) = String.length d.
Proof. induction d as [|c r IH]; [reflexivity|]. simpl. rewrite IH. reflexivity. Qed.

Lemma int_of_group_digit_values d :
  int_refuses int_max_str_digits (String.length d) = false ->
  int_of_group int_max_str_digits (digit_values d) = ([], Ok (PyStr.int_of_digits d)).
Proof.
  intros H. unfold int_of_group. rewrite length_digit_values, H.
  rewrite int_of_values_digit_values. reflexivity.
Qed.

Lemma decimal_at_digit c r :
  PyStr.is_digit c = true ->
  decimal_at unicode_decimal (String c r) = Some (PyStr.digit_value c, r).
Proof. intros H. cbn [decimal_at]. rewrite H. reflexivity. Qed.

Lemma decimal_at_ascii c r :
  ascii_not_digit c = true -> decimal_at unicode_decimal (String c r) = None.
Proof.
  unfold ascii_not_digit. intros H. apply andb_true_iff in H as [Hc Hd].
  apply Nat.ltb_lt in Hc. apply negb_true_iff in Hd.
  cbn [decimal_at]. rewrite Hd.
  destruct (Nat.leb_spec 192 (nat_of_ascii c)) as [Hge|_]; [lia|reflexivity].
Qed.

Lemma decimal_at_stop post :
  stops_digits post = true -> decimal_at unicode_decimal post = None.
Proof. destruct post as [|c r]; [reflexivity|]. apply decimal_at_ascii. Qed.

Lemma length_append a b :
  String.length (a +:+ b) = (String.length a + String.length b)%nat.
Proof.
  induction a as [|c r IH]; [rewrite PyStrFacts.append_nil_l; reflexivity|].
  rewrite PyStrFacts.append_cons. simpl. rewrite IH. reflexivity.
Qed.

Lemma span_digits_fuel_app d post : forall fuel,
  all_digits d = true -> stops_digits post = true ->
  (String.length d <= fuel)%nat ->
  span_digits_fuel unicode_decimal fuel (d +:+ post) = (digit_values d, post).
Proof.
  induction d as [|c r IH]; intros fuel Hd Hpost Hfuel.
  - rewrite PyStrFacts.append_nil_l. destruct fuel as [|fuel]; [reflexivity|].
    cbn [span_digits_fuel]. rewrite (decimal_at_stop _ Hpost). reflexivity.
  - simpl in Hd. apply andb_true_iff in Hd as [Hc Hr].
    destruct fuel as [|fuel]; [simpl in Hfuel; lia|].
    rewrite PyStrFacts.append_cons. cbn [span_digits_fuel].
    rewrite (decimal_at_digit _ _ Hc), (IH fuel Hr Hpost) by (simpl in Hfuel; lia).
    reflexivity.
Qed.

Lemma span_digits_app d post :
  all_digits d = true -> stops_digits post = true ->
  span_digits unicode_decimal (d +:+ post) = (digit_values d, post).
Proof.
  intros Hd Hpost. unfold span_digits.
  apply span_digits_fuel_app; [exact Hd|exact Hpost|].
  rewrite length_append. lia.
Qed.

Lemma span_digits_ascii c r :
  ascii_not_digit c = true ->
  span_digits unicode_decimal (String c r) = ([], String c r).
Proof.
  intros H. unfold span_digits. cbn [String.length span_digits_fuel].
  rewrite (decimal_at_ascii _ _ H). reflexivity.
Qed.

Lemma match_time_at_groups h m s post :
  all_digits h = true -> h <> "" ->
  all_digits m = true -> m <> "" ->
  all_digits s = true -> s <> "" ->
  stops_digits post = true ->
  match_time_at unicode_decimal (h +:+ String ":" (m +:+ String ":" (s +:+ post)))
  = Some (digit_values h, digit_values m, digit_values s).
Proof.
  intros Hh Hh0 Hm Hm0 Hs Hs0 Hpost. unfold match_time_at.
  rewrite (span_digits_app h _ Hh) by reflexivity.
  destruct h as [|ch h']; [congruence|]. cbn [digit_values].
  rewrite (span_digits_app m _ Hm) by reflexivity.
  destruct m as [|cm m']; [congruence|]. cbn [digit_values].
  rewrite (span_digits_app s _ Hs) by exact Hpost.
  destruct s as [|cs s']; [congruence|]. reflexivity.
Qed.

Lemma re_search_time_skip pre text :
  ascii_no_digits pre = true ->
  re_search_time unicode_decimal (pre +:+ text) = re_search_time unicode_decimal text.
Proof.
  induction pre as [|c r IH]; [reflexivity|].
  simpl ascii_no_digits. intros H. apply andb_true_iff in H as [Hc Hr].
  rewrite PyStrFacts.append_cons. cbn [re_search_time].
  unfold match_time_at at 1. rewrite (span_digits_ascii _ _ Hc). apply IH, Hr.
Qed.

Lemma re_search_time_at text groups :
  match_time_at unicode_decimal text = Some groups ->
  re_search_time unicode_decimal text = Some groups.
Proof. intros H. destruct text; cbn [re_search_time]; rewrite H; reflexivity. Qed.

End TimeParsingFacts.

(** X22: a text that holds, after ASCII characters that are not digits,
    three numerals of ASCII digits separated by colons is parsed as that
    many hours, minutes and seconds, with no warning, when the text ends
    after the third numeral or goes on with an ASCII character that is
    not a digit, whatever the minutes and seconds are: they are not
    required to be below sixty.  The numerals are to be short enough for
    [int], and the time small enough for [timedelta].  This holds
    whatever decimal digits the runtime knows outside ASCII. *)
Theorem parse_time_reads_three_numerals
  (unicode_decimal : string -> option (Z * string))
  (int_max_str_digits : nat) pre h m s post :
  ascii_no_digits pre = true ->
  all_digits h = true -> h <> "" ->
  all_digits m = true -> m <> "" ->
  all_digits s = true -> s <> "" ->
  stops_digits post = true ->
  int_refuses int_max_str_digits (String.length h) = false ->
  int_refuses int_max_str_digits (String.length m) = false ->
  int_refuses int_max_str_digits (String.length s) = false ->
  let total :=
    PyStr.int_of_digits h * 3600 + PyStr.int_of_digits m * 60 + PyStr.int_of_digits s in
  total / 86400 <= 999999999 ->
  _parse_time unicode_decimal int_max_str_digits
    (pre +:+ h +:+ ":" +:+ m +:+ ":" +:+ s +:+ post)
  = ([], Ok (Some total)).
Proof.
  intros Hpre Hh Hh0 Hm Hm0 Hs Hs0 Hpost Hlh Hlm Hls total Hbound. unfold _parse_time.
  change (pre +:+ h +:+ ":" +:+ m +:+ ":" +:+ s +:+ post)
    with (pre +:+ (h +:+ String ":" (m +:+ String ":" (s +:+ post)))).
  rewrite (re_search_time_skip unicode_decimal pre _ Hpre).
  rewrite (re_search_time_at unicode_decimal _ _
             (match_time_at_groups unicode_decimal h m s post
                Hh Hh0 Hm Hm0 Hs Hs0 Hpost)).
  rewrite (int_of_group_digit_values int_max_str_digits h Hlh), bind_nil_Ok.
  rewrite (int_of_group_digit_values int_max_str_digits m Hlm), bind_nil_Ok.
  rewrite (int_of_group_digit_values int_max_str_digits s Hls), bind_nil_Ok.
  unfold timedelta. fold total.
  destruct (Z.gtb_spec (total / 86400) 999999999) as [Hgt|_]; [lia|].
  rewrite bind_ret_l. reflexivity.
Qed.

Lemma parse_time_reads_three_numerals_witness :
  _parse_time arabic_indic_decimal 4300%nat
    ("x " +:+ "05" +:+ ":" +:+ "90" +:+ ":" +:+ "10" +:+ " left")
  = ([], Ok (Some 23410)).
Proof.
  apply (parse_time_reads_three_numerals arabic_indic_decimal 4300%nat
           "x " "05" "90" "10" " left");
    try reflexivity; try discriminate.
Defined.

(** Digits outside ASCII are read as well: with the Arabic-Indic digits
    known to the runtime, a time written in them is parsed, a third
    numeral goes on through such a digit, and without them the same text
    has no time. *)
Example parse_time_arabic_indic :
  _parse_time arabic_indic_decimal 4300%nat "٩:٩:٩ " = ([], Ok (Some 32949))
  /\ _parse_time arabic_indic_decimal 4300%nat "1:2:3٤" = ([], Ok (Some 3754))
  /\ _parse_time no_unicode_decimal 0%nat "1:2:3٤" = ([], Ok (Some 3723))
  /\ outcome (_parse_time no_unicode_decimal 0%nat "٩:٩:٩ ") = Ok None.
Proof. repeat split; reflexivity. Qed.

(** A numeral of more digits than [int] takes is refused, whatever its
    value, where there is a limit. *)
Example parse_time_long_numeral :
  outcome (_parse_time no_unicode_decimal 4300%nat (zeros 4300 +:+ "1:02:03"))
  = Raise ValueError
  /\ outcome (_parse_time no_unicode_decimal 4300%nat (zeros 4299 +:+ "1:02:03"))
     = Ok (Some 3723)
  /\ outcome (_parse_time no_unicode_decimal 0%nat (zeros 4300 +:+ "1:02:03"))
     = Ok (Some 3723).
Proof. repeat split; vm_compute; reflexivity. Qed.

(** ** The JP record *)

Lemma bind_Ok_inv {A B} (m : Py A) (k : A -> Py B) log b :
  bind m k = (log, Ok b) ->
  exists l1 a l2, m = (l1, Ok a) /\ k a = (l2, Ok b) /\ log = l1 ++ l2.
Proof.
  destruct m as [l1 [a|e]]; unfold bind; [|discriminate].
  destruct (k a) as [l2 r] eqn:Hk. intros [= <- ->]. eauto 6.
Qed.

Section JpRecordFacts.

Variable Screenshot Image : Type.
Variable fs : string -> FsNode.
Variable Image_open : string -> Outcome Image.
Variable max_score : Image -> Image -> Outcome Q.
Variable float_str : Q -> string.
Variable peak_count : Screenshot -> Area -> nat.
Variable crop : Screenshot -> Area -> Image.
Variable ocr : string -> Screenshot -> Area -> string.
Variable _stats_items_num_is_odd : Screenshot -> bool.
Variable unicode_decimal : string -> option (Z * string).
Variable int_max_str_digits : nat.

Lemma get_research_series_jp_eq self image :
  let count := Z.of_nat (peak_count image (285, 109, 319, 134)) in
  let self1 :=
    if (1 <=? count) && (count <=? 3)
    then set_series self ("S" +:+ PyStr.str_int count)
    else set_valid (set_series self "") false in
  get_research_series_jp Screenshot peak_count self image
  = ([LogInfo ("Series: " +:+ series self1)], Ok self1).
Proof.
  intros count self1. unfold get_research_series_jp, logger_info.
  rewrite bind_logged. reflexivity.
Qed.

Lemma get_research_duration_jp_Ok self image log self' :
  get_research_duration_jp Screenshot float_str ocr unicode_decimal int_max_str_digits
    self image
  = (log, Ok self') ->
  exists t,
    outcome (_parse_time unicode_decimal int_max_str_digits
               (ocr "0123456789:" image DURATION_area))
    = Ok (Some t)
    /\ self' = set_duration self (duration_of_seconds float_str t).
Proof.
  unfold get_research_duration_jp. change (790, 275, 911, 321) with DURATION_area.
  intros H. apply bind_Ok_inv in H as (l1 & parsed & l2 & Hparse & H & _).
  destruct parsed as [t|]; [|discriminate H].
  exists t. rewrite Hparse. split; [reflexivity|].
  rewrite bind_ret_l in H. unfold logger_info in H. rewrite bind_logged in H.
  injection H as _ <-. reflexivity.
Qed.

Lemma get_research_genre_jp_Ok self image log self' :
  get_research_genre_jp Screenshot Image fs Image_open max_score float_str crop self image
  = (log, Ok self') ->
  exists g, self' = set_genre self g.
Proof.
  unfold get_research_genre_jp. intros H.
  apply bind_Ok_inv in H as (l1 & templates & l2 & _ & H & _).
  apply bind_Ok_inv in H as (l3 & result & l4 & _ & H & _).
  injection H as _ <-. eauto.
Qed.

Lemma get_research_ship_jp_Ok self image log self' :
  get_research_ship_jp Screenshot Image fs Image_open max_score float_str crop
    _stats_items_num_is_odd self image
  = (log, Ok self') ->
  exists sh, self' = set_ship self sh.
Proof.
  unfold get_research_ship_jp. intros H.
  apply bind_Ok_inv in H as (l0 & saved & l0' & _ & H & _).
  apply bind_Ok_inv in H as (l1 & templates & l2 & _ & H & _).
  apply bind_Ok_inv in H as (l3 & result & l4 & _ & H & _).
  injection H as _ <-. eauto.
Qed.

(** The crop of the ship is saved under [./log/ship] before any template
    is loaded: without that folder the step ends with
    [FileNotFoundError] and nothing logged. *)
Lemma get_research_ship_jp_without_log_folder self image :
  fs "./log" <> RegularFile ->
  fs "./log/ship" = Missing ->
  get_research_ship_jp Screenshot Image fs Image_open max_score float_str crop
    _stats_items_num_is_odd self image
  = ([], Raise FileNotFoundError).
Proof.
  intros Hlog H. unfold get_research_ship_jp, save_ship_crop. rewrite H.
  destruct (fs "./log"); [reflexivity|congruence|reflexivity].
Qed.

End JpRecordFacts.

(** X23: a JP record that is constructed is valid exactly when one, two or
    three peaks are counted under the series button, and its series is
    "S" with that count, or empty; it never needs a resource; its
    duration is the one of the time parsed under the duration button; it
    has a ship only when its genre is "D", with the rarity that goes with
    the ship; and its name is made of its series, genre, duration and
    ship. *)
Theorem ResearchProjectJp_record
  (Screenshot Image : Type) (fs : string -> FsNode)
  (Image_open : string -> Outcome Image) (max_score : Image -> Image -> Outcome Q)
  (float_str : Q -> string) (peak_count : Screenshot -> Area -> nat)
  (crop : Screenshot -> Area -> Image) (ocr : string -> Screenshot -> Area -> string)
  (_stats_items_num_is_odd : Screenshot -> bool)
  (unicode_decimal : string -> option (Z * string))
  (int_max_str_digits : nat) (image : Screenshot) log r :
  ResearchProjectJp_init Screenshot Image fs Image_open max_score float_str
    peak_count crop ocr _stats_items_num_is_odd unicode_decimal int_max_str_digits image
  = (log, Ok r) ->
  let count := Z.of_nat (peak_count image (285, 109, 319, 134)) in
  (valid r = true <-> 1 <= count <= 3)
  /\ series r = (if (1 <=? count) && (count <=? 3) then "S" +:+ PyStr.str_int count else "")
  /\ need_coin r = false /\ need_cube r = false /\ need_part r = false
  /\ (exists t,
         outcome (_parse_time unicode_decimal int_max_str_digits
                    (ocr "0123456789:" image DURATION_area))
         = Ok (Some t)
         /\ duration r = duration_of_seconds float_str t)
  /\ (genre r <> "D" -> ship r = "")
  /\ ship_rarity r = rarity_of (ship r)
  /\ name r = series r +:+ "-" +:+ genre r +:+ "-" +:+ duration r +:+ " " +:+ ship r.
Proof.
  intros Hinit count. unfold ResearchProjectJp_init in Hinit.
  apply bind_Ok_inv in Hinit as (l1 & self1 & k1 & Hseries_eq & Hinit & _).
  rewrite get_research_series_jp_eq in Hseries_eq. fold count in Hseries_eq.
  injection Hseries_eq as _ Hself1.
  apply bind_Ok_inv in Hinit as (l2 & self2 & k2 & Hduration & Hinit & _).
  apply get_research_duration_jp_Ok in Hduration as (t & Hparse & ->).
  apply bind_Ok_inv in Hinit as (l3 & self3 & k3 & Hgenre & Hinit & _).
  apply get_research_genre_jp_Ok in Hgenre as (g & ->).
  apply bind_Ok_inv in Hinit as (l4 & self4 & k4 & Hship_eq & Hinit & _).
  unfold logger_info in Hinit. rewrite bind_logged in Hinit.
  injection Hinit as _ <-.
  assert (Hvalid : valid self1 = true <-> 1 <= count <= 3).
  { subst self1. destruct (Z.leb_spec 1 count), (Z.leb_spec count 3); simpl;
      split; intros; try lia; try discriminate; reflexivity. }
  assert (Hseries : series self1
                    = if (1 <=? count) && (count <=? 3)
                      then "S" +:+ PyStr.str_int count else "").
  { subst self1. destruct ((1 <=? count) && (count <=? 3)); reflexivity. }
  assert (Hneeds : need_coin self1 = false /\ need_cube self1 = false
                   /\ need_part self1 = false /\ ship self1 = ""
                   /\ ship_rarity self1 = "").
  { subst self1. destruct ((1 <=? count) && (count <=? 3)); repeat split. }
  destruct Hneeds as (Hcoin & Hcube & Hpart & Hship & Hrar).
  clear Hself1. simpl genre in Hship_eq.
  destruct (String.eqb_spec g "D") as [->|Hg].
  - apply get_research_ship_jp_Ok in Hship_eq as (sh & ->). simpl.
    destruct (String.eqb sh "") eqn:Hsh; simpl;
      rewrite ?Hcoin, ?Hcube, ?Hpart, ?Hseries;
      (split; [exact Hvalid|]); repeat split; eauto; try congruence.
    + unfold rarity_of. rewrite Hsh. exact Hrar.
    + unfold rarity_of. rewrite Hsh. reflexivity.
  - injection Hship_eq as _ <-. simpl. rewrite Hship. simpl.
    rewrite ?Hcoin, ?Hcube, ?Hpart, ?Hseries, ?Hship, ?Hrar.
    (split; [exact Hvalid|]); repeat split; eauto.
Qed.

Lemma ResearchProjectJp_record_witness :
  exists log r,
    ResearchProjectJp_init string nat sample_fs jp_open sample_score decimal_float_str
      jp_peak_count jp_crop jp_ocr jp_items_odd arabic_indic_decimal 4300%nat "01:30:00"
    = (log, Ok r)
    /\ (valid r = true <-> 1 <= 2 <= 3)
    /\ duration r = "1.5"
    /\ name r = series r +:+ "-" +:+ genre r +:+ "-" +:+ duration r +:+ " " +:+ ship r.
Proof.
  eexists. eexists. split; [reflexivity|].
  destruct (ResearchProjectJp_record string nat sample_fs jp_open sample_score
              decimal_float_str jp_peak_count jp_crop jp_ocr jp_items_odd
              arabic_indic_decimal 4300%nat "01:30:00" _ _ eq_refl)
    as (Hvalid & _ & _ & _ & _ & _ & _ & _ & Hname).
  split; [exact Hvalid|]. split; [reflexivity|exact Hname].
Defined.

(** A record of genre "D" has the crop of its ship saved before the ship
    is matched; without the folder [./log/ship] its construction ends
    with [FileNotFoundError]. *)
Example ResearchProjectJp_ship_sample :
  exists log r,
    ResearchProjectJp_init string nat dock_fs jp_open sample_score decimal_float_str
      jp_peak_count jp_crop jp_ocr jp_items_odd arabic_indic_decimal 4300%nat "01:30:00"
    = (log, Ok r)
    /\ name r = "S2-D-1.5 drake" /\ ship r = "drake" /\ ship_rarity r = "dr".
Proof. eexists. eexists. split; [reflexivity|]. repeat split. Qed.

Example ResearchProjectJp_without_log_folder :
  ResearchProjectJp_init string nat bare_fs jp_open sample_score decimal_float_str
    jp_peak_count jp_crop jp_ocr jp_items_odd arabic_indic_decimal 4300%nat "01:30:00"
  = ([LogInfo "Series: S2"; LogInfo "Duration: 1.5"; LogInfo "D 1.0";
      LogInfo "Matched template: D"],
     Raise FileNotFoundError).
Proof. reflexivity. Qed.

(** ** Recognised names *)

Lemma replace_free_prefix a old' new p text :
  free_of a p = true ->
  PyStr.replace (String a old') new (p +:+ text)
  = p +:+ PyStr.replace (String a old') new text.
Proof.
  unfold PyStr.replace. induction p as [|c r IH]; [reflexivity|].
  simpl free_of. intros H. apply andb_true_iff in H as [Hc Hr].
  apply negb_true_iff in Hc. rewrite !PyStrFacts.append_cons.
  simpl PyStr.replace_aux.
  destruct (ascii_dec a c) as [->|_]; [rewrite Ascii.eqb_refl in Hc; discriminate|].
  rewrite (IH Hr). reflexivity.
Qed.

(** X24: the names the module returns are the recognised strings, one for
    one; a string that ends in "ML" or in "MIL" after a part without the
    letter M is returned with "MI" in place of that ending, and a string
    without the letter M is returned as it is. *)
Theorem get_research_name_corrects_ending
  (Screenshot : Type) (OCR_RESEARCH_ocr : Screenshot -> list string)
  (image : Screenshot) (i : nat) (p : string) :
  free_of "M" p = true ->
  length (get_research_name Screenshot OCR_RESEARCH_ocr image)
  = length (OCR_RESEARCH_ocr image)
  /\ (OCR_RESEARCH_ocr image !! i = Some (p +:+ "ML") ->
      get_research_name Screenshot OCR_RESEARCH_ocr image !! i = Some (p +:+ "MI"))
  /\ (OCR_RESEARCH_ocr image !! i = Some (p +:+ "MIL") ->
      get_research_name Screenshot OCR_RESEARCH_ocr image !! i = Some (p +:+ "MI"))
  /\ (OCR_RESEARCH_ocr image !! i = Some (p +:+ "MI") ->
      get_research_name Screenshot OCR_RESEARCH_ocr image !! i = Some (p +:+ "MI"))
  /\ (OCR_RESEARCH_ocr image !! i = Some p ->
      get_research_name Screenshot OCR_RESEARCH_ocr image !! i = Some p).
Proof.
  intros Hp. unfold get_research_name.
  split; [apply length_map|].
  assert (Hlookup : forall text,
             OCR_RESEARCH_ocr image !! i = Some (p +:+ text) ->
             List.map (fun name0 => PyStr.replace "MIL" "MI" (PyStr.replace "ML" "MI" name0))
               (OCR_RESEARCH_ocr image) !! i
             = Some (p +:+ PyStr.replace "MIL" "MI" (PyStr.replace "ML" "MI" text))).
  { intros text H. change (@List.map) with (@fmap list _).
    rewrite list_lookup_fmap, H. simpl.
    rewrite !(replace_free_prefix "M" _ _ p _ Hp). reflexivity. }
  repeat split; intros H.
  - apply (Hlookup "ML"), H.
  - apply (Hlookup "MIL"), H.
  - apply (Hlookup "MI"), H.
  - rewrite <- (PyStrFacts.append_nil_r p) in H.
    rewrite (Hlookup "" H). simpl. rewrite PyStrFacts.append_nil_r. reflexivity.
Qed.

Lemma get_research_name_corrects_ending_witness :
  get_research_name unit (fun _ => ["D-057-UL"; "D-022-ML"]) tt !! 1%nat
  = Some ("D-022-" +:+ "MI").
Proof.
  exact (proj1 (proj2 (get_research_name_corrects_ending unit
                         (fun _ => ["D-057-UL"; "D-022-ML"]) tt 1%nat "D-022-" eq_refl))
           eq_refl).
Defined.

Lemma research_check_filter_raises_iff_witness :
  ~ Forall (index_in_range sample_projects) [Index 0; Index 5]
  /\ outcome (_research_check_filter sample_projects sample_config [Index 0; Index 5])
     = Raise IndexError.
Proof.
  assert (H : ~ Forall (index_in_range sample_projects) [Index 0; Index 5]).
  { intros HF. inversion HF as [|? ? _ HF1]; subst.
    inversion HF1 as [|? ? H5 _]; subst. simpl in H5. lia. }
  split; [exact H|].
  apply (proj1 (proj2 (research_check_filter_raises_iff sample_projects sample_config
                         [Index 0; Index 5])) H).
Defined.

(** ** Detection of a JP batch *)

Section JpBatchFacts.

Variable Screenshot Image : Type.
Variable fs : string -> FsNode.
Variable Image_open : string -> Outcome Image.
Variable max_score : Image -> Image -> Outcome Q.
Variable float_str : Q -> string.
Variable peak_count : Screenshot -> Area -> nat.
Variable crop : Screenshot -> Area -> Image.
Variable ocr : string -> Screenshot -> Area -> string.
Variable _stats_items_num_is_odd : Screenshot -> bool.
Variable unicode_decimal : string -> option (Z * string).
Variable int_max_str_digits : nat.

Local Abbreviation init :=
  (ResearchProjectJp_init Screenshot Image fs Image_open max_score float_str
     peak_count crop ocr _stats_items_num_is_odd unicode_decimal int_max_str_digits).

Lemma research_detect_jp_loop images : forall projects0 log projects,
  for_each
    (fun projects image =>
       project <- init image ;;
       logger_attr "Project" (name project) ;;;
       ret (projects ++ [project]))
    images projects0
  = (log, Ok projects) ->
  exists added,
    projects = projects0 ++ added
    /\ Forall2 (fun project image => outcome (init image) = Ok project) added images.
Proof.
  induction images as [|image images IH]; intros projects0 log projects H.
  - injection H as _ <-. exists []. split; [symmetry; apply app_nil_r|constructor].
  - rewrite for_each_cons in H.
    apply bind_Ok_inv in H as (l1 & projects1 & l2 & Hstep & Hrest & _).
    apply bind_Ok_inv in Hstep as (l3 & project & l4 & Hinit & Hstep & _).
    unfold logger_attr in Hstep. rewrite bind_logged in Hstep.
    injection Hstep as _ <-.
    destruct (IH _ _ _ Hrest) as (added & -> & Hall).
    exists (project :: added). split; [rewrite <- app_assoc; reflexivity|].
    constructor; [rewrite Hinit; reflexivity|exact Hall].
Qed.

End JpBatchFacts.

(** X25: when the detection of a JP batch returns, it returns one record for
    each screenshot, in the order of the screenshots, each the record the
    constructor gives for its screenshot. *)
Theorem research_detect_jp_one_record_per_screenshot
  (Screenshot Image : Type) (fs : string -> FsNode)
  (Image_open : string -> Outcome Image) (max_score : Image -> Image -> Outcome Q)
  (float_str : Q -> string) (peak_count : Screenshot -> Area -> nat)
  (crop : Screenshot -> Area -> Image) (ocr : string -> Screenshot -> Area -> string)
  (_stats_items_num_is_odd : Screenshot -> bool)
  (unicode_decimal : string -> option (Z * string))
  (int_max_str_digits : nat) (images : list Screenshot)
  log projects :
  research_detect_jp Screenshot Image fs Image_open max_score float_str
    peak_count crop ocr _stats_items_num_is_odd unicode_decimal int_max_str_digits images
  = (log, Ok projects) ->
  length projects = length images
  /\ Forall2
       (fun project image =>
          outcome (ResearchProjectJp_init Screenshot Image fs Image_open max_score
                     float_str peak_count crop ocr _stats_items_num_is_odd
                     unicode_decimal int_max_str_digits image)
          = Ok project)
       projects images.
Proof.
  intros H. unfold research_detect_jp in H.
  apply research_detect_jp_loop in H as (added & -> & Hall).
  split; [exact (Forall2_length _ _ _ Hall)|exact Hall].
Qed.

Lemma research_detect_jp_one_record_per_screenshot_witness :
  exists log projects,
    research_detect_jp string nat sample_fs jp_open sample_score decimal_float_str
      jp_peak_count jp_crop jp_ocr jp_items_odd arabic_indic_decimal 4300%nat
      ["01:30:00"; "02:00:00"]
    = (log, Ok projects)
    /\ length projects = 2%nat.
Proof.
  eexists. eexists. split; [reflexivity|].
  apply (research_detect_jp_one_record_per_screenshot string nat sample_fs jp_open
           sample_score decimal_float_str jp_peak_count jp_crop jp_ocr jp_items_odd
           arabic_indic_decimal 4300%nat ["01:30:00"; "02:00:00"] _ _ eq_refl).
Defined.
